(** * A shallow embedding of [app.py], the GPT news assistant

    [app.py] is a Streamlit script: an intent classifier, an RSS retriever,
    a per-article crawler and summarizer, a chat responder, a Notion
    archive writer and the page script that wires them to the session
    store.  Every external service (language model, feed parser, headless
    browser, Notion client, clocks) is an oracle of the environment; the
    Python control flow around the oracles (try/except/finally, [with],
    loops, early returns, [st.rerun]) is modelled as written. *)

From Stdlib Require Import List String Ascii Arith Bool Lia DecimalString.
Import ListNotations.
Open Scope string_scope.
Open Scope list_scope.
Open Scope nat_scope.

Set Implicit Arguments.

(** String concatenation, [s + t] and the pieces of an f-string. *)
Infix "+++" := String.append (at level 60, right associativity).

(* ------------------------------------------------------------------ *)
(** ** Python strings

    A [str] is kept as its UTF-8 encoding ([String.string], one byte per
    [ascii]).  Code points are recovered from the lead bytes where the
    source counts characters. *)

Module PyStr.

(** The escape [\n] of the source. *)
Definition nl : string := String (ascii_of_nat 10) EmptyString.

(** [str(i)] / [f"{i}"] for a non-negative [int]. *)
Definition of_nat (n : nat) : string :=
  NilEmpty.string_of_uint (Nat.to_uint n).

(** A UTF-8 continuation byte, [10xxxxxx]. *)
Definition is_cont (a : ascii) : bool :=
  let n := nat_of_ascii a in (128 <=? n) && (n <? 192).

(** [s[:n]]: the first [n] code points of [s]. *)
Fixpoint slice_to (n : nat) (s : string) : string :=
  match s with
  | EmptyString => EmptyString
  | String a rest =>
      if is_cont a then String a (slice_to n rest)
      else match n with
           | 0 => EmptyString
           | S m => String a (slice_to m rest)
           end
  end.

(** The code points of [s], each as the string of its bytes. *)
Fixpoint chars_aux (cur : string) (s : string) : list string :=
  match s with
  | EmptyString => match cur with EmptyString => [] | _ => [cur] end
  | String a rest =>
      if is_cont a then chars_aux (cur ++ String a EmptyString)%string rest
      else match cur with
           | EmptyString => chars_aux (String a EmptyString) rest
           | _ => cur :: chars_aux (String a EmptyString) rest
           end
  end.

Definition chars (s : string) : list string := chars_aux EmptyString s.

Definition join (cs : list string) : string :=
  fold_right String.append EmptyString cs.

(** [needle in hay]. *)
Fixpoint contains (needle hay : string) : bool :=
  String.prefix needle hay
  || match hay with
     | EmptyString => false
     | String _ rest => contains needle rest
     end.

(** What [in] decides: [needle] occurs somewhere inside [hay]. *)
Definition Substring (needle hay : string) : Prop :=
  exists pre post, hay = (pre ++ needle ++ post)%string.

(** Truthiness of a [str]. *)
Definition truthy (s : string) : bool :=
  match s with EmptyString => false | _ => true end.

Section Unicode.
(** The two tables of the Unicode database that [str.upper] and
    [str.strip] consult, per code point: the full upper-case mapping
    (one code point may map to several) and the white-space
    predicate. *)
Variable uc_upper : string -> string.
Variable uc_isspace : string -> bool.

Fixpoint lstrip_chars (cs : list string) : list string :=
  match cs with
  | [] => []
  | c :: rest => if uc_isspace c then lstrip_chars rest else cs
  end.

(** [s.strip()] *)
Definition strip (s : string) : string :=
  join (rev (lstrip_chars (rev (lstrip_chars (chars s))))).

(** [s.upper()] *)
Definition upper (s : string) : string :=
  join (map uc_upper (chars s)).
End Unicode.

(** The ASCII rows of the two tables; every other code point is mapped
    to itself and is not white space.  Used to run the model on
    concrete replies. *)
Definition ascii_upper (c : string) : string :=
  match c with
  | String a EmptyString =>
      let n := nat_of_ascii a in
      if (97 <=? n) && (n <=? 122)
      then String (ascii_of_nat (n - 32)) EmptyString
      else c
  | _ => c
  end.

Definition ascii_isspace (c : string) : bool :=
  match c with
  | String a EmptyString =>
      let n := nat_of_ascii a in
      ((9 <=? n) && (n <=? 13)) || ((28 <=? n) && (n <=? 32))
  | _ => false
  end.

(** [urllib.parse.quote(s)] with its default [safe='/']: the UTF-8
    bytes of [s], every byte outside [A-Za-z0-9_.-~/] as [%XX]. *)
Definition hex_digit (n : nat) : ascii :=
  if n <? 10 then ascii_of_nat (48 + n) else ascii_of_nat (55 + n).

Definition always_safe (a : ascii) : bool :=
  let n := nat_of_ascii a in
  ((48 <=? n) && (n <=? 57)) || ((65 <=? n) && (n <=? 90))
  || ((97 <=? n) && (n <=? 122))
  || (n =? 95) || (n =? 46) || (n =? 45) || (n =? 126) || (n =? 47).

Fixpoint quote (s : string) : string :=
  match s with
  | EmptyString => EmptyString
  | String a rest =>
      if always_safe a then String a (quote rest)
      else
        let n := nat_of_ascii a in
        String "%" (String (hex_digit (n / 16))
                      (String (hex_digit (n mod 16)) (quote rest)))
  end.

End PyStr.


(* ------------------------------------------------------------------ *)
(** ** Exceptions and the two effect monads

    [exn] stands for an instance of Python's [Exception]: what
    [except Exception as e] catches, with [str(e)].  Code that touches no
    session state runs in [outcome]; code that reads or writes the world
    runs in [StateExn]. *)

Record exn := Exn { exn_class : string; exn_str : string }.

Inductive outcome (A : Type) : Type :=
| Ret (a : A)
| Raise (e : exn).

Arguments Ret {A} a.
Arguments Raise {A} e.

Definition StateExn (S A : Type) : Type := S -> outcome A * S.

Class Monad (M : Type -> Type) : Type :=
  { ret : forall {A}, A -> M A;
    bind : forall {A B}, M A -> (A -> M B) -> M B;
    (** [try: m  except Exception as e: h e] *)
    try_except : forall {A}, M A -> (exn -> M A) -> M A;
    (** [try: m  finally: fin]; an exception of [fin] replaces the
        result of [m]. *)
    try_finally : forall {A}, M A -> M unit -> M A }.

#[global] Instance outcome_Monad : Monad outcome :=
  { ret := fun A a => Ret a;
    bind := fun A B m k =>
      match m with Ret a => k a | Raise e => Raise e end;
    try_except := fun A m h =>
      match m with Ret a => Ret a | Raise e => h e end;
    try_finally := fun A m fin =>
      match fin with Ret _ => m | Raise e => Raise e end }.

#[global] Instance StateExn_Monad (S : Type) : Monad (StateExn S) :=
  { ret := fun A a s => (Ret a, s);
    bind := fun A B m k s =>
      match m s with
      | (Ret a, s') => k a s'
      | (Raise e, s') => (Raise e, s')
      end;
    try_except := fun A m h s =>
      match m s with
      | (Ret a, s') => (Ret a, s')
      | (Raise e, s') => h e s'
      end;
    try_finally := fun A m fin s =>
      let (r, s') := m s in
      match fin s' with
      | (Ret _, s'') => (r, s'')
      | (Raise e, s'') => (Raise e, s'')
      end }.

Declare Scope py_scope.
Delimit Scope py_scope with py.
Notation "x <- c ;; k" := (bind c (fun x => k))
  (at level 100, c at next level, right associativity) : py_scope.
Notation "c ;;; k" := (bind c (fun _ => k))
  (at level 100, right associativity) : py_scope.
Open Scope py_scope.

(** An effect-free step inside stateful code. *)
Definition lift {S A : Type} (m : outcome A) : StateExn S A :=
  fun s => (m, s).

(** [async with cm as p: body]: [__aexit__] runs once [__aenter__] has
    succeeded, and does not swallow the body's exception. *)
Definition async_with {A : Type}
  (aenter aexit : outcome unit) (body : outcome A) : outcome A :=
  _ <- aenter ;; try_finally body aexit.

(* ------------------------------------------------------------------ *)
(** ** Data model: the dictionaries and objects the script passes around *)

(** One item of the parsed feed.  A feed item may lack a title or a
    link; the entry then has no such key, and the attribute reads
    [entry.title] and [entry.link] raise [AttributeError]. *)
Module Entry.
Record t := mk { title : option string; link : option string }.
End Entry.

(** [{"title": ..., "link": ..., "summary": ...}]; the summary is whatever
    [crawl_and_summarize] returned, a [str] or [None]. *)
Module Article.
Record t := mk { title : string; link : string; summary : option string }.
End Article.

(** A chat dictionary.  The entries of [st.session_state.messages] and of
    the [messages] argument of the model have the keys ["role"] and
    ["content"]; assistant news turns add ["timestamp"] (the [float] of
    [time.time()], kept as the text an f-string prints for it) and, when
    there are results, ["news_results"]. *)
Module Message.
Record t := mk
  { role : string;
    content : option string;
    timestamp : option string;
    news_results : option (list Article.t) }.
Definition plain (r : string) (c : option string) : t := mk r c None None.
End Message.

(** [{"keyword", "results", "timestamp"}] of the automatic collection. *)
Module Collection.
Record t := mk
  { keyword : string; results : list Article.t; timestamp : string }.
End Collection.

(** [{"id", "type", "keyword", "hour", "minute", "active"}]. *)
Module Schedule.
Record t := mk
  { id : nat; type : string; keyword : string;
    hour : nat; minute : nat; active : bool }.
End Schedule.

(** The arguments of [client.chat.completions.create]. *)
Module ChatRequest.
Record t := mk
  { model : string;
    messages : list Message.t;
    max_tokens : option nat;
    temperature : option string }.
End ChatRequest.

(** A completion: [response.choices[i].message.content], which the API
    may leave [None]. *)
Module ChatResponse.
Record t := mk { choices : list (option string) }.
End ChatResponse.

(** The page [notion.pages.create] is asked to create. *)
Module Page.
Inductive block : Type :=
| heading_2 (text : string)
| paragraph (text : option string).
Record t := mk
  { parent_page_id : option string;
    title : string;
    children : list block }.
End Page.

(** [st.session_state]: the four collections of the session. *)
Module SessionState.
Record t := mk
  { messages : list Message.t;
    schedules : list Schedule.t;
    collected_news : list Collection.t;
    last_check_time : list (string * string) }.
(** Lines 166-173: what a new session starts from. *)
Definition fresh : t := mk [] [] [] [].
End SessionState.

(** What the script shows on the page. *)
Inductive ui_element : Type :=
| st_error_box (text : string)
| st_toast_box (text : string)
| st_chat_markdown (role : string) (text : option string).

(** Invocations of the Archive Writer and of Auto-Collect, in order. *)
Inductive call : Type :=
| call_save_to_notion (title : string) (summary : option string) (link : string)
| call_auto_collect_news (keyword : string).

(** The world a script run acts on: the session store, the pages of the
    notes workspace, what has been shown, and the call log. *)
Record World := mkWorld
  { session : SessionState.t;
    notion_pages : list Page.t;
    ui : list ui_element;
    calls : list call }.

(** One headless-browser session of [crawl_and_summarize]: the outcome of
    each external step it takes. *)
Record BrowserRun := mkBrowserRun
  { playwright_aenter : outcome unit;
    chromium_launch : outcome unit;
    browser_new_page : outcome unit;
    page_goto : string -> outcome unit;
    page_inner_text : outcome string;
    summary_create : ChatRequest.t -> outcome ChatResponse.t;
    browser_close : outcome unit;
    playwright_aexit : outcome unit }.

(** The environment of one script run: configuration and oracles.
    [browser i] is the session opened for the [i]-th entry of a search;
    [notion_pages_create i] answers the [i]-th archive request. *)
Record Env := mkEnv
  { NOTION_PAGE_ID : option string;
    chat_completions_create : ChatRequest.t -> outcome ChatResponse.t;
    feedparser_parse : string -> list Entry.t;
    browser : nat -> BrowserRun;
    notion_pages_create : nat -> Page.t -> outcome unit;
    datetime_now_strftime : string;
    time_time : string }.

(* ------------------------------------------------------------------ *)
(** ** Primitive steps *)

(** [f"{v}"] for a value that is a [str] or [None]. *)
Definition format_value (v : option string) : string :=
  match v with Some s => s | None => "None" end.

(** [l[0]] *)
Definition subscript0 {A : Type} (l : list A) : outcome A :=
  match l with
  | x :: _ => Ret x
  | [] => Raise (Exn "IndexError" "list index out of range")
  end.

(** [v.name(...)] for a value that is a [str] or [None]: the receiver. *)
Definition str_receiver (name : string) (v : option string) : outcome string :=
  match v with
  | Some s => Ret s
  | None =>
      Raise (Exn "AttributeError"
               ("'NoneType' object has no attribute '" +++ name +++ "'"))
  end.

(** [entry.name] on a feedparser entry: the value of the key, or
    [AttributeError] when the entry has no such key. *)
Definition entry_attr (name : string) (v : option string) : outcome string :=
  match v with
  | Some s => Ret s
  | None =>
      Raise (Exn "AttributeError" ("object has no attribute '" +++ name +++ "'"))
  end.

(** Truthiness of a list. *)
Definition list_truthy {A : Type} (l : list A) : bool :=
  match l with [] => false | _ :: _ => true end.

Definition st_show (e : ui_element) : StateExn World unit :=
  fun w => (Ret tt, mkWorld (session w) (notion_pages w) (ui w ++ [e]) (calls w)).

Definition st_error (text : string) : StateExn World unit :=
  st_show (st_error_box text).

Definition st_toast (text : string) : StateExn World unit :=
  st_show (st_toast_box text).

Definition log_call (c : call) : StateExn World unit :=
  fun w => (Ret tt, mkWorld (session w) (notion_pages w) (ui w) (calls w ++ [c])).

(** [st.session_state.messages] *)
Definition get_messages : StateExn World (list Message.t) :=
  fun w => (Ret (SessionState.messages (session w)), w).

(** [st.session_state.schedules] *)
Definition get_schedules : StateExn World (list Schedule.t) :=
  fun w => (Ret (SessionState.schedules (session w)), w).

Definition put_session (s : SessionState.t) : StateExn World unit :=
  fun w => (Ret tt, mkWorld s (notion_pages w) (ui w) (calls w)).

(** [notion.pages.create(...)]: the page exists once the call returns. *)
Definition notion_create (env : Env) (n : nat) (p : Page.t) : StateExn World unit :=
  fun w =>
    match notion_pages_create env n p with
    | Ret _ =>
        (Ret tt, mkWorld (session w) (notion_pages w ++ [p]) (ui w) (calls w))
    | Raise e => (Raise e, w)
    end.

(** [st.session_state.messages.append(m)] *)
Definition messages_append (m : Message.t) : StateExn World unit :=
  fun w =>
    let s := session w in
    put_session
      (SessionState.mk (SessionState.messages s ++ [m]) (SessionState.schedules s)
         (SessionState.collected_news s) (SessionState.last_check_time s)) w.

(** [st.session_state.schedules.append(x)] *)
Definition schedules_append (x : Schedule.t) : StateExn World unit :=
  fun w =>
    let s := session w in
    put_session
      (SessionState.mk (SessionState.messages s) (SessionState.schedules s ++ [x])
         (SessionState.collected_news s) (SessionState.last_check_time s)) w.

(** [st.session_state.collected_news.append(c)] *)
Definition collected_news_append (c : Collection.t) : StateExn World unit :=
  fun w =>
    let s := session w in
    put_session
      (SessionState.mk (SessionState.messages s) (SessionState.schedules s)
         (SessionState.collected_news s ++ [c]) (SessionState.last_check_time s)) w.

(* ------------------------------------------------------------------ *)
(** ** Core functions (lines 24-160) *)

Definition TARGET_MODEL : string := "gpt-5-nano".

Definition dq : string := String (ascii_of_nat 34) EmptyString.

(** The system prompt of the classifier (lines 39-44). *)
Definition intent_system_prompt : string :=
  String.concat PyStr.nl
    [ "당신은 사용자 의도 분류 전문가입니다. ";
      "사용자 입력이 뉴스/기사 검색을 요구하는지 판단하세요.";
      String.concat dq
        [ "뉴스 검색 요청 예시: "; "최근 AI 뉴스 알려줘"; ", ";
          "삼성전자 기사 검색"; ", "; "오늘 야구 기사"; "" ];
      String.concat dq
        [ "일반 대화 예시: "; "안녕"; ", "; "너는 누구야"; ", ";
          "날씨 어때"; "" ];
      "";
      "응답은 반드시 'NEWS' 또는 'CHAT' 중 하나만 출력하세요." ].

Definition intent_request
  (user_input : string) (conversation_history : list Message.t) : ChatRequest.t :=
  ChatRequest.mk TARGET_MODEL
    (conversation_history
       ++ [ Message.plain "system" (Some intent_system_prompt);
            Message.plain "user" (Some user_input) ])
    (Some 10) (Some "0").

(** The two tables of the Unicode database behind [str.upper] and
    [str.strip]: the interpreter's, not the repository's. *)
Class UnicodeTables : Type :=
  { uc_upper : string -> string;
    uc_isspace : string -> bool }.

Section App.

Context {U : UnicodeTables}.

(** Lines 36-59. *)
Definition check_news_intent (env : Env)
  (user_input : string) (conversation_history : list Message.t)
  : StateExn World bool :=
  try_except
    (response <- lift (chat_completions_create env
                         (intent_request user_input conversation_history)) ;;
     choice <- lift (subscript0 (ChatResponse.choices response)) ;;
     text <- lift (str_receiver "strip" choice) ;;
     let intent := PyStr.upper uc_upper (PyStr.strip uc_isspace text) in
     ret (PyStr.contains "NEWS" intent))
    (fun e =>
       st_error ("의도 판단 오류: " +++ exn_str e) ;;;
       ret false).

Definition summary_request (title : string) (content : string) : ChatRequest.t :=
  ChatRequest.mk TARGET_MODEL
    [ Message.plain "system"
        (Some "뉴스 요약 전문가입니다. GPT 5의 분석력을 활용해 3줄 이내로 핵심만 요약하세요.");
      Message.plain "user"
        (Some ("제목: " +++ title +++ PyStr.nl +++ "본문: " +++ content)) ]
    None None.

(** Lines 67-78: the body of the [try].  [entry.link] is read for the
    navigation (line 67) and [entry.title] for the request (line 75). *)
Definition crawl_body (b : BrowserRun) (entry : Entry.t)
  : outcome (option string) :=
  link <- entry_attr "link" (Entry.link entry) ;;
  _ <- page_goto b link ;;
  content <- page_inner_text b ;;
  let content := PyStr.slice_to 2500 content in
  title <- entry_attr "title" (Entry.title entry) ;;
  response <- summary_create b (summary_request title content) ;;
  subscript0 (ChatResponse.choices response).

(** Lines 61-82.  The browser is launched and the page opened before the
    [try]; [finally] closes the browser. *)
Definition crawl_and_summarize (b : BrowserRun) (entry : Entry.t)
  : outcome (option string) :=
  async_with (playwright_aenter b) (playwright_aexit b)
    (_ <- chromium_launch b ;;
     _ <- browser_new_page b ;;
     try_finally
       (try_except
          (crawl_body b entry)
          (fun e => ret (Some ("요약 실패: " +++ exn_str e))))
       (browser_close b)).

Definition rss_url (keyword : string) : string :=
  ("https://news.google.com/rss/search?q=" +++ PyStr.quote keyword
     +++ "&hl=ko&gl=KR&ceid=KR:ko").

(** Lines 94-101: the loop over [feed.entries[:3]]; [i] counts the
    browser sessions opened so far.  The record is built outside any
    [try], reading [entry.title] and then [entry.link] (lines 98-99). *)
Fixpoint crawl_entries (env : Env) (i : nat) (entries : list Entry.t)
  (results : list Article.t) : outcome (list Article.t) :=
  match entries with
  | [] => Ret results
  | entry :: rest =>
      summary <- crawl_and_summarize (browser env i) entry ;;
      title <- entry_attr "title" (Entry.title entry) ;;
      link <- entry_attr "link" (Entry.link entry) ;;
      crawl_entries env (S i) rest (results ++ [Article.mk title link summary])
  end.

(** Lines 104-107: [enumerate(results, 1)]. *)
Fixpoint format_articles (i : nat) (results : list Article.t)
  (response_text : string) : string :=
  match results with
  | [] => response_text
  | article :: rest =>
      format_articles (S i) rest
        (response_text
           +++ ("📰 **기사 " +++ PyStr.of_nat i +++ ": " +++ Article.title article
                 +++ "**" +++ PyStr.nl)
           +++ (format_value (Article.summary article) +++ PyStr.nl)
           +++ ("🔗 [원문 링크](" +++ Article.link article +++ ")"
                 +++ PyStr.nl +++ PyStr.nl))
  end.

Definition no_results_text : string := "관련 기사를 찾을 수 없습니다.".

(** Lines 84-109. *)
Definition search_and_process_news (env : Env) (keyword : string)
  : outcome (option (list Article.t) * string) :=
  let feed_entries := feedparser_parse env (rss_url keyword) in
  if negb (list_truthy feed_entries) then Ret (None, no_results_text)
  else
    results <- crawl_entries env 0 (firstn 3 feed_entries) [] ;;
    let response_text :=
      ("🔍 **'" +++ keyword +++ "'** 관련 최신 뉴스를 GPT 5 - nano가 분석했습니다."
         +++ PyStr.nl +++ PyStr.nl) in
    Ret (Some results, format_articles 1 results response_text).

Definition chat_request
  (user_input : string) (conversation_history : list Message.t) : ChatRequest.t :=
  ChatRequest.mk TARGET_MODEL
    (conversation_history ++ [Message.plain "user" (Some user_input)])
    None (Some "0.7").

(** Lines 111-125. *)
Definition general_chat_response (env : Env)
  (user_input : string) (conversation_history : list Message.t)
  : outcome (option string) :=
  try_except
    (response <- chat_completions_create env
                   (chat_request user_input conversation_history) ;;
     subscript0 (ChatResponse.choices response))
    (fun e => ret (Some ("응답 생성 중 오류가 발생했습니다: " +++ exn_str e))).

Definition notion_page (env : Env) (title : string) (summary : option string)
  (link : string) : Page.t :=
  Page.mk (NOTION_PAGE_ID env) title
    [ Page.heading_2 "📌 GPT 5 뉴스 리포트";
      Page.paragraph summary;
      Page.paragraph (Some ("🔗 원문: " +++ link)) ].

(** Lines 127-142; [n] numbers the archive requests of the run. *)
Definition save_to_notion (env : Env) (n : nat)
  (title : string) (summary : option string) (link : string)
  : StateExn World bool :=
  log_call (call_save_to_notion title summary link) ;;;
  try_except
    (notion_create env n (notion_page env title summary link) ;;;
     ret true)
    (fun e =>
       st_error ("노션 저장 오류: " +++ exn_str e) ;;;
       ret false).

(** Lines 155-156: one archive request per article, results ignored. *)
Fixpoint save_collected (env : Env) (n : nat) (news_results : list Article.t)
  : StateExn World unit :=
  match news_results with
  | [] => ret tt
  | article :: rest =>
      save_to_notion env n
        ("[GPT5 자동수집] " +++ Article.title article)
        (Article.summary article) (Article.link article) ;;;
      save_collected env (S n) rest
  end.

(** Lines 144-160. *)
Definition auto_collect_news (env : Env) (keyword : string)
  : StateExn World bool :=
  log_call (call_auto_collect_news keyword) ;;;
  try_except
    (found <- lift (search_and_process_news env keyword) ;;
     let news_results := fst found in
     match news_results with
     | Some results =>
         if list_truthy results then
           collected_news_append
             (Collection.mk keyword results (datetime_now_strftime env)) ;;;
           save_collected env 0 results ;;;
           ret true
         else ret true
     | None => ret true
     end)
    (fun e =>
       st_error ("자동 수집 오류: " +++ exn_str e) ;;;
       ret false).

(* ------------------------------------------------------------------ *)
(** ** The page script (lines 163-232)

    Streamlit runs the script from top to bottom once per interaction.
    In a run a button returns [True] only when it is the widget that was
    clicked, [st.chat_input] returns the submitted text only in the run
    that the submission starts, and [st.rerun()] stops the run. *)

(** The values of the sidebar inputs in a run. *)
Record Widgets := mkWidgets
  { schedule_type : string;
    search_keyword : string;
    hour : nat;
    minute : nat }.

(** What started the run. *)
Inductive Event : Type :=
| no_interaction
| click_add_schedule
| click_save (key : string)
| submit_prompt (prompt : string).

(** How a run ends: at the last line, or at [st.rerun()]. *)
Inductive ScriptEnd : Type :=
| script_finished
| script_rerun.

(** Lines 185-195.  Returns whether [st.rerun()] was reached. *)
Definition sidebar (wid : Widgets) (ev : Event) : StateExn World bool :=
  match ev with
  | click_add_schedule =>
      if PyStr.truthy (search_keyword wid) then
        schedules <- get_schedules ;;
        let new_schedule :=
          Schedule.mk (List.length schedules) (schedule_type wid)
            (search_keyword wid) (hour wid) (minute wid) true in
        schedules_append new_schedule ;;;
        ret true
      else ret false
  | _ => ret false
  end.

(** Line 209: [key=f"notion_{i}_{message.get('timestamp', i)}"]. *)
Definition button_key (i : nat) (message : Message.t) : string :=
  "notion_" +++ PyStr.of_nat i +++ "_"
    +++ match Message.timestamp message with
        | Some t => t
        | None => PyStr.of_nat i
        end.

(** [st.button(label, key=key)]: a key already used in the run is
    refused; otherwise the answer is whether this widget was clicked. *)
Definition st_button (seen : list string) (key : string) (ev : Event)
  : outcome bool :=
  if existsb (String.eqb key) seen then
    Raise (Exn "DuplicateWidgetID"
             ("There are multiple widgets with the same key='" +++ key +++ "'"))
  else
    Ret (match ev with
         | click_save k => String.eqb k key
         | _ => false
         end).

(** [st.columns(n)] needs at least one column. *)
Definition st_columns (n : nat) : outcome unit :=
  match n with
  | 0 => Raise (Exn "StreamlitAPIException"
                  "The spec argument to st.columns must be a positive integer")
  | S _ => Ret tt
  end.

(** Lines 207-211: the save buttons of one message; [seen] holds the
    widget keys of the run so far. *)
Fixpoint render_buttons (env : Env) (ev : Event) (message : Message.t)
  (i : nat) (articles : list Article.t) (seen : list string)
  : StateExn World (list string) :=
  match articles with
  | [] => ret seen
  | article :: rest =>
      let key := button_key i message in
      clicked <- lift (st_button seen key ev) ;;
      (if clicked : bool then
         save_to_notion env 0 (Article.title article)
           (Article.summary article) (Article.link article) ;;;
         st_toast "저장 완료!"
       else ret tt) ;;;
      render_buttons env ev message (S i) rest (key :: seen)
  end.

(** Lines 202-211. *)
Fixpoint render_messages (env : Env) (ev : Event)
  (messages : list Message.t) (seen : list string) : StateExn World unit :=
  match messages with
  | [] => ret tt
  | message :: rest =>
      st_show (st_chat_markdown (Message.role message) (Message.content message)) ;;;
      seen' <- match Message.news_results message with
               | Some articles =>
                   if String.eqb (Message.role message) "assistant" then
                     lift (st_columns (List.length articles)) ;;;
                     render_buttons env ev message 0 articles seen
                   else ret seen
               | None => ret seen
               end ;;
      render_messages env ev rest seen'
  end.

(** Line 218: the history sent to the model, without the new turn. *)
Definition conversation_history_of (messages : list Message.t) : list Message.t :=
  map (fun m => Message.plain (Message.role m) (Message.content m))
    (removelast messages).

(** Lines 213-229.  Returns whether [st.rerun()] was reached. *)
Definition chat_input (env : Env) (ev : Event) : StateExn World bool :=
  match ev with
  | submit_prompt prompt =>
      if PyStr.truthy prompt then
        messages_append (Message.plain "user" (Some prompt)) ;;;
        st_show (st_chat_markdown "user" (Some prompt)) ;;;
        messages <- get_messages ;;
        let conversation_history := conversation_history_of messages in
        is_news <- check_news_intent env prompt conversation_history ;;
        (if is_news : bool then
           found <- lift (search_and_process_news env prompt) ;;
           let news_results := fst found in
           let response_text := snd found in
           messages_append
             (Message.mk "assistant" (Some response_text) (Some (time_time env))
                match news_results with
                | Some results =>
                    if list_truthy results then Some results else None
                | None => None
                end)
         else
           response_text <-
             lift (general_chat_response env prompt conversation_history) ;;
           messages_append (Message.plain "assistant" response_text)) ;;;
        ret true
      else ret false
  | _ => ret false
  end.

(** Lines 197-232: the main page, reached when the sidebar did not
    restart the run. *)
Definition main_page (env : Env) (ev : Event) : StateExn World ScriptEnd :=
  messages <- get_messages ;;
  render_messages env ev messages [] ;;;
  rerun <- chat_input env ev ;;
  if rerun : bool then ret script_rerun
  else ret script_finished.

(** One run of the script. *)
Definition app (env : Env) (wid : Widgets) (ev : Event)
  : StateExn World ScriptEnd :=
  rerun <- sidebar wid ev ;;
  if rerun : bool then ret script_rerun
  else main_page env ev.

(** Line 232: the injected timer reloads the page, and the reloaded page
    is a new session: the store starts again from lines 166-173. *)
Definition page_reload (w : World) : World :=
  mkWorld SessionState.fresh (notion_pages w) (ui w) (calls w).

(** The world a first visit starts from, over any notes workspace. *)
Definition first_visit (pages : list Page.t) : World :=
  mkWorld SessionState.fresh pages [] [].

(** The worlds the application can be in: after any number of runs and
    reloads, whatever the inputs and the answers of the services. *)
Inductive reachable : World -> Prop :=
| reach_first_visit (pages : list Page.t) : reachable (first_visit pages)
| reach_run (w : World) (env : Env) (wid : Widgets) (ev : Event) :
    reachable w -> reachable (snd (app env wid ev w))
| reach_reload (w : World) :
    reachable w -> reachable (page_reload w).

(* ------------------------------------------------------------------ *)
(** ** Vocabulary of the statements *)

(** The browser session of an article opens and closes without raising:
    every step outside the [try] of [crawl_and_summarize] succeeds. *)
Definition browser_opens_and_closes (b : BrowserRun) : Prop :=
  playwright_aenter b = Ret tt
  /\ chromium_launch b = Ret tt
  /\ browser_new_page b = Ret tt
  /\ browser_close b = Ret tt
  /\ playwright_aexit b = Ret tt.

(** The entry carries a title and a link. *)
Definition entry_complete (entry : Entry.t) : Prop :=
  exists title link,
    Entry.title entry = Some title /\ Entry.link entry = Some link.

(** Navigation, text extraction or the summarizing model call fails with
    [e] for this entry. *)
Definition step_fails (b : BrowserRun) (entry : Entry.t) (e : exn) : Prop :=
  exists link,
    Entry.link entry = Some link
    /\ (page_goto b link = Raise e
        \/ (page_goto b link = Ret tt /\ page_inner_text b = Raise e)
        \/ (exists content title,
              page_goto b link = Ret tt
              /\ page_inner_text b = Ret content
              /\ Entry.title entry = Some title
              /\ summary_create b
                   (summary_request title (PyStr.slice_to 2500 content))
                 = Raise e)).

(** [results] are the records of [entries], in order, the [j]-th made by
    the browser session [i + j]. *)
Fixpoint crawled (env : Env) (i : nat) (entries : list Entry.t)
  (results : list Article.t) : Prop :=
  match entries, results with
  | [], [] => True
  | entry :: es, article :: rs =>
      Entry.title entry = Some (Article.title article)
      /\ Entry.link entry = Some (Article.link article)
      /\ crawl_and_summarize (browser env i) entry = Ret (Article.summary article)
      /\ crawled env (S i) es rs
  | _, _ => False
  end.

(** What "non-empty title, link and summary" asks of a record. *)
Definition fields_nonempty (a : Article.t) : Prop :=
  Article.title a <> EmptyString
  /\ Article.link a <> EmptyString
  /\ Article.summary a <> None
  /\ Article.summary a <> Some EmptyString.

(** The ids of the schedules are their positions: what
    ["id": len(st.session_state.schedules)] maintains. *)
Definition schedule_ids_ok (schedules : list Schedule.t) : Prop :=
  forall i s, nth_error schedules i = Some s -> Schedule.id s = i.

Definition is_auto_collect (c : call) : bool :=
  match c with
  | call_auto_collect_news _ => true
  | call_save_to_notion _ _ _ => false
  end.

(** A message that carries ["news_results"] carries at least one. *)
Definition message_ok (m : Message.t) : Prop :=
  forall articles, Message.news_results m = Some articles -> articles <> [].

(** What every reachable world satisfies. *)
Definition session_invariant (w : World) : Prop :=
  schedule_ids_ok (SessionState.schedules (session w))
  /\ SessionState.collected_news (session w) = []
  /\ SessionState.last_check_time (session w) = []
  /\ Forall (fun c => is_auto_collect c = false) (calls w)
  /\ Forall message_ok (SessionState.messages (session w)).

(** The same world with other schedules. *)
Definition set_schedules (schedules : list Schedule.t) (w : World) : World :=
  mkWorld
    (SessionState.mk (SessionState.messages (session w)) schedules
       (SessionState.collected_news (session w))
       (SessionState.last_check_time (session w)))
    (notion_pages w) (ui w) (calls w).

(** A computation that neither reads nor writes [schedules]. *)
Definition oblivious {A : Type} (m : StateExn World A) : Prop :=
  forall schedules w,
    m (set_schedules schedules w)
    = (fst (m w), set_schedules schedules (snd (m w))).

(** A computation that keeps the property [I] of the world, whether it
    returns or raises. *)
Definition keeps (I : World -> Prop) {A : Type} (m : StateExn World A) : Prop :=
  forall w, I w -> I (snd (m w)).

(** The keys of the save buttons that a message puts on the page, and
    those of the whole history, in the order the script creates them. *)
Definition message_keys (m : Message.t) : list string :=
  match Message.news_results m with
  | Some articles =>
      if String.eqb (Message.role m) "assistant"
      then map (fun i => button_key i m) (seq 0 (List.length articles))
      else []
  | None => []
  end.

Definition page_keys (messages : list Message.t) : list string :=
  flat_map message_keys messages.

(** The archive requests a click on the button with key [k] starts while
    the script draws the buttons of a message, and of the whole page. *)
Fixpoint button_clicks (k : string) (m : Message.t) (i : nat)
  (articles : list Article.t) : list call :=
  match articles with
  | [] => []
  | a :: rest =>
      (if String.eqb k (button_key i m)
       then [call_save_to_notion (Article.title a) (Article.summary a)
               (Article.link a)]
       else [])
      ++ button_clicks k m (S i) rest
  end.

Definition message_clicks (k : string) (m : Message.t) : list call :=
  match Message.news_results m with
  | Some articles =>
      if String.eqb (Message.role m) "assistant"
      then button_clicks k m 0 articles
      else []
  | None => []
  end.

Definition page_clicks (k : string) (messages : list Message.t) : list call :=
  flat_map (message_clicks k) messages.

(** What the sentence "returns exactly 3 result records, each with
    non-empty title, link and summary" asks of a search. *)
Definition three_nonempty_records (env : Env) (keyword : string) : Prop :=
  exists results text,
    search_and_process_news env keyword = Ret (Some results, text)
    /\ List.length results = 3
    /\ forall a, In a results -> fields_nonempty a.

(** What "the failure becomes an inline error string" asks of a crawl. *)
Definition returns_inline_error (b : BrowserRun) (entry : Entry.t) : Prop :=
  exists text, crawl_and_summarize b entry = Ret (Some text).

(** The assistant turn that line 223-224 build from what the search
    returned. *)
Definition assistant_news_message (env : Env)
  (found : option (list Article.t) * string) : Message.t :=
  Message.mk "assistant" (Some (snd found)) (Some (time_time env))
    match fst found with
    | Some results => if list_truthy results then Some results else None
    | None => None
    end.

(** The world once line 214-216 have appended and shown the user turn. *)
Definition after_user_turn (prompt : string) (w : World) : World :=
  mkWorld
    (SessionState.mk
       (SessionState.messages (session w) ++ [Message.plain "user" (Some prompt)])
       (SessionState.schedules (session w))
       (SessionState.collected_news (session w))
       (SessionState.last_check_time (session w)))
    (notion_pages w)
    (ui w ++ [st_chat_markdown "user" (Some prompt)])
    (calls w).

(** The history line 218 sends to the model for a world's messages. *)
Definition history_before (w : World) : list Message.t :=
  map (fun m => Message.plain (Message.role m) (Message.content m))
    (SessionState.messages (session w)).

(** [w'] is [w] with [m] appended to the messages. *)
Definition with_message (m : Message.t) (w : World) : World :=
  snd (messages_append m w).

(** The heading of the response text (line 103). *)
Definition response_header (keyword : string) : string :=
  "🔍 **'" +++ keyword +++ "'** 관련 최신 뉴스를 GPT 5 - nano가 분석했습니다."
    +++ PyStr.nl +++ PyStr.nl.

(** The three lines that lines 105-107 add for the article numbered [i]. *)
Definition article_block (i : nat) (article : Article.t) : string :=
  ("📰 **기사 " +++ PyStr.of_nat i +++ ": " +++ Article.title article
     +++ "**" +++ PyStr.nl)
  +++ (format_value (Article.summary article) +++ PyStr.nl)
  +++ ("🔗 [원문 링크](" +++ Article.link article +++ ")"
         +++ PyStr.nl +++ PyStr.nl).

(** The blocks of [results], numbered from [i]. *)
Fixpoint article_blocks (i : nat) (results : list Article.t) : string :=
  match results with
  | [] => EmptyString
  | article :: rest => article_block i article +++ article_blocks (S i) rest
  end.

(** The shapes a turn of the history can have: a user turn with a
    non-empty text; a plain assistant turn of the chat branch; or an
    assistant turn of the news branch, time-stamped, with either the
    fixed message and no results or between 1 and 3 results. *)
Definition message_shape (m : Message.t) : Prop :=
  (Message.role m = "user"
   /\ (exists prompt, Message.content m = Some prompt /\ prompt <> EmptyString)
   /\ Message.timestamp m = None
   /\ Message.news_results m = None)
  \/ (Message.role m = "assistant"
      /\ Message.timestamp m = None
      /\ Message.news_results m = None)
  \/ (Message.role m = "assistant"
      /\ Message.content m <> None
      /\ Message.timestamp m <> None
      /\ match Message.news_results m with
         | None => Message.content m = Some no_results_text
         | Some results => 1 <= List.length results <= 3
         end).

(** Every schedule is active and carries its position as id. *)
Definition schedules_shape (schedules : list Schedule.t) : Prop :=
  Forall (fun s => Schedule.active s = true) schedules
  /\ map Schedule.id schedules = seq 0 (List.length schedules).

(** [w'] has the session of [w] with turns and schedules added at the
    end, nothing removed and nothing changed. *)
Definition session_extends (w w' : World) : Prop :=
  (exists turns,
     SessionState.messages (session w')
     = SessionState.messages (session w) ++ turns)
  /\ (exists added,
        SessionState.schedules (session w')
        = SessionState.schedules (session w) ++ added)
  /\ SessionState.collected_news (session w')
     = SessionState.collected_news (session w)
  /\ SessionState.last_check_time (session w')
     = SessionState.last_check_time (session w).

(** [w'] has the notes workspace and the call log of [w]. *)
Definition same_archive (w w' : World) : Prop :=
  notion_pages w' = notion_pages w /\ calls w' = calls w.

(** What drawing the history adds to the page: one chat bubble per
    turn, in order. *)
Definition shown_history (messages : list Message.t) : list ui_element :=
  map (fun m => st_chat_markdown (Message.role m) (Message.content m)) messages.

(** The world once the history has been drawn. *)
Definition drawn (w : World) : World :=
  mkWorld (session w) (notion_pages w)
    (ui w ++ shown_history (SessionState.messages (session w))) (calls w).

(** The time stamps of the turns that carry news results. *)
Definition news_timestamps (messages : list Message.t) : list string :=
  flat_map
    (fun m =>
       match Message.news_results m, Message.timestamp m with
       | Some _, Some t => [t]
       | _, _ => []
       end)
    messages.

(** The archive request of the automatic collection for an article
    (line 156). *)
Definition auto_collect_call (article : Article.t) : call :=
  call_save_to_notion ("[GPT5 자동수집] " +++ Article.title article)
    (Article.summary article) (Article.link article).

(** The pages that the notes API accepts among the requests that lines
    155-156 make for [results], the first request being number [n]. *)
Fixpoint archived_pages (env : Env) (n : nat) (results : list Article.t)
  : list Page.t :=
  match results with
  | [] => []
  | article :: rest =>
      let page :=
        notion_page env ("[GPT5 자동수집] " +++ Article.title article)
          (Article.summary article) (Article.link article) in
      match notion_pages_create env n page with
      | Ret _ => page :: archived_pages env (S n) rest
      | Raise _ => archived_pages env (S n) rest
      end
  end.

(** The number of code points of a string: its bytes that are not UTF-8
    continuation bytes. *)
Fixpoint code_points (s : string) : nat :=
  match s with
  | EmptyString => 0
  | String a rest =>
      if PyStr.is_cont a then code_points rest else S (code_points rest)
  end.

(** The keys [keys] can all be given to new widgets after [seen]: they
    are pairwise distinct and none is in use. *)
Definition keys_free (keys seen : list string) : Prop :=
  NoDup keys /\ forall x, In x keys -> ~ In x seen.

(** The exception is Streamlit's refusal of a repeated widget key. *)
Definition is_duplicate_widget (e : exn) : Prop :=
  exn_class e = "DuplicateWidgetID".

(** Lines 96-101 for one entry: the crawl, then the record built from
    [entry.title], [entry.link] and the summary. *)
Definition record_of (env : Env) (i : nat) (entry : Entry.t) : outcome Article.t :=
  summary <- crawl_and_summarize (browser env i) entry ;;
  title <- entry_attr "title" (Entry.title entry) ;;
  link <- entry_attr "link" (Entry.link entry) ;;
  Ret (Article.mk title link summary).

(** The [AttributeError] of a feedparser entry read for a key it lacks. *)
Definition missing_attribute (name : string) : exn :=
  Exn "AttributeError" ("object has no attribute '" +++ name +++ "'").

End App.

(* ------------------------------------------------------------------ *)
(** ** Sample environments

    Concrete tables, services and worlds on which the model is run. *)

Definition ascii_tables : UnicodeTables :=
  {| uc_upper := PyStr.ascii_upper; uc_isspace := PyStr.ascii_isspace |}.

Definition sample_entries : list Entry.t :=
  [ Entry.mk (Some "AI 반도체 수출 증가") (Some "https://news.example.com/a1");
    Entry.mk (Some "생성형 AI 규제 논의") (Some "https://news.example.com/a2");
    Entry.mk (Some "AI 스타트업 투자 확대") (Some "https://news.example.com/a3");
    Entry.mk (Some "AI 교육 과정 개설") (Some "https://news.example.com/a4") ].

(** Every step of the session succeeds; the page shows [text] and the
    model answers with [choices]. *)
Definition browser_ok (text : string) (choices : list (option string))
  : BrowserRun :=
  mkBrowserRun (Ret tt) (Ret tt) (Ret tt) (fun _ => Ret tt) (Ret text)
    (fun _ => Ret (ChatResponse.mk choices)) (Ret tt) (Ret tt).

Definition launch_error : exn :=
  Exn "Error" "BrowserType.launch: Executable doesn't exist".

(** Chromium cannot be launched. *)
Definition browser_launch_fails : BrowserRun :=
  mkBrowserRun (Ret tt) (Raise launch_error) (Ret tt) (fun _ => Ret tt)
    (Ret "본문") (fun _ => Ret (ChatResponse.mk [Some "요약"])) (Ret tt) (Ret tt).

Definition goto_timeout : exn :=
  Exn "TimeoutError" "Page.goto: Timeout 30000ms exceeded.".

(** The browser opens, the navigation times out. *)
Definition browser_goto_times_out : BrowserRun :=
  mkBrowserRun (Ret tt) (Ret tt) (Ret tt) (fun _ => Raise goto_timeout)
    (Ret "본문") (fun _ => Ret (ChatResponse.mk [Some "요약"])) (Ret tt) (Ret tt).

Definition sample_env (entries : list Entry.t) (browsers : nat -> BrowserRun)
  (chat : outcome ChatResponse.t) (notion : outcome unit) : Env :=
  mkEnv (Some "parent-page") (fun _ => chat) (fun _ => entries) browsers
    (fun _ _ => notion) "2025-01-01 09:00:00" "1735689600.5".

(** The model classifies the input as news; four entries are found and
    each is crawled and summarized. *)
Definition env_news : Env :=
  sample_env sample_entries (fun _ => browser_ok "본문" [Some "요약"])
    (Ret (ChatResponse.mk [Some " news "])) (Ret tt).

(** As [env_news], but the model summarizes with the empty text. *)
Definition env_empty_summary : Env :=
  sample_env sample_entries (fun _ => browser_ok "본문" [Some ""])
    (Ret (ChatResponse.mk [Some "NEWS"])) (Ret tt).

(** As [env_news], but Chromium cannot be launched for the second entry. *)
Definition env_second_launch_fails : Env :=
  sample_env sample_entries
    (fun i => if i =? 1 then browser_launch_fails
              else browser_ok "본문" [Some "요약"])
    (Ret (ChatResponse.mk [Some "NEWS"])) (Ret tt).

(** As [env_news], but the navigation to the second entry times out. *)
Definition env_second_goto_fails : Env :=
  sample_env sample_entries
    (fun i => if i =? 1 then browser_goto_times_out
              else browser_ok "본문" [Some "요약"])
    (Ret (ChatResponse.mk [Some "NEWS"])) (Ret tt).

(** The feed has no entry. *)
Definition env_no_entries : Env :=
  sample_env [] (fun _ => browser_ok "본문" [Some "요약"])
    (Ret (ChatResponse.mk [Some "NEWS"])) (Ret tt).

Definition api_error : exn := Exn "APIConnectionError" "Connection error.".

(** The model endpoint and the notes API are unreachable. *)
Definition env_offline : Env :=
  sample_env sample_entries (fun _ => browser_ok "본문" [Some "요약"])
    (Raise api_error) (Raise api_error).

Definition sample_widgets : Widgets := mkWidgets "매일" "AI" 9 0.

(** After one schedule has been added on a first visit. *)
Definition world_one_schedule : World :=
  snd (app (U := ascii_tables) env_news sample_widgets click_add_schedule
         (first_visit [])).

(** After the prompt [AI] has been answered with three articles. *)
Definition world_news : World :=
  snd (app (U := ascii_tables) env_news sample_widgets (submit_prompt "AI")
         (first_visit [])).

Definition sample_news_message : Message.t :=
  nth 1 (SessionState.messages (session world_news)) (Message.plain "" None).

(** The records and the response text of the search in [env_news]. *)
Definition sample_results : list Article.t :=
  [ Article.mk "AI 반도체 수출 증가" "https://news.example.com/a1" (Some "요약");
    Article.mk "생성형 AI 규제 논의" "https://news.example.com/a2" (Some "요약");
    Article.mk "AI 스타트업 투자 확대" "https://news.example.com/a3" (Some "요약") ].

Definition sample_text : string :=
  response_header "AI" +++ article_blocks 1 sample_results.

(** The model answers CHAT to the classifier and greets in the chat. *)
Definition env_chat : Env :=
  mkEnv (Some "parent-page")
    (fun request =>
       match ChatRequest.max_tokens request with
       | Some _ => Ret (ChatResponse.mk [Some "CHAT"])
       | None => Ret (ChatResponse.mk [Some "안녕하세요"])
       end)
    (fun _ => sample_entries) (fun _ => browser_ok "본문" [Some "요약"])
    (fun _ _ => Ret tt) "2025-01-01 09:00:00" "1735689600.5".

(** The notes API refuses the second request only. *)
Definition env_second_save_fails : Env :=
  mkEnv (Some "parent-page") (fun _ => Ret (ChatResponse.mk [Some "NEWS"]))
    (fun _ => sample_entries) (fun _ => browser_ok "본문" [Some "요약"])
    (fun n _ => if n =? 1 then Raise api_error else Ret tt)
    "2025-01-01 09:00:00" "1735689600.5".

(** The schedule form left without a keyword. *)
Definition widgets_no_keyword : Widgets := mkWidgets "매일" "" 9 0.

(** As [env_news], but the second item of the feed has no title. *)
Definition env_second_untitled : Env :=
  sample_env
    [ Entry.mk (Some "AI 반도체 수출 증가") (Some "https://news.example.com/a1");
      Entry.mk None (Some "https://news.example.com/a2");
      Entry.mk (Some "AI 스타트업 투자 확대") (Some "https://news.example.com/a3") ]
    (fun _ => browser_ok "본문" [Some "요약"])
    (Ret (ChatResponse.mk [Some "NEWS"])) (Ret tt).

(* ------------------------------------------------------------------ *)
(** ** Properties *)

Section Properties.

Context {U : UnicodeTables}.


(** *** Strings *)

Lemma prefix_split (p s : string) :
  String.prefix p s = true <-> exists post, s = (p ++ post)%string.
Proof.
  revert s; induction p as [|a p IH]; intros s.
  - destruct s; simpl; (split; [intros _; eexists; reflexivity | reflexivity]).
  - destruct s as [|b s]; simpl.
    + split; [discriminate | intros [post H]; discriminate].
    + destruct (Ascii.ascii_dec a b) as [->|Hab].
      * rewrite IH. split; intros [post H]; exists post.
        -- now rewrite H.
        -- now inversion H.
      * split; [discriminate | intros [post H]; inversion H; congruence].
Qed.

Lemma contains_Substring (needle hay : string) :
  PyStr.contains needle hay = true <-> PyStr.Substring needle hay.
Proof.
  unfold PyStr.Substring.
  induction hay as [|b hay IH].
  - cbn [PyStr.contains]. rewrite orb_false_r, prefix_split. split.
    + intros [post H]. now exists EmptyString, post.
    + intros [[|c pre] [post H]]; [now exists post | discriminate].
  - cbn [PyStr.contains]. rewrite orb_true_iff, prefix_split, IH. split.
    + intros [[post H] | [pre [post H]]].
      * now exists EmptyString, post.
      * exists (String b pre), post. simpl. now rewrite H.
    + intros [[|c pre] [post H]].
      * left. now exists post.
      * right. exists pre, post. now inversion H.
Qed.

(** *** The intent classifier *)

Lemma check_news_intent_reply
  (env : Env) (user_input : string) (history : list Message.t)
  (reply : string) (others : list (option string)) (w : World) :
  chat_completions_create env (intent_request user_input history)
    = Ret (ChatResponse.mk (Some reply :: others)) ->
  check_news_intent env user_input history w
  = (Ret (PyStr.contains "NEWS"
            (PyStr.upper uc_upper (PyStr.strip uc_isspace reply))), w).
Proof.
  intros Hreply. unfold check_news_intent, lift. cbn. rewrite Hreply.
  reflexivity.
Qed.

(** C3.  Whatever text the model replies, [check_news_intent] returns
    without touching the world, and it returns true exactly when the
    literal token NEWS occurs in the reply once stripped of surrounding
    white space and upper-cased; a reply without the token yields false,
    the chat branch. *)
Theorem check_news_intent_substring
  (env : Env) (user_input : string) (history : list Message.t)
  (reply : string) (others : list (option string)) (w : World) :
  chat_completions_create env (intent_request user_input history)
    = Ret (ChatResponse.mk (Some reply :: others)) ->
  let intent := PyStr.upper uc_upper (PyStr.strip uc_isspace reply) in
  exists b : bool,
    check_news_intent env user_input history w = (Ret b, w)
    /\ (b = true <-> PyStr.Substring "NEWS" intent)
    /\ (~ PyStr.Substring "NEWS" intent -> b = false).
Proof.
  intros Hreply intent.
  exists (PyStr.contains "NEWS" intent).
  assert (Hiff := contains_Substring "NEWS" intent).
  split; [|split].
  - now apply check_news_intent_reply with (others := others).
  - exact Hiff.
  - intros Hno. destruct (PyStr.contains "NEWS" intent); [|reflexivity].
    exfalso. apply Hno, Hiff. reflexivity.
Qed.

(** C4.  When the model call raises, [check_news_intent] catches the
    exception, shows it with [st.error] and returns false: the result is
    a returned value, never a raised exception, and nothing but the error
    box is added to the world. *)
Theorem check_news_intent_fails_closed
  (env : Env) (user_input : string) (history : list Message.t)
  (e : exn) (w : World) :
  chat_completions_create env (intent_request user_input history) = Raise e ->
  check_news_intent env user_input history w
  = (Ret false,
     mkWorld (session w) (notion_pages w)
       (ui w ++ [st_error_box ("의도 판단 오류: " +++ exn_str e)]) (calls w)).
Proof.
  intros Hraise. unfold check_news_intent, lift. cbn. rewrite Hraise.
  reflexivity.
Qed.

(** The classifier never raises, whatever the model does. *)
Lemma check_news_intent_returns
  (env : Env) (user_input : string) (history : list Message.t) (w : World) :
  exists b w', check_news_intent env user_input history w = (Ret b, w').
Proof.
  unfold check_news_intent, lift. cbn.
  destruct (chat_completions_create env _) as [[[|[reply|] others]]|e]; cbn;
    eauto.
Qed.

(** *** The retriever *)

(** C2.  A keyword whose parsed feed has no entry gets the pair of [None]
    and the fixed message. *)
Theorem search_no_entries (env : Env) (keyword : string) :
  feedparser_parse env (rss_url keyword) = [] ->
  search_and_process_news env keyword
  = Ret (None, "관련 기사를 찾을 수 없습니다.").
Proof.
  intros Hfeed. unfold search_and_process_news. rewrite Hfeed. reflexivity.
Qed.

(** *** The archive writer *)

(** C6.  When the notes API refuses the page, [save_to_notion] returns
    false and each of the four collections of the session store is what
    it was; no page is added to the workspace either. *)
Theorem save_to_notion_failure_frame
  (env : Env) (n : nat) (title : string) (summary : option string)
  (link : string) (e : exn) (w : World) :
  notion_pages_create env n (notion_page env title summary link) = Raise e ->
  exists w',
    save_to_notion env n title summary link w = (Ret false, w')
    /\ SessionState.messages (session w') = SessionState.messages (session w)
    /\ SessionState.schedules (session w') = SessionState.schedules (session w)
    /\ SessionState.collected_news (session w')
       = SessionState.collected_news (session w)
    /\ SessionState.last_check_time (session w')
       = SessionState.last_check_time (session w)
    /\ notion_pages w' = notion_pages w
    /\ ui w' = ui w ++ [st_error_box ("노션 저장 오류: " +++ exn_str e)].
Proof.
  intros Hraise. eexists. split.
  - unfold save_to_notion, notion_create, log_call. cbn. rewrite Hraise.
    cbn. reflexivity.
  - cbn. repeat split; reflexivity.
Qed.

(** *** The crawler and the retriever's loop *)

Lemma crawl_and_summarize_open (b : BrowserRun) (entry : Entry.t) :
  browser_opens_and_closes b ->
  crawl_and_summarize b entry
  = match crawl_body b entry with
    | Ret summary => Ret summary
    | Raise e => Ret (Some ("요약 실패: " +++ exn_str e))
    end.
Proof.
  intros (Ha & Hl & Hp & Hc & Hx).
  unfold crawl_and_summarize, async_with. cbn.
  rewrite Ha, Hl, Hp, Hc, Hx. reflexivity.
Qed.

Lemma crawl_body_step_fails (b : BrowserRun) (entry : Entry.t) (e : exn) :
  step_fails b entry e -> crawl_body b entry = Raise e.
Proof.
  unfold step_fails, crawl_body.
  intros (link & Hlink & [H | [[H1 H2] | (content & title & H1 & H2 & Ht & H3)]]);
    rewrite Hlink; cbn [entry_attr bind outcome_Monad].
  - now rewrite H.
  - now rewrite H1, H2.
  - rewrite H1, H2, Ht. cbn [entry_attr]. now rewrite H3.
Qed.

Lemma crawl_entries_returns (env : Env) :
  forall (entries : list Entry.t) (i : nat) (acc : list Article.t),
    (forall j entry, nth_error entries j = Some entry ->
       entry_complete entry
       /\ exists s, crawl_and_summarize (browser env (i + j)) entry = Ret s) ->
    exists rs,
      crawl_entries env i entries acc = Ret (acc ++ rs)
      /\ crawled env i entries rs.
Proof.
  induction entries as [|entry es IH]; intros i acc Hall.
  - exists []. cbn. now rewrite app_nil_r.
  - destruct (Hall 0 entry eq_refl) as [(title & link & Ht & Hl) [s Hs]].
    rewrite Nat.add_0_r in Hs.
    destruct (IH (S i) (acc ++ [Article.mk title link s]))
      as (rs & Hrun & Hrs).
    { intros j e' Hj. specialize (Hall (S j) e' Hj).
      now rewrite Nat.add_succ_r in Hall. }
    exists (Article.mk title link s :: rs).
    split.
    + cbn [crawl_entries bind outcome_Monad]. rewrite Hs, Ht, Hl.
      cbn [entry_attr]. rewrite Hrun. now rewrite <- app_assoc.
    + cbn. auto.
Qed.

Lemma crawled_length (env : Env) :
  forall entries i results,
    crawled env i entries results -> List.length results = List.length entries.
Proof.
  induction entries as [|entry es IH]; intros i [|a rs]; cbn; try tauto.
  intros (_ & _ & _ & H). f_equal. eauto.
Qed.

Lemma crawled_nth (env : Env) :
  forall entries i results j entry,
    crawled env i entries results ->
    nth_error entries j = Some entry ->
    exists title link s,
      Entry.title entry = Some title
      /\ Entry.link entry = Some link
      /\ crawl_and_summarize (browser env (i + j)) entry = Ret s
      /\ nth_error results j = Some (Article.mk title link s).
Proof.
  induction entries as [|e0 es IH]; intros i [|a rs] j entry; cbn;
    try tauto.
  - now destruct j.
  - intros (Ht & Hl & Hs & Hrest) Hj. destruct j as [|j]; cbn in *.
    + inversion Hj; subst entry.
      exists (Article.title a), (Article.link a), (Article.summary a).
      rewrite Nat.add_0_r. repeat split; try assumption. now destruct a.
    + rewrite Nat.add_succ_r. exact (IH (S i) rs j entry Hrest Hj).
Qed.

Lemma search_returns (env : Env) (keyword : string) :
  feedparser_parse env (rss_url keyword) <> [] ->
  (forall i entry,
     i < 3 ->
     nth_error (feedparser_parse env (rss_url keyword)) i = Some entry ->
     entry_complete entry
     /\ exists s, crawl_and_summarize (browser env i) entry = Ret s) ->
  exists results text,
    search_and_process_news env keyword = Ret (Some results, text)
    /\ crawled env 0 (firstn 3 (feedparser_parse env (rss_url keyword))) results.
Proof.
  intros Hne Hall. unfold search_and_process_news.
  destruct (feedparser_parse env (rss_url keyword)) as [|e0 feed] eqn:Hfeed;
    [congruence|].
  cbn [list_truthy negb].
  destruct (crawl_entries_returns env (firstn 3 (e0 :: feed)) 0 [])
    as (rs & Hrun & Hrs).
  { intros j entry Hj. rewrite nth_error_firstn in Hj.
    destruct (j <? 3) eqn:Hlt; [|discriminate].
    apply Nat.ltb_lt in Hlt. now apply Hall. }
  cbn [bind outcome_Monad]. rewrite Hrun. cbn [app].
  eexists rs, _. split; [reflexivity | exact Hrs].
Qed.

(** C1, as the code has it.  For a keyword whose parsed feed has at
    least 3 entries, when each of the first 3 entries carries a title and
    a link and the three calls of [crawl_and_summarize] return,
    [search_and_process_news] returns exactly 3 records made from the
    first 3 entries in feed order: the [i]-th record has the title and
    the link of the [i]-th entry and, as summary, the value that
    [crawl_and_summarize] returned for it in the [i]-th browser session.
    No field is required to be non-empty. *)
Theorem search_three_entries (env : Env) (keyword : string) :
  3 <= List.length (feedparser_parse env (rss_url keyword)) ->
  (forall i entry,
     i < 3 ->
     nth_error (feedparser_parse env (rss_url keyword)) i = Some entry ->
     entry_complete entry) ->
  (forall i entry,
     i < 3 ->
     nth_error (feedparser_parse env (rss_url keyword)) i = Some entry ->
     exists s, crawl_and_summarize (browser env i) entry = Ret s) ->
  exists results text,
    search_and_process_news env keyword = Ret (Some results, text)
    /\ List.length results = 3
    /\ forall i entry,
         i < 3 ->
         nth_error (feedparser_parse env (rss_url keyword)) i = Some entry ->
         exists title link s,
           Entry.title entry = Some title
           /\ Entry.link entry = Some link
           /\ crawl_and_summarize (browser env i) entry = Ret s
           /\ nth_error results i = Some (Article.mk title link s).
Proof.
  intros Hlen Hcomplete Hall.
  destruct (search_returns env keyword) as (results & text & Hrun & Hrs).
  { intros Hnil; rewrite Hnil in Hlen; cbn in Hlen; lia. }
  { intros i entry Hi Hnth. split; [now apply (Hcomplete i) | now apply Hall]. }
  exists results, text. split; [exact Hrun|]. split.
  - rewrite (@crawled_length env _ 0 results Hrs), length_firstn. lia.
  - intros i entry Hi Hnth.
    apply (@crawled_nth env _ 0 results i entry Hrs).
    rewrite nth_error_firstn.
    apply Nat.ltb_lt in Hi. now rewrite Hi.
Qed.

(** C5, as the code has it.  Once the browser session of an article has
    opened (and closes) without raising, a failure inside the [try] does
    not raise: of navigation, of text extraction, of the summarizing
    call, or of reading a link or a title that the entry lacks.  The
    summary of that article is then the inline text
    [요약 실패: <error>].  So when the sessions of the first three entries
    open and close and these entries carry a title and a link, a search
    over a non-empty feed returns one record per entry, failed articles
    included. *)
Theorem crawl_failure_is_inline (env : Env) (keyword : string) :
  feedparser_parse env (rss_url keyword) <> [] ->
  (forall i, i < 3 -> browser_opens_and_closes (browser env i)) ->
  (forall i entry,
     i < 3 ->
     nth_error (feedparser_parse env (rss_url keyword)) i = Some entry ->
     entry_complete entry) ->
  (forall i entry,
     i < 3 ->
     exists summary,
       crawl_and_summarize (browser env i) entry = Ret summary
       /\ forall e,
            (step_fails (browser env i) entry e
             \/ crawl_body (browser env i) entry = Raise e) ->
            summary = Some ("요약 실패: " +++ exn_str e))
  /\ exists results text,
       search_and_process_news env keyword = Ret (Some results, text)
       /\ List.length results
          = Nat.min 3 (List.length (feedparser_parse env (rss_url keyword)))
       /\ forall i entry,
            i < 3 ->
            nth_error (feedparser_parse env (rss_url keyword)) i = Some entry ->
            exists title link summary,
              Entry.title entry = Some title
              /\ Entry.link entry = Some link
              /\ crawl_and_summarize (browser env i) entry = Ret summary
              /\ nth_error results i = Some (Article.mk title link summary)
              /\ forall e,
                   (step_fails (browser env i) entry e
                    \/ crawl_body (browser env i) entry = Raise e) ->
                   summary = Some ("요약 실패: " +++ exn_str e).
Proof.
  intros Hne Hopen Hcomplete.
  assert (Hret : forall i entry, i < 3 ->
            crawl_and_summarize (browser env i) entry
            = match crawl_body (browser env i) entry with
              | Ret summary => Ret summary
              | Raise e => Ret (Some ("요약 실패: " +++ exn_str e))
              end).
  { intros i entry Hi. now apply crawl_and_summarize_open, Hopen. }
  assert (Hinline : forall i entry s e, i < 3 ->
            crawl_and_summarize (browser env i) entry = Ret s ->
            (step_fails (browser env i) entry e
             \/ crawl_body (browser env i) entry = Raise e) ->
            s = Some ("요약 실패: " +++ exn_str e)).
  { intros i entry s e Hi Hs Hfail.
    assert (Hbody : crawl_body (browser env i) entry = Raise e).
    { destruct Hfail as [Hstep|Hbody];
        [now apply crawl_body_step_fails | exact Hbody]. }
    rewrite (Hret i entry Hi), Hbody in Hs. now inversion Hs. }
  assert (Hcrawl : forall i entry, i < 3 ->
            exists s, crawl_and_summarize (browser env i) entry = Ret s).
  { intros i entry Hi. rewrite (Hret i entry Hi).
    destruct (crawl_body (browser env i) entry); eauto. }
  split.
  { intros i entry Hi. destruct (Hcrawl i entry Hi) as [s Hs].
    exists s. split; [exact Hs|]. intros e. now apply (Hinline i entry). }
  destruct (search_returns env keyword) as (results & text & Hrun & Hrs);
    [ exact Hne | | ].
  { intros i entry Hi Hnth. split; [now apply (Hcomplete i) | now apply Hcrawl]. }
  exists results, text. split; [exact Hrun|]. split.
  - now rewrite (@crawled_length env _ 0 results Hrs), length_firstn.
  - intros i entry Hi Hnth.
    destruct (@crawled_nth env _ 0 results i entry Hrs)
      as (title & link & s & Ht & Hl & Hs & Hres).
    { rewrite nth_error_firstn. apply Nat.ltb_lt in Hi. now rewrite Hi. }
    cbn [Nat.add] in Hs. exists title, link, s.
    repeat split; try assumption. intros e. now apply (Hinline i entry).
Qed.

(** *** Archive writer and automatic collection never raise *)

Lemma save_to_notion_returns
  (env : Env) (n : nat) (title : string) (summary : option string)
  (link : string) (w : World) :
  exists b w', save_to_notion env n title summary link w = (Ret b, w').
Proof.
  unfold save_to_notion, notion_create, log_call. cbn.
  destruct (notion_pages_create env n _); cbn; eauto.
Qed.

Lemma save_collected_returns (env : Env) :
  forall (news_results : list Article.t) (n : nat) (w : World),
    exists w', save_collected env n news_results w = (Ret tt, w').
Proof.
  induction news_results as [|a rest IH]; intros n w.
  - cbn. eauto.
  - cbn [save_collected bind StateExn_Monad].
    destruct (save_to_notion_returns env n
                ("[GPT5 자동수집] " +++ Article.title a)
                (Article.summary a) (Article.link a) w) as (b & w1 & H1).
    rewrite H1. apply IH.
Qed.

(** C10.  When the search yields [None] as its results,
    [auto_collect_news] returns true, leaves the session store (so
    [collected_news]) and the notes workspace as they were and makes no
    archive request.  In general it always returns, and it can return
    false only when the search inside its [try] raised. *)
Theorem auto_collect_news_no_results
  (env : Env) (keyword : string) (text : string) (w : World) :
  search_and_process_news env keyword = Ret (None, text) ->
  auto_collect_news env keyword w
  = (Ret true,
     mkWorld (session w) (notion_pages w) (ui w)
       (calls w ++ [call_auto_collect_news keyword]))
  /\ forall (env' : Env) (keyword' : string) (w0 : World),
       exists b w0',
         auto_collect_news env' keyword' w0 = (Ret b, w0')
         /\ (b = false ->
             exists e, search_and_process_news env' keyword' = Raise e).
Proof.
  intros Hnone. split.
  - unfold auto_collect_news, log_call, lift. cbn. rewrite Hnone. reflexivity.
  - intros env' keyword' w0.
    unfold auto_collect_news, log_call, lift, collected_news_append,
      put_session, st_error, st_show.
    cbn [bind try_except ret StateExn_Monad fst snd].
    destruct (search_and_process_news env' keyword')
      as [[[results|] text']|e]; cbn [fst].
    + destruct (list_truthy results).
      * match goal with
        | |- context [save_collected env' 0 results ?w1] =>
            destruct (save_collected_returns env' results 0 w1) as (w2 & H2);
            rewrite H2
        end.
        exists true. eexists. split; [reflexivity | discriminate].
      * exists true. eexists. split; [reflexivity | discriminate].
    + exists true. eexists. split; [reflexivity | discriminate].
    + exists false. eexists. split; [reflexivity | eauto].
Qed.

(** *** Invariants of the page script *)

Section Keeps.

Variable I : World -> Prop.

Lemma keeps_ret {A : Type} (a : A) : keeps I (ret a).
Proof. intros w Hw. exact Hw. Qed.

Lemma keeps_lift {A : Type} (m : outcome A) : keeps I (lift m).
Proof. intros w Hw. exact Hw. Qed.

Lemma keeps_bind {A B : Type} (m : StateExn World A) (k : A -> StateExn World B) :
  keeps I m -> (forall a, keeps I (k a)) -> keeps I (bind m k).
Proof.
  intros Hm Hk w Hw. cbn. specialize (Hm w Hw).
  destruct (m w) as [[a|e] w']; cbn in *; [now apply Hk | exact Hm].
Qed.

Lemma keeps_try_except {A : Type} (m : StateExn World A) (h : exn -> StateExn World A) :
  keeps I m -> (forall e, keeps I (h e)) -> keeps I (try_except m h).
Proof.
  intros Hm Hh w Hw. cbn. specialize (Hm w Hw).
  destruct (m w) as [[a|e] w']; cbn in *; [exact Hm | now apply Hh].
Qed.

End Keeps.

Lemma keeps_st_show (e : ui_element) : keeps session_invariant (st_show e).
Proof. intros w Hw. exact Hw. Qed.

Lemma keeps_get_messages : keeps session_invariant get_messages.
Proof. intros w Hw. exact Hw. Qed.

Lemma keeps_log_save (title : string) (summary : option string) (link : string) :
  keeps session_invariant (log_call (call_save_to_notion title summary link)).
Proof.
  intros w (H1 & H2 & H3 & H4 & H5). repeat split; try assumption.
  cbn. apply Forall_app. split; [exact H4 | now constructor].
Qed.

Lemma keeps_notion_create (env : Env) (n : nat) (p : Page.t) :
  keeps session_invariant (notion_create env n p).
Proof.
  intros w Hw. unfold notion_create.
  destruct (notion_pages_create env n p); exact Hw.
Qed.

Lemma keeps_messages_append (m : Message.t) :
  message_ok m -> keeps session_invariant (messages_append m).
Proof.
  intros Hm w (H1 & H2 & H3 & H4 & H5). repeat split; try assumption.
  cbn. apply Forall_app. split; [exact H5 | now constructor].
Qed.

Lemma message_ok_plain (r : string) (c : option string) :
  message_ok (Message.plain r c).
Proof. intros articles H. discriminate. Qed.

Lemma keeps_save_to_notion
  (env : Env) (n : nat) (title : string) (summary : option string) (link : string) :
  keeps session_invariant (save_to_notion env n title summary link).
Proof.
  unfold save_to_notion.
  apply keeps_bind; [apply keeps_log_save | intros _].
  apply keeps_try_except.
  - apply keeps_bind; [apply keeps_notion_create | intros _; apply keeps_ret].
  - intros e. apply keeps_bind; [apply keeps_st_show | intros _; apply keeps_ret].
Qed.

Lemma keeps_check_news_intent
  (env : Env) (user_input : string) (history : list Message.t) :
  keeps session_invariant (check_news_intent env user_input history).
Proof.
  unfold check_news_intent. apply keeps_try_except.
  - repeat (apply keeps_bind; [apply keeps_lift | intros ?]). apply keeps_ret.
  - intros e. apply keeps_bind; [apply keeps_st_show | intros _; apply keeps_ret].
Qed.

Lemma keeps_render_buttons (env : Env) (ev : Event) (message : Message.t) :
  forall (articles : list Article.t) (i : nat) (seen : list string),
    keeps session_invariant (render_buttons env ev message i articles seen).
Proof.
  induction articles as [|a rest IH]; intros i seen.
  - apply keeps_ret.
  - cbn [render_buttons].
    apply keeps_bind; [apply keeps_lift | intros clicked].
    apply keeps_bind; [| intros _; apply IH].
    destruct clicked; [|apply keeps_ret].
    apply keeps_bind; [apply keeps_save_to_notion | intros _; apply keeps_st_show].
Qed.

Lemma keeps_render_messages (env : Env) (ev : Event) :
  forall (messages : list Message.t) (seen : list string),
    keeps session_invariant (render_messages env ev messages seen).
Proof.
  induction messages as [|m rest IH]; intros seen.
  - apply keeps_ret.
  - cbn [render_messages].
    apply keeps_bind; [apply keeps_st_show | intros _].
    apply keeps_bind; [| intros seen'; apply IH].
    destruct (Message.news_results m) as [articles|]; [|apply keeps_ret].
    destruct (String.eqb (Message.role m) "assistant"); [|apply keeps_ret].
    apply keeps_bind; [apply keeps_lift | intros _; apply keeps_render_buttons].
Qed.

Lemma keeps_chat_input (env : Env) (ev : Event) :
  keeps session_invariant (chat_input env ev).
Proof.
  unfold chat_input. destruct ev as [| |key|prompt]; try apply keeps_ret.
  destruct (PyStr.truthy prompt); [|apply keeps_ret].
  apply keeps_bind;
    [apply keeps_messages_append, message_ok_plain | intros _].
  apply keeps_bind; [apply keeps_st_show | intros _].
  apply keeps_bind; [apply keeps_get_messages | intros messages].
  apply keeps_bind; [apply keeps_check_news_intent | intros is_news].
  apply keeps_bind; [| intros _; apply keeps_ret].
  destruct is_news.
  - apply keeps_bind; [apply keeps_lift | intros found].
    apply keeps_messages_append. intros articles. cbn.
    destruct (fst found) as [results|]; [|discriminate].
    destruct results; cbn; [discriminate|].
    intros H; inversion H; discriminate.
  - apply keeps_bind; [apply keeps_lift | intros response_text].
    apply keeps_messages_append, message_ok_plain.
Qed.

Lemma schedule_ids_ok_snoc (schedules : list Schedule.t) (s : Schedule.t) :
  schedule_ids_ok schedules ->
  Schedule.id s = List.length schedules ->
  schedule_ids_ok (schedules ++ [s]).
Proof.
  intros Hok Hid i s' Hnth.
  destruct (Nat.lt_ge_cases i (List.length schedules)) as [Hlt|Hge].
  - rewrite nth_error_app1 in Hnth by exact Hlt. now apply Hok.
  - rewrite nth_error_app2 in Hnth by exact Hge.
    destruct (i - List.length schedules) as [|d] eqn:Hd; cbn in Hnth.
    + inversion Hnth; subst s'. lia.
    + now destruct d.
Qed.

Lemma keeps_sidebar (wid : Widgets) (ev : Event) :
  keeps session_invariant (sidebar wid ev).
Proof.
  intros w Hw. unfold sidebar.
  destruct ev; try exact Hw.
  destruct (PyStr.truthy (search_keyword wid)); [|exact Hw].
  destruct Hw as (H1 & H2 & H3 & H4 & H5). cbn.
  repeat split; try assumption.
  now apply schedule_ids_ok_snoc.
Qed.

Lemma keeps_main_page (env : Env) (ev : Event) :
  keeps session_invariant (main_page env ev).
Proof.
  unfold main_page.
  apply keeps_bind; [apply keeps_get_messages | intros messages].
  apply keeps_bind; [apply keeps_render_messages | intros _].
  apply keeps_bind; [apply keeps_chat_input | intros rerun].
  destruct rerun; apply keeps_ret.
Qed.

Lemma keeps_app (env : Env) (wid : Widgets) (ev : Event) :
  keeps session_invariant (app env wid ev).
Proof.
  unfold app.
  apply keeps_bind; [apply keeps_sidebar | intros rerun].
  destruct rerun; [apply keeps_ret | apply keeps_main_page].
Qed.

Lemma reachable_invariant (w : World) : reachable w -> session_invariant w.
Proof.
  induction 1 as [pages | w env wid ev Hw IH | w Hw IH].
  - repeat split; cbn; try constructor. intros [|i] s H; discriminate.
  - now apply keeps_app.
  - destruct IH as (H1 & H2 & H3 & H4 & H5).
    repeat split; cbn; try assumption; try constructor.
    intros [|i] s H; discriminate.
Qed.

(** *** The schedule form *)

(** C7.  In any reachable world, a submission of the schedule form with a
    keyword appends exactly one entry to [schedules]; the entry is active
    and its id is strictly greater than the id of every entry already
    there; [messages], [collected_news], [last_check_time] and the notes
    workspace are left as they were. *)
Theorem add_schedule_appends (env : Env) (wid : Widgets) (w : World) :
  reachable w ->
  PyStr.truthy (search_keyword wid) = true ->
  exists new w',
    app env wid click_add_schedule w = (Ret script_rerun, w')
    /\ SessionState.schedules (session w')
       = SessionState.schedules (session w) ++ [new]
    /\ Schedule.active new = true
    /\ (forall s, In s (SessionState.schedules (session w)) ->
          Schedule.id s < Schedule.id new)
    /\ SessionState.messages (session w') = SessionState.messages (session w)
    /\ SessionState.collected_news (session w')
       = SessionState.collected_news (session w)
    /\ SessionState.last_check_time (session w')
       = SessionState.last_check_time (session w)
    /\ notion_pages w' = notion_pages w.
Proof.
  intros Hreach Hkw.
  destruct (reachable_invariant Hreach) as (Hids & _).
  eexists. eexists. split.
  - unfold app, sidebar. rewrite Hkw. cbn. reflexivity.
  - cbn. repeat split.
    intros s Hin. apply In_nth_error in Hin. destruct Hin as [i Hi].
    rewrite (Hids i s Hi). apply nth_error_Some. congruence.
Qed.

(** *** Schedules are inert *)

Lemma oblivious_ret {A : Type} (a : A) : oblivious (ret a).
Proof. intros sch w. reflexivity. Qed.

Lemma oblivious_lift {A : Type} (m : outcome A) : oblivious (lift m).
Proof. intros sch w. reflexivity. Qed.

Lemma oblivious_bind {A B : Type}
  (m : StateExn World A) (k : A -> StateExn World B) :
  oblivious m -> (forall a, oblivious (k a)) -> oblivious (bind m k).
Proof.
  intros Hm Hk sch w. cbn. rewrite Hm.
  destruct (m w) as [[a|e] w']; cbn; [apply Hk | reflexivity].
Qed.

Lemma oblivious_try_except {A : Type}
  (m : StateExn World A) (h : exn -> StateExn World A) :
  oblivious m -> (forall e, oblivious (h e)) -> oblivious (try_except m h).
Proof.
  intros Hm Hh sch w. cbn. rewrite Hm.
  destruct (m w) as [[a|e] w']; cbn; [reflexivity | apply Hh].
Qed.

Lemma oblivious_st_show (e : ui_element) : oblivious (st_show e).
Proof. intros sch w. reflexivity. Qed.

Lemma oblivious_log_call (c : call) : oblivious (log_call c).
Proof. intros sch w. reflexivity. Qed.

Lemma oblivious_get_messages : oblivious get_messages.
Proof. intros sch w. reflexivity. Qed.

Lemma oblivious_messages_append (m : Message.t) : oblivious (messages_append m).
Proof. intros sch w. reflexivity. Qed.

Lemma oblivious_notion_create (env : Env) (n : nat) (p : Page.t) :
  oblivious (notion_create env n p).
Proof.
  intros sch w. unfold notion_create.
  destruct (notion_pages_create env n p); reflexivity.
Qed.

Create HintDb oblivious_db.
#[local] Hint Resolve oblivious_ret oblivious_lift oblivious_st_show
  oblivious_log_call oblivious_get_messages oblivious_messages_append
  oblivious_notion_create : oblivious_db.

Ltac oblivious_step :=
  first [ apply oblivious_bind; [| intro]
        | apply oblivious_try_except; [| intro]
        | solve [unfold st_error, st_toast; auto with oblivious_db] ].

Lemma oblivious_save_to_notion
  (env : Env) (n : nat) (title : string) (summary : option string) (link : string) :
  oblivious (save_to_notion env n title summary link).
Proof. unfold save_to_notion. repeat oblivious_step. Qed.

Lemma oblivious_check_news_intent
  (env : Env) (user_input : string) (history : list Message.t) :
  oblivious (check_news_intent env user_input history).
Proof. unfold check_news_intent. repeat oblivious_step. Qed.

Lemma oblivious_render_buttons (env : Env) (ev : Event) (message : Message.t) :
  forall (articles : list Article.t) (i : nat) (seen : list string),
    oblivious (render_buttons env ev message i articles seen).
Proof.
  induction articles as [|a rest IH]; intros i seen; cbn [render_buttons].
  - auto with oblivious_db.
  - apply oblivious_bind; [auto with oblivious_db | intros clicked].
    apply oblivious_bind; [| intros _; apply IH].
    destruct clicked; [| auto with oblivious_db].
    apply oblivious_bind; [apply oblivious_save_to_notion | intros _].
    unfold st_toast. auto with oblivious_db.
Qed.

Lemma oblivious_render_messages (env : Env) (ev : Event) :
  forall (messages : list Message.t) (seen : list string),
    oblivious (render_messages env ev messages seen).
Proof.
  induction messages as [|m rest IH]; intros seen; cbn [render_messages].
  - auto with oblivious_db.
  - apply oblivious_bind; [auto with oblivious_db | intros _].
    apply oblivious_bind; [| intros seen'; apply IH].
    destruct (Message.news_results m) as [articles|]; [| auto with oblivious_db].
    destruct (String.eqb (Message.role m) "assistant"); [| auto with oblivious_db].
    apply oblivious_bind; [auto with oblivious_db | intros _].
    apply oblivious_render_buttons.
Qed.

Lemma oblivious_chat_input (env : Env) (ev : Event) :
  oblivious (chat_input env ev).
Proof.
  unfold chat_input. destruct ev as [| |key|prompt]; auto with oblivious_db.
  destruct (PyStr.truthy prompt); [| auto with oblivious_db].
  do 3 (apply oblivious_bind; [auto with oblivious_db | intro]).
  apply oblivious_bind; [apply oblivious_check_news_intent | intros is_news].
  apply oblivious_bind; [| auto with oblivious_db].
  destruct is_news; repeat oblivious_step.
Qed.

Lemma oblivious_main_page (env : Env) (ev : Event) :
  oblivious (main_page env ev).
Proof.
  unfold main_page.
  apply oblivious_bind; [auto with oblivious_db | intros messages].
  apply oblivious_bind; [apply oblivious_render_messages | intros _].
  apply oblivious_bind; [apply oblivious_chat_input | intros rerun].
  destruct rerun; auto with oblivious_db.
Qed.

(** The call log does record Auto-Collect when it runs. *)
Lemma auto_collect_news_is_logged (env : Env) (keyword : string) (w : World) :
  exists later,
    calls (snd (auto_collect_news env keyword w))
    = calls w ++ call_auto_collect_news keyword :: later.
Proof.
  assert (Hsave : forall results n w0,
            exists later,
              calls (snd (save_collected env n results w0)) = calls w0 ++ later).
  { induction results as [|a rest IH]; intros n w0.
    - exists []. cbn. now rewrite app_nil_r.
    - cbn [save_collected bind StateExn_Monad].
      unfold save_to_notion, notion_create, log_call, st_error, st_show.
      cbn [bind try_except ret StateExn_Monad].
      destruct (notion_pages_create env n _); cbn -[save_collected];
        match goal with
        | |- context [save_collected env (S n) rest ?w1] =>
            destruct (IH (S n) w1) as [later H]; rewrite H; cbn;
              rewrite <- app_assoc; eauto
        end. }
  unfold auto_collect_news, log_call, lift, collected_news_append,
    put_session, st_error, st_show.
  cbn [bind try_except ret StateExn_Monad fst snd].
  destruct (search_and_process_news env keyword) as [[[results|] text]|e];
    cbn [fst snd]; try (exists []; reflexivity).
  destruct (list_truthy results); [| exists []; reflexivity].
  match goal with
  | |- context [save_collected env 0 results ?w1] =>
      destruct (Hsave results 0 w1) as [later H];
        destruct (save_collected_returns env results 0 w1) as [w2 H2];
        rewrite H2 in *; cbn in H |- *; rewrite H, <- app_assoc; cbn; eauto
  end.
Qed.

(** C8.  In every reachable world [collected_news] is empty and the call
    log holds no invocation of [auto_collect_news]: no run of the script
    calls it or looks at the schedules and the clock.  And the schedules
    have no effect: a run from the same world with any other schedules
    yields the same [messages], the same [collected_news] and the same
    notes workspace. *)
Theorem schedules_are_inert (w : World) :
  reachable w ->
  SessionState.collected_news (session w) = []
  /\ Forall (fun c => is_auto_collect c = false) (calls w)
  /\ forall (env : Env) (wid : Widgets) (ev : Event)
            (schedules' : list Schedule.t),
       let w1 := snd (app env wid ev w) in
       let w2 := snd (app env wid ev (set_schedules schedules' w)) in
       SessionState.messages (session w2) = SessionState.messages (session w1)
       /\ SessionState.collected_news (session w2)
          = SessionState.collected_news (session w1)
       /\ notion_pages w2 = notion_pages w1.
Proof.
  intros Hreach.
  destruct (reachable_invariant Hreach) as (_ & Hcol & _ & Hcalls & _).
  split; [exact Hcol|]. split; [exact Hcalls|].
  intros env wid ev sch w1 w2. subst w1 w2. unfold app.
  assert (Hmain := oblivious_main_page env ev sch w).
  destruct ev as [| |key|prompt]; cbn [sidebar bind ret StateExn_Monad].
  1,3,4: rewrite Hmain; cbn; auto.
  destruct (PyStr.truthy (search_keyword wid)).
  - cbn. auto.
  - cbn [bind ret StateExn_Monad]. rewrite Hmain. cbn. auto.
Qed.

(** *** The save buttons *)

Lemma NoDup_app_disjoint {A : Type} (l1 l2 : list A) (x : A) :
  NoDup (l1 ++ l2) -> In x l1 -> ~ In x l2.
Proof.
  induction l1 as [|a l1 IH]; cbn; [tauto|].
  intros Hnd [->|Hin] Hin2.
  - inversion Hnd; subst. apply H1, in_or_app. now right.
  - inversion Hnd; subst. now apply IH.
Qed.

Lemma st_button_fresh (seen : list string) (key k : string) :
  ~ In key seen -> st_button seen key (click_save k) = Ret (String.eqb k key).
Proof.
  intros Hfresh. unfold st_button.
  destruct (existsb (String.eqb key) seen) eqn:Hex; [|reflexivity].
  apply existsb_exists in Hex. destruct Hex as (x & Hin & Heq).
  apply String.eqb_eq in Heq. now subst x.
Qed.

Lemma save_to_notion_calls
  (env : Env) (n : nat) (title : string) (summary : option string)
  (link : string) (w : World) :
  exists b w',
    save_to_notion env n title summary link w = (Ret b, w')
    /\ calls w' = calls w ++ [call_save_to_notion title summary link].
Proof.
  unfold save_to_notion, notion_create, log_call. cbn.
  destruct (notion_pages_create env n _); cbn; eauto.
Qed.

Lemma render_buttons_calls (env : Env) (k : string) (m : Message.t) :
  forall (articles : list Article.t) (i0 : nat) (seen : list string) (w : World),
    let keys := map (fun i => button_key i m) (seq i0 (List.length articles)) in
    NoDup keys ->
    (forall x, In x keys -> ~ In x seen) ->
    exists w',
      render_buttons env (click_save k) m i0 articles seen w
      = (Ret (rev keys ++ seen), w')
      /\ calls w' = calls w ++ button_clicks k m i0 articles.
Proof.
  induction articles as [|a rest IH]; intros i0 seen w keys Hnd Hdisj.
  - exists w. cbn. now rewrite app_nil_r.
  - subst keys. cbn [List.length seq map] in *.
    set (key0 := button_key i0 m) in *.
    set (keys' := map (fun i => button_key i m) (seq (S i0) (List.length rest))) in *.
    inversion Hnd as [|? ? Hnotin Hnd']; subst.
    assert (Hfresh : ~ In key0 seen) by (apply Hdisj; now left).
    assert (Hdisj' : forall x, In x keys' -> ~ In x (key0 :: seen)).
    { intros x Hx [<-|Hs]; [contradiction|]. apply (Hdisj x); [now right|exact Hs]. }
    cbn [render_buttons bind StateExn_Monad button_clicks]. unfold lift.
    fold key0. rewrite (@st_button_fresh seen key0 k Hfresh).
    destruct (String.eqb k key0).
    + destruct (save_to_notion_calls env 0 (Article.title a)
                  (Article.summary a) (Article.link a) w)
        as (b & w1 & Hrun & Hcalls).
      rewrite Hrun. cbn [st_toast st_show].
      match goal with
      | |- context [render_buttons env (click_save k) m (S i0) rest _ ?w2] =>
          destruct (IH (S i0) (key0 :: seen) w2 Hnd' Hdisj')
            as (w' & Hrest & Hcalls')
      end.
      fold keys' in Hrest. rewrite Hrest. exists w'. split.
      * cbn [rev]. now rewrite <- app_assoc.
      * rewrite Hcalls'. cbn [calls]. rewrite Hcalls. now rewrite <- app_assoc.
    + cbn [ret StateExn_Monad].
      destruct (IH (S i0) (key0 :: seen) w Hnd' Hdisj')
        as (w' & Hrest & Hcalls').
      fold keys' in Hrest. rewrite Hrest. exists w'. split.
      * cbn [rev]. now rewrite <- app_assoc.
      * exact Hcalls'.
Qed.

Lemma render_messages_calls (env : Env) (k : string) :
  forall (messages : list Message.t) (seen : list string) (w : World),
    Forall message_ok messages ->
    NoDup (page_keys messages) ->
    (forall x, In x (page_keys messages) -> ~ In x seen) ->
    exists w',
      render_messages env (click_save k) messages seen w = (Ret tt, w')
      /\ calls w' = calls w ++ page_clicks k messages.
Proof.
  induction messages as [|m rest IH]; intros seen w Hok Hnd Hdisj.
  - exists w. cbn. now rewrite app_nil_r.
  - inversion Hok as [|? ? Hm Hrest]; subst.
    unfold page_keys in Hnd, Hdisj. cbn [flat_map] in Hnd, Hdisj.
    fold (page_keys rest) in Hnd, Hdisj.
    assert (Hnd_m := NoDup_app_remove_r _ _ Hnd).
    assert (Hnd_r := NoDup_app_remove_l _ _ Hnd).
    cbn [render_messages bind StateExn_Monad st_show].
    unfold page_clicks. cbn [flat_map]. fold (page_clicks k rest).
    unfold message_keys in Hnd, Hdisj, Hnd_m. unfold message_clicks.
    set (w0 := mkWorld (session w) (notion_pages w)
                 (ui w ++ [st_chat_markdown (Message.role m) (Message.content m)])
                 (calls w)).
    destruct (Message.news_results m) as [articles|] eqn:Hnews.
    + destruct (String.eqb (Message.role m) "assistant").
      * assert (Hne : articles <> []) by now apply Hm.
        destruct articles as [|a0 arts]; [congruence|].
        cbn [bind StateExn_Monad lift st_columns List.length].
        destruct (render_buttons_calls env k m (a0 :: arts) 0 seen w0)
          as (w1 & Hrun & Hcalls).
        { exact Hnd_m. }
        { intros x Hx. apply Hdisj, in_or_app. now left. }
        cbn [List.length] in Hrun. rewrite Hrun.
        match goal with
        | |- context [render_messages env (click_save k) rest ?seen1 w1] =>
            destruct (IH seen1 w1 Hrest Hnd_r) as (w' & Hrun' & Hcalls')
        end.
        { intros x Hx Hin. apply in_app_or in Hin. destruct Hin as [Hin|Hin].
          - apply in_rev in Hin. exact (@NoDup_app_disjoint _ _ _ x Hnd Hin Hx).
          - apply (Hdisj x); [apply in_or_app; now right | exact Hin]. }
        exists w'. split; [exact Hrun'|].
        rewrite Hcalls', Hcalls. cbn [calls w0]. now rewrite <- app_assoc.
      * cbn [ret StateExn_Monad].
        destruct (IH seen w0 Hrest Hnd_r) as (w' & Hrun' & Hcalls').
        { intros x Hx. apply Hdisj. exact Hx. }
        exists w'. split; [exact Hrun' | exact Hcalls'].
    + cbn [ret StateExn_Monad].
      destruct (IH seen w0 Hrest Hnd_r) as (w' & Hrun' & Hcalls').
      { intros x Hx. apply Hdisj. exact Hx. }
      exists w'. split; [exact Hrun' | exact Hcalls'].
Qed.

Lemma button_clicks_miss (k : string) (m : Message.t) :
  forall (articles : list Article.t) (i0 : nat),
    ~ In k (map (fun i => button_key i m) (seq i0 (List.length articles))) ->
    button_clicks k m i0 articles = [].
Proof.
  induction articles as [|a rest IH]; intros i0 Hnot; [reflexivity|].
  cbn [List.length seq map] in Hnot. cbn [button_clicks].
  destruct (String.eqb_spec k (button_key i0 m)) as [Heq|Hneq].
  - exfalso. apply Hnot. now left.
  - cbn. apply IH. intros Hin. apply Hnot. now right.
Qed.

Lemma button_key_in (m : Message.t) (articles : list Article.t)
  (i0 i : nat) (a : Article.t) :
  nth_error articles i = Some a ->
  In (button_key (i0 + i) m)
    (map (fun i => button_key i m) (seq i0 (List.length articles))).
Proof.
  intros Hnth. apply in_map_iff. exists (i0 + i). split; [reflexivity|].
  apply in_seq. assert (i < List.length articles); [|lia].
  apply nth_error_Some. congruence.
Qed.

Lemma button_clicks_hit (m : Message.t) :
  forall (articles : list Article.t) (i0 i : nat) (a : Article.t),
    NoDup (map (fun i => button_key i m) (seq i0 (List.length articles))) ->
    nth_error articles i = Some a ->
    button_clicks (button_key (i0 + i) m) m i0 articles
    = [call_save_to_notion (Article.title a) (Article.summary a) (Article.link a)].
Proof.
  induction articles as [|a0 rest IH]; intros i0 i a Hnd Hnth.
  - now destruct i.
  - cbn [List.length seq map] in Hnd.
    inversion Hnd as [|? ? Hnotin Hnd']; subst.
    cbn [button_clicks]. destruct i as [|i]; cbn in Hnth.
    + inversion Hnth; subst a0. rewrite Nat.add_0_r, String.eqb_refl.
      now rewrite (@button_clicks_miss _ m rest (S i0) Hnotin).
    + assert (Hin := @button_key_in m rest (S i0) i a Hnth).
      rewrite Nat.add_succ_r. cbn [Nat.add] in Hin.
      destruct (String.eqb_spec (button_key (S (i0 + i)) m) (button_key i0 m))
        as [Heq|Hneq].
      * exfalso. apply Hnotin. now rewrite <- Heq.
      * cbn [app]. exact (IH (S i0) i a Hnd' Hnth).
Qed.

Lemma page_clicks_miss (k : string) :
  forall messages : list Message.t,
    ~ In k (page_keys messages) -> page_clicks k messages = [].
Proof.
  induction messages as [|m rest IH]; intros Hnot; [reflexivity|].
  unfold page_keys in Hnot. cbn [flat_map] in Hnot.
  unfold page_clicks. cbn [flat_map]. fold (page_clicks k rest).
  rewrite IH by (intros Hin; apply Hnot, in_or_app; now right).
  rewrite app_nil_r. unfold message_clicks.
  assert (Hm : ~ In k (message_keys m))
    by (intros Hin; apply Hnot, in_or_app; now left).
  unfold message_keys in Hm.
  destruct (Message.news_results m); [|reflexivity].
  destruct (String.eqb (Message.role m) "assistant"); [|reflexivity].
  now apply button_clicks_miss.
Qed.

Lemma message_key_in (m : Message.t) (articles : list Article.t)
  (i : nat) (a : Article.t) :
  Message.role m = "assistant" ->
  Message.news_results m = Some articles ->
  nth_error articles i = Some a ->
  In (button_key i m) (message_keys m).
Proof.
  intros Hrole Hnews Hnth. unfold message_keys. rewrite Hnews, Hrole. cbn.
  exact (@button_key_in m articles 0 i a Hnth).
Qed.

Lemma page_clicks_hit :
  forall (messages : list Message.t) (j : nat) (m : Message.t)
         (articles : list Article.t) (i : nat) (a : Article.t),
    NoDup (page_keys messages) ->
    nth_error messages j = Some m ->
    Message.role m = "assistant" ->
    Message.news_results m = Some articles ->
    nth_error articles i = Some a ->
    page_clicks (button_key i m) messages
    = [call_save_to_notion (Article.title a) (Article.summary a) (Article.link a)].
Proof.
  induction messages as [|m0 rest IH]; intros j m articles i a Hnd Hj Hrole Hnews Hi.
  - now destruct j.
  - unfold page_keys in Hnd. cbn [flat_map] in Hnd. fold (page_keys rest) in Hnd.
    unfold page_clicks. cbn [flat_map]. fold (page_clicks (button_key i m) rest).
    assert (Hkey := @message_key_in m articles i a Hrole Hnews Hi).
    destruct j as [|j]; cbn in Hj.
    + inversion Hj; subst m0.
      rewrite page_clicks_miss
        by exact (@NoDup_app_disjoint _ _ _ _ Hnd Hkey).
      rewrite app_nil_r. unfold message_clicks. rewrite Hnews, Hrole. cbn.
      unfold message_keys in Hnd. rewrite Hnews, Hrole in Hnd. cbn in Hnd.
      exact (@button_clicks_hit m articles 0 i a (NoDup_app_remove_r _ _ Hnd) Hi).
    + assert (Hin : In (button_key i m) (page_keys rest)).
      { apply in_flat_map. exists m. split; [|exact Hkey].
        eapply nth_error_In; eauto. }
      rewrite (IH j m articles i a (NoDup_app_remove_l _ _ Hnd) Hj Hrole Hnews Hi).
      assert (Hmiss : ~ In (button_key i m) (message_keys m0)).
      { intros Hin0. exact (@NoDup_app_disjoint _ _ _ _ Hnd Hin0 Hin). }
      unfold message_clicks. unfold message_keys in Hmiss.
      destruct (Message.news_results m0); [|reflexivity].
      destruct (String.eqb (Message.role m0) "assistant"); [|reflexivity].
      now rewrite (@button_clicks_miss _ m0 _ 0 Hmiss).
Qed.

(** C9.  In a reachable world whose page has pairwise distinct button
    keys (what Streamlit asks of a page), for every assistant message
    carrying [news_results] and every article index [i], the run started
    by a click on that article's save button completes and invokes
    [save_to_notion] exactly once, with that article's title, summary and
    link. *)
Theorem save_button_archives_its_article
  (env : Env) (wid : Widgets) (w : World)
  (j : nat) (m : Message.t) (articles : list Article.t)
  (i : nat) (a : Article.t) :
  reachable w ->
  NoDup (page_keys (SessionState.messages (session w))) ->
  nth_error (SessionState.messages (session w)) j = Some m ->
  Message.role m = "assistant" ->
  Message.news_results m = Some articles ->
  nth_error articles i = Some a ->
  exists w',
    app env wid (click_save (button_key i m)) w = (Ret script_finished, w')
    /\ calls w'
       = calls w
           ++ [call_save_to_notion (Article.title a) (Article.summary a)
                 (Article.link a)].
Proof.
  intros Hreach Hnd Hj Hrole Hnews Hi.
  destruct (reachable_invariant Hreach) as (_ & _ & _ & _ & Hok).
  destruct (@render_messages_calls env (button_key i m)
              (SessionState.messages (session w)) [] w Hok Hnd)
    as (w' & Hrun & Hcalls).
  { intros x _ []. }
  exists w'. split.
  - unfold app, main_page. cbn [sidebar bind ret StateExn_Monad get_messages].
    rewrite Hrun. reflexivity.
  - rewrite Hcalls. f_equal.
    exact (@page_clicks_hit _ j m articles i a Hnd Hj Hrole Hnews Hi).
Qed.

(** *** The branch taken by the page *)

Lemma general_chat_response_returns
  (env : Env) (user_input : string) (history : list Message.t) :
  exists response, general_chat_response env user_input history = Ret response.
Proof.
  unfold general_chat_response. cbn.
  destruct (chat_completions_create env _) as [[[|c others]]|e]; cbn; eauto.
Qed.

(** X25.  A reply without the token sends the prompt to the chat responder:
    the run appends the user turn and a plain assistant turn holding the
    chat response, with no news results. *)
Lemma chat_input_chat_path
  (env : Env) (prompt reply : string) (others : list (option string))
  (w : World) :
  let history :=
    conversation_history_of
      (SessionState.messages (session w) ++ [Message.plain "user" (Some prompt)]) in
  PyStr.truthy prompt = true ->
  chat_completions_create env (intent_request prompt history)
    = Ret (ChatResponse.mk (Some reply :: others)) ->
  ~ PyStr.Substring "NEWS" (PyStr.upper uc_upper (PyStr.strip uc_isspace reply)) ->
  exists response w',
    chat_input env (submit_prompt prompt) w = (Ret true, w')
    /\ general_chat_response env prompt history = Ret response
    /\ SessionState.messages (session w')
       = SessionState.messages (session w)
           ++ [ Message.plain "user" (Some prompt);
                Message.plain "assistant" response ].
Proof.
  intros history Hprompt Hreply Hno.
  destruct (general_chat_response_returns env prompt history) as [response Hchat].
  unfold chat_input. rewrite Hprompt.
  cbn [bind StateExn_Monad messages_append put_session st_show get_messages
         session SessionState.messages].
  fold history.
  rewrite (@check_news_intent_reply env prompt history reply others _ Hreply).
  destruct (PyStr.contains "NEWS"
              (PyStr.upper uc_upper (PyStr.strip uc_isspace reply))) eqn:Hc;
    [exfalso; apply Hno, contains_Substring, Hc|].
  unfold lift.
  cbn [bind StateExn_Monad]. rewrite Hchat. cbn.
  exists response. eexists. split; [reflexivity|]. split; [reflexivity|].
  now rewrite <- app_assoc.
Qed.

(** *** What a step may change, whatever the display does *)

Unset Implicit Arguments.

Section KeepsDisplay.

Variable I : World -> Prop.
Hypothesis I_show : forall e, keeps I (st_show e).

Lemma keeps_check_news_intent_any
  (env : Env) (user_input : string) (history : list Message.t) :
  keeps I (check_news_intent env user_input history).
Proof.
  unfold check_news_intent. apply keeps_try_except.
  - repeat (apply keeps_bind; [apply keeps_lift | intros ?]). apply keeps_ret.
  - intros e. apply keeps_bind; [apply I_show | intros _; apply keeps_ret].
Qed.

Hypothesis I_log : forall c, keeps I (log_call c).
Hypothesis I_notion : forall env n p, keeps I (notion_create env n p).

Lemma keeps_save_to_notion_any
  (env : Env) (n : nat) (title : string) (summary : option string) (link : string) :
  keeps I (save_to_notion env n title summary link).
Proof.
  unfold save_to_notion.
  apply keeps_bind; [apply I_log | intros _].
  apply keeps_try_except.
  - apply keeps_bind; [apply I_notion | intros _; apply keeps_ret].
  - intros e. apply keeps_bind; [apply I_show | intros _; apply keeps_ret].
Qed.

Lemma keeps_render_buttons_any (env : Env) (ev : Event) (message : Message.t) :
  forall (articles : list Article.t) (i : nat) (seen : list string),
    keeps I (render_buttons env ev message i articles seen).
Proof.
  induction articles as [|a rest IH]; intros i seen.
  - apply keeps_ret.
  - cbn [render_buttons].
    apply keeps_bind; [apply keeps_lift | intros clicked].
    apply keeps_bind; [| intros _; apply IH].
    destruct clicked; [|apply keeps_ret].
    apply keeps_bind; [apply keeps_save_to_notion_any | intros _; apply I_show].
Qed.

Lemma keeps_render_messages_any (env : Env) (ev : Event) :
  forall (messages : list Message.t) (seen : list string),
    keeps I (render_messages env ev messages seen).
Proof.
  induction messages as [|m rest IH]; intros seen.
  - apply keeps_ret.
  - cbn [render_messages].
    apply keeps_bind; [apply I_show | intros _].
    apply keeps_bind; [| intros seen'; apply IH].
    destruct (Message.news_results m) as [articles|]; [|apply keeps_ret].
    destruct (String.eqb (Message.role m) "assistant"); [|apply keeps_ret].
    apply keeps_bind; [apply keeps_lift | intros _; apply keeps_render_buttons_any].
Qed.

Lemma keeps_save_collected_any (env : Env) :
  forall (news_results : list Article.t) (n : nat),
    keeps I (save_collected env n news_results).
Proof.
  induction news_results as [|a rest IH]; intros n.
  - apply keeps_ret.
  - cbn [save_collected].
    apply keeps_bind; [apply keeps_save_to_notion_any | intros _; apply IH].
Qed.

End KeepsDisplay.

(** Drawing the page and classifying the input never write the session
    store. *)
Lemma check_news_intent_session
  (env : Env) (user_input : string) (history : list Message.t) (w : World) :
  session (snd (check_news_intent env user_input history w)) = session w.
Proof.
  apply (@keeps_check_news_intent_any (fun w' => session w' = session w));
    [intros e w' H; exact H | reflexivity].
Qed.

Lemma render_messages_session
  (env : Env) (ev : Event) (messages : list Message.t) (seen : list string)
  (w : World) :
  session (snd (render_messages env ev messages seen w)) = session w.
Proof.
  apply (@keeps_render_messages_any (fun w' => session w' = session w));
    try reflexivity.
  - intros e w' H; exact H.
  - intros c w' H; exact H.
  - intros env' n p w' H. unfold notion_create.
    destruct (notion_pages_create env' n p); exact H.
Qed.

Lemma save_collected_session
  (env : Env) (news_results : list Article.t) (n : nat) (w : World) :
  session (snd (save_collected env n news_results w)) = session w.
Proof.
  apply (@keeps_save_collected_any (fun w' => session w' = session w));
    try reflexivity.
  - intros e w' H; exact H.
  - intros c w' H; exact H.
  - intros env' n' p w' H. unfold notion_create.
    destruct (notion_pages_create env' n' p); exact H.
Qed.

Lemma history_of_new_turn (messages : list Message.t) (m : Message.t) :
  conversation_history_of (messages ++ [m])
  = map (fun m => Message.plain (Message.role m) (Message.content m)) messages.
Proof. unfold conversation_history_of. now rewrite removelast_last. Qed.

(** Lines 213-229 in one equation: what a submitted prompt runs. *)
Lemma chat_input_submit (env : Env) (prompt : string) (w : World) :
  PyStr.truthy prompt = true ->
  chat_input env (submit_prompt prompt) w
  = match check_news_intent env prompt (history_before w)
            (after_user_turn prompt w) with
    | (Ret true, w2) =>
        match search_and_process_news env prompt with
        | Ret found => (Ret true, with_message (assistant_news_message env found) w2)
        | Raise e => (Raise e, w2)
        end
    | (Ret false, w2) =>
        match general_chat_response env prompt (history_before w) with
        | Ret response =>
            (Ret true, with_message (Message.plain "assistant" response) w2)
        | Raise e => (Raise e, w2)
        end
    | (Raise e, w2) => (Raise e, w2)
    end.
Proof.
  intros Hprompt.
  unfold chat_input, after_user_turn, history_before, with_message, lift.
  rewrite Hprompt.
  cbn -[check_news_intent search_and_process_news general_chat_response
        conversation_history_of assistant_news_message].
  rewrite history_of_new_turn.
  destruct (check_news_intent env prompt _ _) as [[[|]|e] w2].
  - destruct (search_and_process_news env prompt) as [found|e]; reflexivity.
  - destruct (general_chat_response env prompt _) as [response|e]; reflexivity.
  - reflexivity.
Qed.

(** *** More on the retriever *)

Lemma str_append_assoc (s t u : string) : (s +++ t) +++ u = s +++ (t +++ u).
Proof. induction s as [|a s IH]; cbn; [reflexivity | now rewrite IH]. Qed.

Lemma str_append_nil_r (s : string) : s +++ EmptyString = s.
Proof. induction s as [|a s IH]; cbn; [reflexivity | now rewrite IH]. Qed.

Lemma crawl_entries_step (env : Env) (i : nat) (entry : Entry.t)
  (rest : list Entry.t) (acc : list Article.t) :
  crawl_entries env i (entry :: rest) acc
  = (a <- record_of env i entry ;; crawl_entries env (S i) rest (acc ++ [a])).
Proof.
  cbn [crawl_entries]. unfold record_of. cbn [bind outcome_Monad].
  destruct (crawl_and_summarize (browser env i) entry) as [s|e]; [|reflexivity].
  destruct (entry_attr "title" (Entry.title entry)) as [t|e]; [|reflexivity].
  destruct (entry_attr "link" (Entry.link entry)) as [l|e]; reflexivity.
Qed.

Lemma record_of_inv (env : Env) (i : nat) (entry : Entry.t) (a : Article.t) :
  record_of env i entry = Ret a ->
  Entry.title entry = Some (Article.title a)
  /\ Entry.link entry = Some (Article.link a)
  /\ crawl_and_summarize (browser env i) entry = Ret (Article.summary a).
Proof.
  unfold record_of. cbn [bind outcome_Monad].
  destruct (crawl_and_summarize (browser env i) entry) as [s|e]; [|discriminate].
  destruct (Entry.title entry) as [t|]; [|discriminate].
  destruct (Entry.link entry) as [l|]; [|discriminate].
  cbn. intros H. inversion H. auto.
Qed.

Lemma record_of_complete (env : Env) (i : nat) (entry : Entry.t) :
  entry_complete entry ->
  (exists s, crawl_and_summarize (browser env i) entry = Ret s) ->
  exists a, record_of env i entry = Ret a.
Proof.
  intros (t & l & Ht & Hl) [s Hs]. unfold record_of.
  rewrite Hs, Ht, Hl. cbn. eauto.
Qed.

Lemma crawl_entries_inv (env : Env) :
  forall (entries : list Entry.t) (i : nat) (acc results : list Article.t),
    crawl_entries env i entries acc = Ret results ->
    exists added, results = acc ++ added /\ crawled env i entries added.
Proof.
  induction entries as [|entry es IH]; intros i acc results Hrun.
  - cbn in Hrun. inversion Hrun; subst. exists []. now rewrite app_nil_r.
  - rewrite crawl_entries_step in Hrun. cbn [bind outcome_Monad] in Hrun.
    destruct (record_of env i entry) as [a|e] eqn:Ha; [|discriminate].
    destruct (record_of_inv env i entry a Ha) as (Ht & Hl & Hs).
    destruct (IH _ _ _ Hrun) as (added & Heq & Hadded). subst results.
    exists (a :: added).
    split; [now rewrite <- app_assoc|]. cbn. auto.
Qed.

Lemma crawl_entries_raises (env : Env) :
  forall (entries : list Entry.t) (k : nat) (acc : list Article.t)
         (i : nat) (entry : Entry.t) (e : exn),
    nth_error entries i = Some entry ->
    (forall j entry_j, j < i -> nth_error entries j = Some entry_j ->
       exists a, record_of env (k + j) entry_j = Ret a) ->
    record_of env (k + i) entry = Raise e ->
    crawl_entries env k entries acc = Raise e.
Proof.
  induction entries as [|e0 es IH]; intros k acc i entry e Hnth Hbefore Hraise.
  - now destruct i.
  - rewrite crawl_entries_step. cbn [bind outcome_Monad].
    destruct i as [|i]; cbn in Hnth.
    + inversion Hnth; subst e0. rewrite Nat.add_0_r in Hraise.
      now rewrite Hraise.
    + destruct (Hbefore 0 e0) as [a Ha]; [lia | reflexivity |].
      rewrite Nat.add_0_r in Ha. rewrite Ha.
      apply (IH (S k) _ i entry e Hnth).
      * intros j entry_j Hj Hnj.
        destruct (Hbefore (S j) entry_j) as [a' Ha']; [lia | exact Hnj |].
        exists a'. now rewrite Nat.add_succ_r in Ha'.
      * now rewrite Nat.add_succ_r in Hraise.
Qed.

(** The search raises what the first failing pass of its loop raises. *)
Lemma search_raises_at (env : Env) (keyword : string)
  (i : nat) (entry : Entry.t) (e : exn) :
  i < 3 ->
  nth_error (feedparser_parse env (rss_url keyword)) i = Some entry ->
  (forall j entry_j,
     j < i ->
     nth_error (feedparser_parse env (rss_url keyword)) j = Some entry_j ->
     entry_complete entry_j
     /\ exists s, crawl_and_summarize (browser env j) entry_j = Ret s) ->
  record_of env i entry = Raise e ->
  search_and_process_news env keyword = Raise e.
Proof.
  intros Hi Hnth Hbefore Hraise. unfold search_and_process_news.
  destruct (feedparser_parse env (rss_url keyword)) as [|e0 feed] eqn:Hfeed;
    [now destruct i|].
  cbn [list_truthy negb bind outcome_Monad].
  rewrite (@crawl_entries_raises env (firstn 3 (e0 :: feed)) 0 [] i entry e).
  - reflexivity.
  - rewrite nth_error_firstn. apply Nat.ltb_lt in Hi. now rewrite Hi.
  - intros j entry_j Hj Hnj. rewrite nth_error_firstn in Hnj.
    destruct (j <? 3); [|discriminate].
    destruct (Hbefore j entry_j Hj Hnj) as [Hc Hs].
    now apply record_of_complete.
  - exact Hraise.
Qed.

Lemma crawled_fields (env : Env) :
  forall entries i results,
    crawled env i entries results ->
    map (fun a => Some (Article.title a)) results = map Entry.title entries
    /\ map (fun a => Some (Article.link a)) results = map Entry.link entries.
Proof.
  induction entries as [|entry es IH]; intros i [|a rs]; cbn; try tauto.
  intros (Ht & Hl & _ & Hrest). destruct (IH _ _ Hrest) as [IHt IHl].
  now rewrite Ht, Hl, IHt, IHl.
Qed.

Lemma format_articles_blocks :
  forall (results : list Article.t) (i : nat) (text : string),
    format_articles i results text = text +++ article_blocks i results.
Proof.
  induction results as [|a rest IH]; intros i text; cbn [format_articles article_blocks].
  - now rewrite str_append_nil_r.
  - rewrite IH. unfold article_block. now rewrite !str_append_assoc.
Qed.

(** What a returned search looks like. *)
Lemma search_inv (env : Env) (keyword : string)
  (found : option (list Article.t) * string) :
  search_and_process_news env keyword = Ret found ->
  (feedparser_parse env (rss_url keyword) = []
   /\ found = (None, no_results_text))
  \/ (feedparser_parse env (rss_url keyword) <> []
      /\ exists results,
           found = (Some results,
                    response_header keyword +++ article_blocks 1 results)
           /\ crawled env 0 (firstn 3 (feedparser_parse env (rss_url keyword)))
                results).
Proof.
  unfold search_and_process_news.
  destruct (feedparser_parse env (rss_url keyword)) as [|e0 feed] eqn:Hfeed;
    cbn [list_truthy negb].
  - intros H. inversion H. now left.
  - cbn [bind outcome_Monad].
    destruct (crawl_entries env 0 (firstn 3 (e0 :: feed)) []) as [results|e] eqn:Hrun;
      [|discriminate].
    intros H. inversion H; subst found. right. split; [discriminate|].
    destruct (@crawl_entries_inv env _ _ _ _ Hrun) as (added & Heq & Hadded).
    cbn in Heq. rewrite Heq. exists added. split; [|exact Hadded].
    rewrite format_articles_blocks. reflexivity.
Qed.

(** X1.  Whenever [search_and_process_news] returns, it returns either
    [None] with the fixed message, and then the feed had no entry, or
    between 1 and 3 records: as many as the feed has entries, up to 3,
    carrying the titles and links of the leading entries in feed order
    (which then all have a title and a link).  *)
Theorem search_result_shape (env : Env) (keyword : string)
  (found : option (list Article.t) * string) :
  search_and_process_news env keyword = Ret found ->
  match fst found with
  | None =>
      feedparser_parse env (rss_url keyword) = []
      /\ snd found = "관련 기사를 찾을 수 없습니다."
  | Some results =>
      1 <= List.length results <= 3
      /\ List.length results
         = Nat.min 3 (List.length (feedparser_parse env (rss_url keyword)))
      /\ map (fun a => Some (Article.title a)) results
         = map Entry.title (firstn 3 (feedparser_parse env (rss_url keyword)))
      /\ map (fun a => Some (Article.link a)) results
         = map Entry.link (firstn 3 (feedparser_parse env (rss_url keyword)))
  end.
Proof.
  intros Hrun.
  destruct (@search_inv env keyword found Hrun)
    as [[Hfeed ->] | (Hne & results & -> & Hrs)];
    cbn [fst snd].
  - now split.
  - assert (Hlen := @crawled_length env _ 0 results Hrs).
    rewrite length_firstn in Hlen.
    destruct (@crawled_fields env _ 0 results Hrs) as [Ht Hl].
    destruct (feedparser_parse env (rss_url keyword)) as [|e0 feed];
      [congruence|].
    cbn [List.length] in *. repeat split; try assumption; lia.
Qed.

(** X2.  The loop of the search stops at the first entry whose crawl
    raises: when the entries before the [i]-th carry a title and a link
    and their crawls returned, and the crawl of the [i]-th raises, the
    search raises that exception and returns no record, the ones already
    summarized included. *)
Theorem search_aborts_at_first_failure
  (env : Env) (keyword : string) (i : nat) (entry : Entry.t) (e : exn) :
  i < 3 ->
  nth_error (feedparser_parse env (rss_url keyword)) i = Some entry ->
  (forall j entry_j,
     j < i ->
     nth_error (feedparser_parse env (rss_url keyword)) j = Some entry_j ->
     entry_complete entry_j
     /\ exists s, crawl_and_summarize (browser env j) entry_j = Ret s) ->
  crawl_and_summarize (browser env i) entry = Raise e ->
  search_and_process_news env keyword = Raise e.
Proof.
  intros Hi Hnth Hbefore Hraise.
  apply (search_raises_at env keyword i entry e Hi Hnth Hbefore).
  unfold record_of. now rewrite Hraise.
Qed.

(** X27.  An entry without a title or without a link makes the search
    raise, even when its crawl returned: the record of lines 97-101 is
    built outside any [try].  When the entries before the [i]-th carry a
    title and a link and their crawls returned, and the crawl of the
    [i]-th returns but the entry lacks a title, or has one and lacks a
    link, the search raises the [AttributeError] of the missing key and
    returns no record. *)
Theorem search_raises_on_incomplete_entry
  (env : Env) (keyword : string) (i : nat) (entry : Entry.t) :
  i < 3 ->
  nth_error (feedparser_parse env (rss_url keyword)) i = Some entry ->
  (forall j entry_j,
     j < i ->
     nth_error (feedparser_parse env (rss_url keyword)) j = Some entry_j ->
     entry_complete entry_j
     /\ exists s, crawl_and_summarize (browser env j) entry_j = Ret s) ->
  (exists s, crawl_and_summarize (browser env i) entry = Ret s) ->
  ~ entry_complete entry ->
  (Entry.title entry = None
   /\ search_and_process_news env keyword = Raise (missing_attribute "title"))
  \/ (Entry.title entry <> None /\ Entry.link entry = None
      /\ search_and_process_news env keyword = Raise (missing_attribute "link")).
Proof.
  intros Hi Hnth Hbefore [s Hs] Hincomplete.
  destruct (Entry.title entry) as [t|] eqn:Ht.
  - destruct (Entry.link entry) as [l|] eqn:Hl.
    + exfalso. apply Hincomplete. now exists t, l.
    + right. split; [discriminate|]. split; [reflexivity|].
      apply (search_raises_at env keyword i entry _ Hi Hnth Hbefore).
      unfold record_of. now rewrite Hs, Ht, Hl.
  - left. split; [reflexivity|].
    apply (search_raises_at env keyword i entry _ Hi Hnth Hbefore).
    unfold record_of. now rewrite Hs, Ht.
Qed.

Lemma substring_of_blocks :
  forall (results : list Article.t) (i j : nat) (a : Article.t),
    nth_error results j = Some a ->
    exists pre post,
      article_blocks i results = pre +++ article_block (i + j) a +++ post.
Proof.
  induction results as [|a0 rest IH]; intros i j a Hnth.
  - now destruct j.
  - destruct j as [|j]; cbn in Hnth; cbn [article_blocks].
    + inversion Hnth; subst a0. rewrite Nat.add_0_r.
      now exists EmptyString, (article_blocks (S i) rest).
    + destruct (IH (S i) j a Hnth) as (pre & post & Heq).
      exists (article_block i a0 +++ pre), post.
      rewrite Heq, Nat.add_succ_r. cbn [Nat.add].
      now rewrite str_append_assoc.
Qed.

(** X3.  The response text of a search with results is the heading
    naming the keyword followed by one block per record, in order and
    numbered from 1; so the block of every record, with its number,
    title, summary and link, occurs in the text. *)
Theorem search_response_text
  (env : Env) (keyword : string) (results : list Article.t) (text : string) :
  search_and_process_news env keyword = Ret (Some results, text) ->
  text = response_header keyword +++ article_blocks 1 results
  /\ forall j a,
       nth_error results j = Some a ->
       PyStr.Substring (article_block (S j) a) text.
Proof.
  intros Hrun.
  destruct (@search_inv env keyword _ Hrun) as [[_ H] | (_ & results' & H & _)];
    [discriminate|].
  pose proof (f_equal fst H) as H1. pose proof (f_equal snd H) as H2.
  cbn [fst snd] in H1, H2. injection H1 as <-. clear H.
  split; [exact H2|]. rewrite H2.
  intros j a Hnth.
  destruct (@substring_of_blocks results 1 j a Hnth) as (pre & post & Heq).
  exists (response_header keyword +++ pre), post.
  rewrite Heq. cbn [Nat.add]. now rewrite str_append_assoc.
Qed.

(** *** The branches of a submitted prompt *)

(** X4.  News branch.  For a non-empty prompt that the model classifies
    as NEWS, when the search returns, the run appends the user turn and
    then one assistant turn holding the response text and the time
    stamp, and reaches [st.rerun()].  The assistant turn carries
    ["news_results"] exactly when the search found articles; with an
    empty feed it holds the fixed message and no results, so no save
    button is drawn for it. *)
Theorem chat_input_news_path
  (env : Env) (prompt reply : string) (others : list (option string))
  (found : option (list Article.t) * string) (w : World) :
  PyStr.truthy prompt = true ->
  chat_completions_create env (intent_request prompt (history_before w))
    = Ret (ChatResponse.mk (Some reply :: others)) ->
  PyStr.Substring "NEWS" (PyStr.upper uc_upper (PyStr.strip uc_isspace reply)) ->
  search_and_process_news env prompt = Ret found ->
  let turn := assistant_news_message env found in
  chat_input env (submit_prompt prompt) w
  = (Ret true, with_message turn (after_user_turn prompt w))
  /\ SessionState.messages (session (with_message turn (after_user_turn prompt w)))
     = SessionState.messages (session w)
         ++ [Message.plain "user" (Some prompt); turn]
  /\ Message.content turn = Some (snd found)
  /\ Message.timestamp turn = Some (time_time env)
  /\ match fst found with
     | None =>
         Message.news_results turn = None
         /\ message_keys turn = []
         /\ snd found = "관련 기사를 찾을 수 없습니다."
     | Some results =>
         Message.news_results turn = Some results
         /\ 1 <= List.length results <= 3
     end.
Proof.
  intros Hprompt Hreply Hnews Hsearch turn.
  split; [|split; [|split; [|split]]].
  - rewrite (chat_input_submit env prompt w Hprompt).
    rewrite (@check_news_intent_reply env prompt (history_before w) reply others
               (after_user_turn prompt w) Hreply).
    apply contains_Substring in Hnews. rewrite Hnews, Hsearch. reflexivity.
  - cbn. now rewrite <- app_assoc.
  - reflexivity.
  - reflexivity.
  - subst turn. unfold assistant_news_message, message_keys.
    destruct (search_inv env prompt found Hsearch)
      as [[Hfeed Hfound] | (Hne & results & Hfound & Hrs)];
      rewrite Hfound; cbn [fst snd Message.news_results].
    + repeat split.
    + assert (Hlen := @crawled_length env _ 0 results Hrs).
      rewrite length_firstn in Hlen.
      destruct (feedparser_parse env (rss_url prompt)) as [|e0 feed];
        [congruence|].
      cbn [List.length] in Hlen.
      destruct results as [|a rs]; cbn [List.length] in *; [lia|].
      cbn [list_truthy]. split; [reflexivity | lia].
Qed.

(** X5.  News branch, failing search.  When the search raises, the run
    raises the same exception: the user turn stays in the history with no
    assistant turn after it, and [st.rerun()] is not reached. *)
Theorem chat_input_news_failure
  (env : Env) (prompt reply : string) (others : list (option string))
  (e : exn) (w : World) :
  PyStr.truthy prompt = true ->
  chat_completions_create env (intent_request prompt (history_before w))
    = Ret (ChatResponse.mk (Some reply :: others)) ->
  PyStr.Substring "NEWS" (PyStr.upper uc_upper (PyStr.strip uc_isspace reply)) ->
  search_and_process_news env prompt = Raise e ->
  chat_input env (submit_prompt prompt) w
  = (Raise e, after_user_turn prompt w)
  /\ SessionState.messages (session (after_user_turn prompt w))
     = SessionState.messages (session w) ++ [Message.plain "user" (Some prompt)].
Proof.
  intros Hprompt Hreply Hnews Hsearch. split; [|reflexivity].
  rewrite (chat_input_submit env prompt w Hprompt).
  rewrite (@check_news_intent_reply env prompt (history_before w) reply others
             (after_user_turn prompt w) Hreply).
  apply contains_Substring in Hnews. rewrite Hnews, Hsearch. reflexivity.
Qed.

(** X6.  A classifier that fails sends the prompt to the chat branch:
    when the intent call raises, the error is shown, and the run still
    appends the user turn and a plain assistant turn with the chat
    response, and reaches [st.rerun()]. *)
Theorem chat_input_intent_failure
  (env : Env) (prompt : string) (e : exn) (w : World) :
  PyStr.truthy prompt = true ->
  chat_completions_create env (intent_request prompt (history_before w))
    = Raise e ->
  exists response w',
    general_chat_response env prompt (history_before w) = Ret response
    /\ chat_input env (submit_prompt prompt) w = (Ret true, w')
    /\ SessionState.messages (session w')
       = SessionState.messages (session w)
           ++ [ Message.plain "user" (Some prompt);
                Message.plain "assistant" response ]
    /\ ui w'
       = ui w ++ [ st_chat_markdown "user" (Some prompt);
                   st_error_box ("의도 판단 오류: " +++ exn_str e) ].
Proof.
  intros Hprompt Hraise.
  destruct (general_chat_response_returns env prompt (history_before w))
    as [response Hchat].
  exists response. eexists. split; [exact Hchat|]. split.
  - rewrite (chat_input_submit env prompt w Hprompt).
    unfold check_news_intent, lift.
    cbn [bind try_except ret StateExn_Monad]. rewrite Hraise.
    cbn [st_error st_show]. rewrite Hchat. reflexivity.
  - cbn. split; now rewrite <- app_assoc.
Qed.

(** X7.  [general_chat_response] never raises.  It returns the content of
    the model's first choice; when the call raises, or when the response
    has no choice, it returns the text
    [응답 생성 중 오류가 발생했습니다: <error>] in its place. *)
Theorem general_chat_response_total
  (env : Env) (user_input : string) (history : list Message.t) :
  match chat_completions_create env (chat_request user_input history) with
  | Ret response =>
      match ChatResponse.choices response with
      | content :: _ =>
          general_chat_response env user_input history = Ret content
      | [] =>
          general_chat_response env user_input history
          = Ret (Some "응답 생성 중 오류가 발생했습니다: list index out of range")
      end
  | Raise e =>
      general_chat_response env user_input history
      = Ret (Some ("응답 생성 중 오류가 발생했습니다: " +++ exn_str e))
  end.
Proof.
  unfold general_chat_response. cbn [bind try_except ret outcome_Monad].
  destruct (chat_completions_create env (chat_request user_input history))
    as [[[|content rest]]|e]; reflexivity.
Qed.

(** *** Invariants through any run of the script *)

Lemma keeps_bind_lift (I : World -> Prop) {A B : Type}
  (m : outcome A) (k : A -> StateExn World B) :
  (forall a, m = Ret a -> keeps I (k a)) -> keeps I (bind (lift m) k).
Proof.
  intros Hk w Hw. unfold lift. cbn.
  destruct m as [a|e]; cbn; [now apply (Hk a) | exact Hw].
Qed.

Section KeepsRun.

Variable I : World -> Prop.
Variable P : Message.t -> Prop.

Hypothesis I_show : forall e, keeps I (st_show e).
Hypothesis I_messages : forall m, P m -> keeps I (messages_append m).
Hypothesis P_user :
  forall prompt, PyStr.truthy prompt = true ->
                 P (Message.plain "user" (Some prompt)).
Hypothesis P_chat : forall response, P (Message.plain "assistant" response).
Hypothesis P_news :
  forall env prompt found,
    search_and_process_news env prompt = Ret found ->
    P (assistant_news_message env found).

Lemma keeps_chat_input_any (env : Env) (ev : Event) :
  keeps I (chat_input env ev).
Proof.
  unfold chat_input. destruct ev as [| |key|prompt]; try apply keeps_ret.
  destruct (PyStr.truthy prompt) eqn:Hprompt; [|apply keeps_ret].
  apply keeps_bind; [now apply I_messages, P_user | intros _].
  apply keeps_bind; [apply I_show | intros _].
  apply keeps_bind; [intros w Hw; exact Hw | intros messages].
  apply keeps_bind;
    [now apply keeps_check_news_intent_any | intros is_news].
  apply keeps_bind; [| intros _; apply keeps_ret].
  destruct is_news.
  - apply keeps_bind_lift. intros found Hfound.
    apply I_messages. exact (P_news env prompt found Hfound).
  - apply keeps_bind_lift. intros response _. apply I_messages, P_chat.
Qed.

Hypothesis I_log : forall c, keeps I (log_call c).
Hypothesis I_notion : forall env n p, keeps I (notion_create env n p).
Hypothesis I_sidebar : forall wid ev, keeps I (sidebar wid ev).

Lemma keeps_app_any (env : Env) (wid : Widgets) (ev : Event) :
  keeps I (app env wid ev).
Proof.
  unfold app, main_page.
  apply keeps_bind; [apply I_sidebar | intros rerun].
  destruct rerun; [apply keeps_ret|].
  apply keeps_bind; [intros w Hw; exact Hw | intros messages].
  apply keeps_bind; [now apply keeps_render_messages_any | intros _].
  apply keeps_bind; [apply keeps_chat_input_any | intros rerun].
  destruct rerun; apply keeps_ret.
Qed.

End KeepsRun.

Lemma session_extends_refl (w : World) : session_extends w w.
Proof.
  repeat split; try (exists []; now rewrite app_nil_r).
Qed.

(** X8.  A run never removes or rewrites what the session holds: after
    any run, whatever the event and the services answer and whether or
    not the run raises, the messages and the schedules are the old ones
    followed by what the run added, and [collected_news] and
    [last_check_time] are what they were. *)
Theorem run_extends_session
  (env : Env) (wid : Widgets) (ev : Event) (w : World) :
  session_extends w (snd (app env wid ev w)).
Proof.
  apply (keeps_app_any (session_extends w) (fun _ => True));
    try (intros; exact I); try apply session_extends_refl.
  - intros e w' H. exact H.
  - intros m _ w' ((turns & Hm) & Hs & Hc & Hl).
    repeat split; try assumption.
    exists (turns ++ [m]). cbn. rewrite Hm. now rewrite <- app_assoc.
  - intros c w' H. exact H.
  - intros env' n p w' H. unfold notion_create.
    destruct (notion_pages_create env' n p); exact H.
  - intros wid' ev' w' ((turns & Hm) & (added & Hs) & Hc & Hl).
    unfold sidebar. destruct ev'; try (repeat split; eauto; fail).
    destruct (PyStr.truthy (search_keyword wid'));
      [| repeat split; eauto].
    cbn. repeat split; eauto.
    eexists (added ++ [_]). rewrite Hs. now rewrite <- app_assoc.
Qed.

Lemma schedules_shape_snoc (schedules : list Schedule.t) (s : Schedule.t) :
  schedules_shape schedules ->
  Schedule.id s = List.length schedules ->
  Schedule.active s = true ->
  schedules_shape (schedules ++ [s]).
Proof.
  intros [Hact Hids] Hid Hs. split.
  - apply Forall_app. split; [exact Hact | now constructor].
  - rewrite map_app, length_app, Hids. cbn [List.length map].
    rewrite Nat.add_1_r, seq_S. cbn. now rewrite Hid.
Qed.

Lemma reachable_schedules_shape (w : World) :
  reachable w -> schedules_shape (SessionState.schedules (session w)).
Proof.
  induction 1 as [pages | w env wid ev Hw IH | w Hw IH].
  - split; [constructor | reflexivity].
  - revert IH.
    apply (keeps_app_any
             (fun w' => schedules_shape (SessionState.schedules (session w')))
             (fun _ => True)); try (intros; exact I).
    + intros e w' H. exact H.
    + intros m _ w' H. exact H.
    + intros c w' H. exact H.
    + intros env' n p w' H. unfold notion_create.
      destruct (notion_pages_create env' n p); exact H.
    + intros wid' ev' w' H. unfold sidebar. destruct ev'; try exact H.
      destruct (PyStr.truthy (search_keyword wid')); [|exact H].
      cbn. now apply schedules_shape_snoc.
  - split; [constructor | reflexivity].
Qed.

(** X9.  In every reachable world every schedule is active, the ids of
    the schedules are 0, 1, 2, ... in order, and so no two schedules
    share an id. *)
Theorem reachable_schedules (w : World) :
  reachable w ->
  Forall (fun s => Schedule.active s = true) (SessionState.schedules (session w))
  /\ map Schedule.id (SessionState.schedules (session w))
     = seq 0 (List.length (SessionState.schedules (session w)))
  /\ NoDup (map Schedule.id (SessionState.schedules (session w))).
Proof.
  intros Hreach. destruct (reachable_schedules_shape w Hreach) as [Hact Hids].
  repeat split; try assumption. rewrite Hids. apply seq_NoDup.
Qed.

Lemma message_shape_news (env : Env) (prompt : string)
  (found : option (list Article.t) * string) :
  search_and_process_news env prompt = Ret found ->
  message_shape (assistant_news_message env found).
Proof.
  intros Hfound. right. right. unfold assistant_news_message.
  destruct (search_inv env prompt found Hfound)
    as [[_ ->] | (Hne & results & -> & Hrs)]; cbn [fst snd].
  - cbn. repeat split; discriminate.
  - assert (Hlen := @crawled_length env _ 0 results Hrs).
    rewrite length_firstn in Hlen.
    destruct (feedparser_parse env (rss_url prompt)) as [|e0 feed];
      [congruence|].
    cbn [List.length] in Hlen.
    destruct results as [|a rs]; cbn [List.length] in Hlen; [lia|].
    cbn [list_truthy Message.role Message.content Message.timestamp
           Message.news_results List.length].
    repeat split; try discriminate; lia.
Qed.

Lemma reachable_messages_shape (w : World) :
  reachable w -> Forall message_shape (SessionState.messages (session w)).
Proof.
  induction 1 as [pages | w env wid ev Hw IH | w Hw IH].
  - constructor.
  - revert IH.
    apply (keeps_app_any
             (fun w' => Forall message_shape (SessionState.messages (session w')))
             message_shape).
    + intros e w' H. exact H.
    + intros m Hm w' H. cbn. apply Forall_app. split; [exact H | now constructor].
    + intros prompt Hprompt. left. cbn. repeat split.
      exists prompt. split; [reflexivity|]. now destruct prompt.
    + intros response. right. left. cbn. repeat split.
    + exact message_shape_news.
    + intros c w' H. exact H.
    + intros env' n p w' H. unfold notion_create.
      destruct (notion_pages_create env' n p); exact H.
    + intros wid' ev' w' H. unfold sidebar. destruct ev'; try exact H.
      destruct (PyStr.truthy (search_keyword wid')); exact H.
  - constructor.
Qed.

(** X10.  In every reachable world each turn of the history is a user
    turn with a non-empty text, or a plain assistant turn, or a
    time-stamped assistant turn of the news branch that holds either the
    fixed no-result message without results or between 1 and 3
    results. *)
Theorem reachable_messages (w : World) (m : Message.t) :
  reachable w ->
  In m (SessionState.messages (session w)) ->
  message_shape m.
Proof.
  intros Hreach Hin.
  exact (proj1 (Forall_forall _ _) (reachable_messages_shape w Hreach) m Hin).
Qed.

(** *** Runs that are not a save click *)

Lemma st_button_no_click (seen : list string) (key : string) (ev : Event) :
  (forall k, ev <> click_save k) ->
  st_button seen key ev = Ret false \/ exists e, st_button seen key ev = Raise e.
Proof.
  intros Hev. unfold st_button.
  destruct (existsb (String.eqb key) seen); [right; eauto|].
  left. destruct ev as [| |k0|prompt]; try reflexivity. now destruct (Hev k0).
Qed.

Section KeepsIdle.

Variable I : World -> Prop.
Variable ev : Event.

Hypothesis I_show : forall e, keeps I (st_show e).
Hypothesis ev_no_click : forall k, ev <> click_save k.

Lemma keeps_render_buttons_idle (env : Env) (message : Message.t) :
  forall (articles : list Article.t) (i : nat) (seen : list string),
    keeps I (render_buttons env ev message i articles seen).
Proof.
  induction articles as [|a rest IH]; intros i seen.
  - apply keeps_ret.
  - cbn [render_buttons]. apply keeps_bind_lift. intros clicked Hclicked.
    destruct (st_button_no_click seen (button_key i message) ev ev_no_click)
      as [Hfalse | [e He]]; [|congruence].
    assert (clicked = false) by congruence. subst clicked.
    apply keeps_bind; [apply keeps_ret | intros _; apply IH].
Qed.

Lemma keeps_render_messages_idle (env : Env) :
  forall (messages : list Message.t) (seen : list string),
    keeps I (render_messages env ev messages seen).
Proof.
  induction messages as [|m rest IH]; intros seen.
  - apply keeps_ret.
  - cbn [render_messages].
    apply keeps_bind; [apply I_show | intros _].
    apply keeps_bind; [| intros seen'; apply IH].
    destruct (Message.news_results m) as [articles|]; [|apply keeps_ret].
    destruct (String.eqb (Message.role m) "assistant"); [|apply keeps_ret].
    apply keeps_bind; [apply keeps_lift | intros _; apply keeps_render_buttons_idle].
Qed.

Hypothesis I_messages : forall m, keeps I (messages_append m).
Hypothesis I_sidebar : forall wid, keeps I (sidebar wid ev).

Lemma keeps_app_idle (env : Env) (wid : Widgets) :
  keeps I (app env wid ev).
Proof.
  unfold app, main_page.
  apply keeps_bind; [apply I_sidebar | intros rerun].
  destruct rerun; [apply keeps_ret|].
  apply keeps_bind; [intros w Hw; exact Hw | intros messages].
  apply keeps_bind; [apply keeps_render_messages_idle | intros _].
  apply keeps_bind; [| intros rerun; destruct rerun; apply keeps_ret].
  apply (keeps_chat_input_any I (fun _ => True)); try (intros; exact Logic.I).
  - exact I_show.
  - intros m _. apply I_messages.
Qed.

End KeepsIdle.

Lemma idle_run_same_archive
  (env : Env) (wid : Widgets) (ev : Event) (w : World) :
  (forall k, ev <> click_save k) ->
  same_archive w (snd (app env wid ev w)).
Proof.
  intros Hev.
  apply (keeps_app_idle (same_archive w) ev); try exact Hev;
    try (split; reflexivity).
  - intros e w' H. exact H.
  - intros m w' H. exact H.
  - intros wid' w' H. unfold sidebar. destruct ev; try exact H.
    destruct (PyStr.truthy (search_keyword wid')); exact H.
Qed.

(** X11.  Only a click on a save button reaches the notes workspace: a
    run started by anything else (a reload, the schedule form, a
    submitted prompt) creates no page and calls neither [save_to_notion]
    nor [auto_collect_news], whatever the services answer. *)
Theorem only_save_click_archives
  (env : Env) (wid : Widgets) (ev : Event) (w : World) :
  (forall k, ev <> click_save k) ->
  notion_pages (snd (app env wid ev w)) = notion_pages w
  /\ calls (snd (app env wid ev w)) = calls w.
Proof. exact (idle_run_same_archive env wid ev w). Qed.

(** *** One click, one archive request *)

Lemma save_to_notion_growth
  (env : Env) (n : nat) (title : string) (summary : option string)
  (link : string) (w : World) :
  exists b w' pages,
    save_to_notion env n title summary link w = (Ret b, w')
    /\ calls w' = calls w ++ [call_save_to_notion title summary link]
    /\ notion_pages w' = notion_pages w ++ pages
    /\ List.length pages <= 1.
Proof.
  unfold save_to_notion, notion_create, log_call. cbn.
  destruct (notion_pages_create env n _); cbn.
  - exists true. eexists. eexists [_]. repeat split. cbn. lia.
  - exists false. eexists. exists []. repeat split.
    + cbn. now rewrite app_nil_r.
    + cbn. lia.
Qed.

Lemma existsb_eqb_false (key : string) (seen : list string) :
  existsb (String.eqb key) seen = false -> ~ In key seen.
Proof.
  intros Hex Hin. assert (existsb (String.eqb key) seen = true); [|congruence].
  apply existsb_exists. exists key. split; [exact Hin | apply String.eqb_refl].
Qed.

Lemma render_buttons_bounded (env : Env) (k : string) (m : Message.t) :
  forall (articles : list Article.t) (i : nat) (seen : list string) (w : World),
    exists requests pages,
      calls (snd (render_buttons env (click_save k) m i articles seen w))
      = calls w ++ requests
      /\ notion_pages (snd (render_buttons env (click_save k) m i articles seen w))
         = notion_pages w ++ pages
      /\ List.length pages <= List.length requests <= 1
      /\ (In k seen -> requests = [])
      /\ (forall seen',
            fst (render_buttons env (click_save k) m i articles seen w) = Ret seen' ->
            In k seen \/ requests <> [] -> In k seen').
Proof.
  induction articles as [|a rest IH]; intros i seen w.
  - exists [], []. cbn. rewrite !app_nil_r. repeat split; try lia.
    intros seen' H [Hin|Hne]; [|congruence]. now inversion H; subst.
  - cbn [render_buttons bind StateExn_Monad]. unfold lift, st_button.
    destruct (existsb (String.eqb (button_key i m)) seen) eqn:Hex.
    + exists [], []. cbn. rewrite !app_nil_r. repeat split; try lia.
      intros seen' H. discriminate.
    + apply existsb_eqb_false in Hex.
      destruct (String.eqb_spec k (button_key i m)) as [Hk|Hk].
      * destruct (save_to_notion_growth env 0 (Article.title a)
                    (Article.summary a) (Article.link a) w)
          as (b & w1 & pages1 & Hrun & Hcalls & Hpages & Hlen).
        rewrite Hrun. cbn [st_toast st_show].
        match goal with
        | |- context [render_buttons env (click_save k) m (S i) rest ?s1 ?w2] =>
            destruct (IH (S i) s1 w2)
              as (requests2 & pages2 & Hc2 & Hp2 & Hl2 & Hseen2 & Hret2)
        end.
        assert (Hin : In k (button_key i m :: seen)) by (left; now subst).
        specialize (Hseen2 Hin). subst requests2.
        assert (pages2 = []) by (destruct pages2; [reflexivity | cbn in Hl2; lia]).
        subst pages2.
        exists [call_save_to_notion (Article.title a) (Article.summary a)
                  (Article.link a)], pages1.
        split; [rewrite Hc2; cbn [calls]; now rewrite Hcalls, app_nil_r|].
        split; [rewrite Hp2; cbn [notion_pages]; now rewrite Hpages, app_nil_r|].
        split; [cbn; lia|]. split.
        -- intros Hseen. exfalso. apply Hex. now subst.
        -- intros seen' H _. apply (Hret2 seen' H). now left.
      * cbn [ret StateExn_Monad].
        destruct (IH (S i) (button_key i m :: seen) w)
          as (requests2 & pages2 & Hc2 & Hp2 & Hl2 & Hseen2 & Hret2).
        exists requests2, pages2. repeat split; try assumption; try lia.
        -- intros Hseen. apply Hseen2. now right.
        -- intros seen' H [Hin|Hne]; apply (Hret2 seen' H);
             [left; now right | now right].
Qed.

Lemma render_messages_bounded (env : Env) (k : string) :
  forall (messages : list Message.t) (seen : list string) (w : World),
    exists requests pages,
      calls (snd (render_messages env (click_save k) messages seen w))
      = calls w ++ requests
      /\ notion_pages (snd (render_messages env (click_save k) messages seen w))
         = notion_pages w ++ pages
      /\ List.length pages <= List.length requests <= 1
      /\ (In k seen -> requests = []).
Proof.
  induction messages as [|m rest IH]; intros seen w.
  - exists [], []. cbn. rewrite !app_nil_r. repeat split; lia.
  - cbn [render_messages bind StateExn_Monad st_show].
    set (w0 := mkWorld (session w) (notion_pages w)
                 (ui w ++ [st_chat_markdown (Message.role m) (Message.content m)])
                 (calls w)).
    assert (Hskip :
      exists requests pages,
        calls (snd (render_messages env (click_save k) rest seen w0))
        = calls w ++ requests
        /\ notion_pages (snd (render_messages env (click_save k) rest seen w0))
           = notion_pages w ++ pages
        /\ List.length pages <= List.length requests <= 1
        /\ (In k seen -> requests = [])) by apply (IH seen w0).
    destruct (Message.news_results m) as [articles|]; [|exact Hskip].
    destruct (String.eqb (Message.role m) "assistant"); [|exact Hskip].
    clear Hskip. cbn [bind StateExn_Monad]. unfold lift.
    destruct (st_columns (List.length articles)) as [[]|e].
    + destruct (render_buttons_bounded env k m articles 0 seen w0)
        as (requests1 & pages1 & Hc1 & Hp1 & Hl1 & Hseen1 & Hret1).
      destruct (render_buttons env (click_save k) m 0 articles seen w0)
        as [[seen1|e] w1] eqn:Hbuttons; cbn [fst snd] in *.
      * destruct (IH seen1 w1)
          as (requests2 & pages2 & Hc2 & Hp2 & Hl2 & Hseen2).
        exists (requests1 ++ requests2), (pages1 ++ pages2).
        rewrite Hc2, Hp2, Hc1, Hp1. cbn [calls notion_pages w0].
        rewrite <- !app_assoc. split; [reflexivity|]. split; [reflexivity|].
        destruct requests1 as [|c1 r1].
        -- assert (pages1 = [])
             by (destruct pages1; [reflexivity | cbn in Hl1; lia]).
           subst pages1. cbn [app]. split; [exact Hl2|].
           intros Hin. apply Hseen2, (Hret1 seen1 eq_refl). now left.
        -- assert (requests2 = [])
             by (apply Hseen2, (Hret1 seen1 eq_refl); right; discriminate).
           subst requests2.
           assert (pages2 = [])
             by (destruct pages2; [reflexivity | cbn in Hl2; lia]).
           subst pages2. rewrite !app_nil_r. split; [exact Hl1|].
           intros Hin. now apply Hseen1.
      * exists requests1, pages1. repeat split; assumption || lia.
    + exists [], []. cbn. rewrite !app_nil_r. repeat split; lia.
Qed.

(** X12.  A run makes at most one archive request: whatever the event
    and the world, even with repeated button keys, the call log grows by
    at most one call and the notes workspace by at most one page, and a
    page is added only with a request. *)
Theorem at_most_one_archive_per_run
  (env : Env) (wid : Widgets) (ev : Event) (w : World) :
  exists requests pages,
    calls (snd (app env wid ev w)) = calls w ++ requests
    /\ notion_pages (snd (app env wid ev w)) = notion_pages w ++ pages
    /\ List.length pages <= List.length requests <= 1.
Proof.
  assert (Hidle : forall ev',
            (forall k, ev' <> click_save k) ->
            exists requests pages,
              calls (snd (app env wid ev' w)) = calls w ++ requests
              /\ notion_pages (snd (app env wid ev' w)) = notion_pages w ++ pages
              /\ List.length pages <= List.length requests <= 1).
  { intros ev' Hev'.
    destruct (idle_run_same_archive env wid ev' w Hev') as [Hp Hc].
    exists [], []. rewrite Hp, Hc, !app_nil_r. repeat split; cbn; lia. }
  destruct ev as [| |k|prompt]; try (apply Hidle; intros k'; discriminate).
  clear Hidle.
  unfold app, main_page.
  cbn [sidebar bind ret StateExn_Monad get_messages chat_input].
  destruct (render_messages_bounded env k (SessionState.messages (session w)) [] w)
    as (requests & pages & Hc & Hp & Hl & _).
  exists requests, pages.
  destruct (render_messages env (click_save k)
              (SessionState.messages (session w)) [] w) as [[[]|e] w'];
    cbn [fst snd] in *; repeat split; assumption || lia.
Qed.

(** *** Drawing the page *)

Lemma st_button_fresh_idle (seen : list string) (key : string) (ev : Event) :
  (forall k, ev <> click_save k) ->
  ~ In key seen ->
  st_button seen key ev = Ret false.
Proof.
  intros Hev Hfresh. unfold st_button.
  destruct (existsb (String.eqb key) seen) eqn:Hex.
  - apply existsb_exists in Hex. destruct Hex as (x & Hin & Heq).
    apply String.eqb_eq in Heq. now subst x.
  - destruct ev as [| |k0|prompt]; try reflexivity. now destruct (Hev k0).
Qed.

Lemma render_buttons_quiet (env : Env) (ev : Event) (m : Message.t) :
  (forall k, ev <> click_save k) ->
  forall (articles : list Article.t) (i0 : nat) (seen : list string) (w : World),
    NoDup (map (fun i => button_key i m) (seq i0 (List.length articles))) ->
    (forall x,
       In x (map (fun i => button_key i m) (seq i0 (List.length articles))) ->
       ~ In x seen) ->
    render_buttons env ev m i0 articles seen w
    = (Ret (rev (map (fun i => button_key i m) (seq i0 (List.length articles)))
              ++ seen), w).
Proof.
  intros Hev.
  induction articles as [|a rest IH]; intros i0 seen w Hnd Hdisj.
  - reflexivity.
  - cbn [List.length seq map] in *.
    inversion Hnd as [|? ? Hnotin Hnd']; subst.
    cbn [render_buttons bind StateExn_Monad]. unfold lift.
    rewrite (st_button_fresh_idle seen (button_key i0 m) ev Hev)
      by (apply Hdisj; now left).
    cbn [ret StateExn_Monad]. rewrite IH.
    + cbn [rev]. now rewrite <- app_assoc.
    + exact Hnd'.
    + intros x Hx [<-|Hs]; [contradiction|].
      apply (Hdisj x); [now right | exact Hs].
Qed.

Lemma render_messages_quiet (env : Env) (ev : Event) :
  (forall k, ev <> click_save k) ->
  forall (messages : list Message.t) (seen : list string) (w : World),
    Forall message_ok messages ->
    NoDup (page_keys messages) ->
    (forall x, In x (page_keys messages) -> ~ In x seen) ->
    render_messages env ev messages seen w
    = (Ret tt,
       mkWorld (session w) (notion_pages w) (ui w ++ shown_history messages)
         (calls w)).
Proof.
  intros Hev.
  induction messages as [|m rest IH]; intros seen w Hok Hnd Hdisj.
  - cbn. rewrite app_nil_r. now destruct w.
  - inversion Hok as [|? ? Hm Hrest]; subst.
    unfold page_keys in Hnd, Hdisj. cbn [flat_map] in Hnd, Hdisj.
    fold (page_keys rest) in Hnd, Hdisj.
    assert (Hnd_m := NoDup_app_remove_r _ _ Hnd).
    assert (Hnd_r := NoDup_app_remove_l _ _ Hnd).
    cbn [render_messages bind StateExn_Monad st_show shown_history map].
    fold (shown_history rest).
    unfold message_keys in Hnd, Hdisj, Hnd_m.
    destruct (Message.news_results m) as [articles|] eqn:Hnews.
    + destruct (String.eqb (Message.role m) "assistant").
      * assert (Hne : articles <> []) by now apply Hm.
        destruct articles as [|a0 arts]; [congruence|].
        cbn [bind StateExn_Monad lift st_columns List.length].
        rewrite (render_buttons_quiet env ev m Hev (a0 :: arts) 0 seen).
        -- rewrite IH.
           ++ cbn [session notion_pages ui calls]. now rewrite <- app_assoc.
           ++ exact Hrest.
           ++ exact Hnd_r.
           ++ intros x Hx Hin. apply in_app_or in Hin.
              destruct Hin as [Hin|Hin].
              ** apply in_rev in Hin.
                 exact (@NoDup_app_disjoint _ _ _ x Hnd Hin Hx).
              ** apply (Hdisj x); [apply in_or_app; now right | exact Hin].
        -- exact Hnd_m.
        -- intros x Hx. apply Hdisj, in_or_app. now left.
      * cbn [ret StateExn_Monad]. rewrite IH; try assumption.
        cbn [session notion_pages ui calls]. now rewrite <- app_assoc.
    + cbn [ret StateExn_Monad]. rewrite IH; try assumption.
      cbn [session notion_pages ui calls]. now rewrite <- app_assoc.
Qed.

(** X13.  In a reachable world whose button keys are pairwise distinct,
    drawing the page cannot fail: a run that is not a save click draws
    every turn of the history, in order, changes nothing else and goes
    on to the chat input; an idle run or reload ends there, at the last
    line of the script. *)
Theorem page_renders (env : Env) (wid : Widgets) (ev : Event) (w : World) :
  reachable w ->
  NoDup (page_keys (SessionState.messages (session w))) ->
  (forall k, ev <> click_save k) ->
  main_page env ev w
  = (rerun <- chat_input env ev ;;
     if rerun : bool then ret script_rerun else ret script_finished) (drawn w)
  /\ app env wid no_interaction w = (Ret script_finished, drawn w).
Proof.
  intros Hreach Hnd Hev.
  destruct (reachable_invariant Hreach) as (_ & _ & _ & _ & Hok).
  assert (Hdraw : forall ev', (forall k, ev' <> click_save k) ->
            render_messages env ev' (SessionState.messages (session w)) [] w
            = (Ret tt, drawn w)).
  { intros ev' Hev'.
    apply (render_messages_quiet env ev' Hev' _ [] w Hok Hnd). intros x _ []. }
  split.
  - unfold main_page. cbn [bind StateExn_Monad get_messages].
    now rewrite (Hdraw ev Hev).
  - unfold app, main_page.
    cbn [sidebar bind ret StateExn_Monad get_messages].
    rewrite (Hdraw no_interaction) by (intros k; discriminate). reflexivity.
Qed.

(** *** Button keys and time stamps *)

Lemma button_key_inj (i j : nat) (m m' : Message.t) (t t' : string) :
  i < 3 -> j < 3 ->
  Message.timestamp m = Some t ->
  Message.timestamp m' = Some t' ->
  button_key i m = button_key j m' ->
  i = j /\ t = t'.
Proof.
  intros Hi Hj Ht Ht'. unfold button_key. rewrite Ht, Ht'.
  destruct i as [|[|[|i]]]; try lia;
    destruct j as [|[|[|j]]]; try lia;
    cbn; intros H; inversion H; auto.
Qed.

Lemma message_shape_news_turn (m : Message.t) (articles : list Article.t) :
  message_shape m ->
  Message.news_results m = Some articles ->
  Message.role m = "assistant"
  /\ (exists t, Message.timestamp m = Some t)
  /\ 1 <= List.length articles <= 3.
Proof.
  intros [(_ & _ & _ & H) | [(_ & _ & H) | (Hrole & _ & Ht & H)]] Hnews;
    try congruence.
  rewrite Hnews in H. repeat split; try assumption; try lia.
  destruct (Message.timestamp m) as [t|]; [eauto | congruence].
Qed.

Lemma message_keys_elem (m : Message.t) (x : string) :
  message_shape m ->
  In x (message_keys m) ->
  exists i t articles,
    i < 3 /\ x = button_key i m
    /\ Message.timestamp m = Some t
    /\ Message.news_results m = Some articles.
Proof.
  intros Hshape Hin. unfold message_keys in Hin.
  destruct (Message.news_results m) as [articles|] eqn:Hnews; [|contradiction].
  destruct (message_shape_news_turn m articles Hshape Hnews)
    as (_ & (t & Ht) & Hlen).
  destruct (String.eqb (Message.role m) "assistant"); [|contradiction].
  apply in_map_iff in Hin. destruct Hin as (i & <- & Hi).
  apply in_seq in Hi. exists i, t, articles. repeat split; try assumption; lia.
Qed.

Lemma message_keys_nodup (m : Message.t) :
  message_shape m -> NoDup (message_keys m).
Proof.
  intros Hshape. unfold message_keys.
  destruct (Message.news_results m) as [articles|] eqn:Hnews; [|constructor].
  destruct (message_shape_news_turn m articles Hshape Hnews)
    as (_ & (t & Ht) & Hlen).
  destruct (String.eqb (Message.role m) "assistant"); [|constructor].
  assert (Hinj : forall i j, i < 3 -> j < 3 ->
            button_key i m = button_key j m -> i = j).
  { intros i j Hi Hj H. now destruct (button_key_inj i j m m t t Hi Hj Ht Ht H). }
  destruct articles as [|a0 [|a1 [|a2 [|a3 rest]]]]; cbn in Hlen; try lia;
    cbn [List.length seq map];
    repeat constructor; cbn [In];
    intros H; repeat (destruct H as [H|H]; [apply Hinj in H; lia|]);
    exact H.
Qed.

Lemma keys_distinct_of_timestamps :
  forall messages : list Message.t,
    Forall message_shape messages ->
    NoDup (news_timestamps messages) ->
    NoDup (page_keys messages).
Proof.
  induction messages as [|m rest IH]; intros Hshape Hts; [constructor|].
  inversion Hshape as [|? ? Hm Hrest]; subst.
  unfold page_keys. cbn [flat_map]. fold (page_keys rest).
  unfold news_timestamps in Hts. cbn [flat_map] in Hts.
  fold (news_timestamps rest) in Hts.
  apply NoDup_app.
  - now apply message_keys_nodup.
  - apply (IH Hrest). exact (NoDup_app_remove_l _ _ Hts).
  - intros x Hx Hin.
    destruct (message_keys_elem m x Hm Hx) as (i & t & articles & Hi & -> & Ht & Hnews).
    apply in_flat_map in Hin. destruct Hin as (m' & Hm' & Hx').
    assert (Hshape' : message_shape m')
      by exact (proj1 (Forall_forall _ _) Hrest m' Hm').
    destruct (message_keys_elem m' _ Hshape' Hx')
      as (j & t' & articles' & Hj & Hkey & Ht' & Hnews').
    destruct (button_key_inj i j m m' t t' Hi Hj Ht Ht' Hkey) as [_ <-].
    rewrite Hnews, Ht in Hts. cbn [app] in Hts.
    inversion Hts as [|? ? Hnotin _]; subst. apply Hnotin.
    apply in_flat_map. exists m'. split; [exact Hm'|].
    rewrite Hnews', Ht'. now left.
Qed.

(** X14.  The button keys of a reachable page are pairwise distinct as
    soon as the time stamps of its news turns are: within a turn the
    keys differ by the article index, and across turns by the time
    stamp. *)
Theorem distinct_timestamps_distinct_keys (w : World) :
  reachable w ->
  NoDup (news_timestamps (SessionState.messages (session w))) ->
  NoDup (page_keys (SessionState.messages (session w))).
Proof.
  intros Hreach.
  exact (keys_distinct_of_timestamps _ (reachable_messages_shape w Hreach)).
Qed.

(** *** More on the classifier, the crawler and the archive *)

(** X15.  [check_news_intent] never raises and never touches the session
    store, the notes workspace or the call log.  It answers true only
    when the first choice of the model is a text that contains NEWS once
    stripped and upper-cased: an exception, a response with no choice
    and a choice without text all give false. *)
Theorem check_news_intent_sound
  (env : Env) (user_input : string) (history : list Message.t) (w : World) :
  exists (b : bool) (w' : World),
    check_news_intent env user_input history w = (Ret b, w')
    /\ session w' = session w
    /\ notion_pages w' = notion_pages w
    /\ calls w' = calls w
    /\ (b = true ->
        exists reply others,
          chat_completions_create env (intent_request user_input history)
          = Ret (ChatResponse.mk (Some reply :: others))
          /\ PyStr.Substring "NEWS"
               (PyStr.upper uc_upper (PyStr.strip uc_isspace reply))).
Proof.
  unfold check_news_intent, lift.
  cbn [bind try_except ret StateExn_Monad].
  destruct (chat_completions_create env (intent_request user_input history))
    as [[[|[reply|] others]]|e]; cbn.
  - exists false. eexists. do 4 (split; [reflexivity|]). discriminate.
  - eexists. eexists. do 4 (split; [reflexivity|]). intros Hb.
    exists reply, others. split; [reflexivity|]. now apply contains_Substring.
  - exists false. eexists. do 4 (split; [reflexivity|]). discriminate.
  - exists false. eexists. do 4 (split; [reflexivity|]). discriminate.
Qed.

(** X16.  [crawl_and_summarize] raises exactly when a step outside its
    [try] fails: entering or leaving the playwright context, launching
    the browser, opening the page or closing the browser.  Failures of
    the steps inside the [try] never make it raise. *)
Theorem crawl_and_summarize_raises_iff (b : BrowserRun) (entry : Entry.t) :
  (exists e, crawl_and_summarize b entry = Raise e)
  <-> ~ browser_opens_and_closes b.
Proof.
  unfold browser_opens_and_closes. split.
  - intros [e He] Hopen.
    rewrite (@crawl_and_summarize_open b entry Hopen) in He.
    destruct (crawl_body b entry); discriminate.
  - intros Hnot. unfold crawl_and_summarize, async_with. cbn.
    destruct (playwright_aenter b) as [[]|e1]; [|eauto].
    destruct (playwright_aexit b) as [[]|e5]; [|eauto].
    destruct (chromium_launch b) as [[]|e2]; [|eauto].
    destruct (browser_new_page b) as [[]|e3]; [|eauto].
    destruct (browser_close b) as [[]|e4]; [|eauto].
    exfalso. apply Hnot. repeat split.
Qed.

(** X17.  [save_to_notion] never raises and never writes the session
    store.  It returns true exactly when the notes API accepts the
    request, and then the workspace has one more page: under the
    configured parent, with the given title, the report heading, the
    summary and the link line.  When the API refuses, the workspace is
    unchanged and the error is shown. *)
Theorem save_to_notion_total
  (env : Env) (n : nat) (title : string) (summary : option string)
  (link : string) (w : World) :
  let page :=
    Page.mk (NOTION_PAGE_ID env) title
      [ Page.heading_2 "📌 GPT 5 뉴스 리포트";
        Page.paragraph summary;
        Page.paragraph (Some ("🔗 원문: " +++ link)) ] in
  exists (b : bool) (w' : World),
    save_to_notion env n title summary link w = (Ret b, w')
    /\ session w' = session w
    /\ calls w' = calls w ++ [call_save_to_notion title summary link]
    /\ match notion_pages_create env n page with
       | Ret _ =>
           b = true /\ notion_pages w' = notion_pages w ++ [page] /\ ui w' = ui w
       | Raise e =>
           b = false /\ notion_pages w' = notion_pages w
           /\ ui w' = ui w ++ [st_error_box ("노션 저장 오류: " +++ exn_str e)]
       end.
Proof.
  intros page. unfold save_to_notion, notion_create, log_call, notion_page.
  cbn [bind try_except ret StateExn_Monad notion_pages session ui calls].
  fold page. destruct (notion_pages_create env n page) as [[]|e]; cbn.
  - exists true. eexists. repeat split.
  - exists false. eexists. repeat split.
Qed.

Lemma save_collected_effect (env : Env) :
  forall (results : list Article.t) (n : nat) (w : World),
    exists shown,
      save_collected env n results w
      = (Ret tt,
         mkWorld (session w) (notion_pages w ++ archived_pages env n results)
           (ui w ++ shown) (calls w ++ map auto_collect_call results)).
Proof.
  induction results as [|a rest IH]; intros n w.
  - exists []. cbn. rewrite !app_nil_r. now destruct w.
  - cbn [save_collected archived_pages map bind StateExn_Monad].
    unfold save_to_notion, notion_create, log_call, st_error, st_show.
    cbn [bind try_except ret StateExn_Monad notion_pages session ui calls].
    destruct (notion_pages_create env n _) as [[]|e];
      cbn [bind try_except ret StateExn_Monad notion_pages session ui calls];
      match goal with
      | |- context [save_collected env (S n) rest ?w1] =>
          destruct (IH (S n) w1) as [shown Hrest]; rewrite Hrest
      end;
      cbn [notion_pages session ui calls]; rewrite <- !app_assoc.
    + exists shown. reflexivity.
    + eexists (_ :: shown). reflexivity.
Qed.

Lemma archived_pages_length (env : Env) :
  forall (results : list Article.t) (n : nat),
    List.length (archived_pages env n results) <= List.length results.
Proof.
  induction results as [|a rest IH]; intros n; cbn; [lia|].
  destruct (notion_pages_create env n _); cbn; specialize (IH (S n)); lia.
Qed.

(** X18.  Automatic collection with results.  When the search returns
    records, [auto_collect_news] returns true whatever the notes API
    answers; it appends exactly one collection, holding the keyword, the
    records and the time, to [collected_news]; it makes one archive
    request per record, in order, with the title prefixed by
    [[GPT5 자동수집] ]; the workspace gains the pages the API accepted;
    messages, schedules and [last_check_time] are untouched. *)
Theorem auto_collect_news_collects
  (env : Env) (keyword : string) (results : list Article.t) (text : string)
  (w : World) :
  search_and_process_news env keyword = Ret (Some results, text) ->
  exists w',
    auto_collect_news env keyword w = (Ret true, w')
    /\ SessionState.collected_news (session w')
       = SessionState.collected_news (session w)
           ++ [Collection.mk keyword results (datetime_now_strftime env)]
    /\ SessionState.messages (session w') = SessionState.messages (session w)
    /\ SessionState.schedules (session w') = SessionState.schedules (session w)
    /\ SessionState.last_check_time (session w')
       = SessionState.last_check_time (session w)
    /\ calls w'
       = calls w ++ call_auto_collect_news keyword :: map auto_collect_call results
    /\ notion_pages w' = notion_pages w ++ archived_pages env 0 results
    /\ List.length (archived_pages env 0 results) <= List.length results.
Proof.
  intros Hsearch.
  assert (Hne : list_truthy results = true).
  { destruct (search_inv env keyword _ Hsearch)
      as [[_ H] | (Hfeed & results' & H & Hrs)]; [discriminate|].
    pose proof (f_equal fst H) as H1. cbn [fst] in H1. injection H1 as <-.
    assert (Hlen := @crawled_length env _ 0 results Hrs).
    rewrite length_firstn in Hlen.
    destruct (feedparser_parse env (rss_url keyword)); [congruence|].
    destruct results; [cbn in Hlen; lia | reflexivity]. }
  unfold auto_collect_news, log_call, lift, collected_news_append, put_session.
  cbn [bind try_except ret StateExn_Monad]. rewrite Hsearch.
  cbn [fst]. rewrite Hne.
  cbn [bind try_except ret StateExn_Monad notion_pages session ui calls].
  match goal with
  | |- context [save_collected env 0 results ?w1] =>
      destruct (save_collected_effect env results 0 w1) as [shown Hsave];
        rewrite Hsave
  end.
  eexists. split; [reflexivity|]. cbn. repeat split.
  - now rewrite <- app_assoc.
  - apply archived_pages_length.
Qed.

(** X19.  Automatic collection with a failing search.  When the search
    raises, [auto_collect_news] returns false and shows the error; the
    session store and the notes workspace are what they were and no
    archive request is made. *)
Theorem auto_collect_news_search_fails
  (env : Env) (keyword : string) (e : exn) (w : World) :
  search_and_process_news env keyword = Raise e ->
  auto_collect_news env keyword w
  = (Ret false,
     mkWorld (session w) (notion_pages w)
       (ui w ++ [st_error_box ("자동 수집 오류: " +++ exn_str e)])
       (calls w ++ [call_auto_collect_news keyword])).
Proof.
  intros Hsearch. unfold auto_collect_news, log_call, lift, st_error, st_show.
  cbn [bind try_except ret StateExn_Monad]. rewrite Hsearch. reflexivity.
Qed.

(** *** The feed address and the truncated page text *)

Lemma str_length_append (s t : string) :
  String.length (s +++ t) = String.length s + String.length t.
Proof. induction s as [|a s IH]; cbn; [reflexivity | now rewrite IH]. Qed.

Lemma str_append_cancel_r (x y s : string) : x +++ s = y +++ s -> x = y.
Proof.
  revert y. induction x as [|a x IH]; intros [|b y] H; cbn in H.
  - reflexivity.
  - apply (f_equal String.length) in H. cbn in H.
    rewrite str_length_append in H. lia.
  - apply (f_equal String.length) in H. cbn in H.
    rewrite str_length_append in H. lia.
  - injection H as -> H. f_equal. now apply IH.
Qed.

Lemma hex_digit_code (k : nat) :
  k < 16 ->
  nat_of_ascii (PyStr.hex_digit k) = if k <? 10 then 48 + k else 55 + k.
Proof.
  intros Hk. do 16 (destruct k as [|k]; [reflexivity|]). lia.
Qed.

Lemma hex_digit_inj (j k : nat) :
  j < 16 -> k < 16 -> PyStr.hex_digit j = PyStr.hex_digit k -> j = k.
Proof.
  intros Hj Hk H. apply (f_equal nat_of_ascii) in H.
  rewrite (hex_digit_code j Hj), (hex_digit_code k Hk) in H.
  destruct (j <? 10) eqn:Ej, (k <? 10) eqn:Ek;
    try apply Nat.ltb_lt in Ej; try apply Nat.ltb_lt in Ek;
    try apply Nat.ltb_ge in Ej; try apply Nat.ltb_ge in Ek; lia.
Qed.


Lemma byte_nibbles (a : ascii) :
  nat_of_ascii a / 16 < 16 /\ nat_of_ascii a mod 16 < 16.
Proof.
  pose proof (nat_ascii_bounded a) as Hb. split.
  - apply Nat.Div0.div_lt_upper_bound. lia.
  - apply Nat.mod_upper_bound. lia.
Qed.

Lemma quote_inj : forall s1 s2 : string, PyStr.quote s1 = PyStr.quote s2 -> s1 = s2.
Proof.
  induction s1 as [|a s1 IH]; intros [|b s2]; cbn [PyStr.quote].
  - reflexivity.
  - destruct (PyStr.always_safe b); discriminate.
  - destruct (PyStr.always_safe a); discriminate.
  - destruct (byte_nibbles a) as [Ha1 Ha2]. destruct (byte_nibbles b) as [Hb1 Hb2].
    pose proof (Nat.div_mod_eq (nat_of_ascii a) 16) as Da.
    pose proof (Nat.div_mod_eq (nat_of_ascii b) 16) as Db.
    cbv zeta.
    set (qa := nat_of_ascii a / 16) in *. set (ra := nat_of_ascii a mod 16) in *.
    set (qb := nat_of_ascii b / 16) in *. set (rb := nat_of_ascii b mod 16) in *.
    destruct (PyStr.always_safe a) eqn:Ea, (PyStr.always_safe b) eqn:Eb; intros H.
    + injection H as -> H. f_equal. now apply IH.
    + injection H as -> _. cbv in Ea. discriminate.
    + injection H as <- _. cbv in Eb. discriminate.
    + injection H as H1 H2 H3.
      apply hex_digit_inj in H1; [|assumption..].
      apply hex_digit_inj in H2; [|assumption..].
      assert (Hn : nat_of_ascii a = nat_of_ascii b) by lia.
      apply (f_equal ascii_of_nat) in Hn.
      rewrite !ascii_nat_embedding in Hn. subst b. f_equal. now apply IH.
Qed.

(** X20.  Distinct keywords ask distinct feed addresses: [rss_url], and
    the percent-encoding it relies on, are injective. *)
Theorem rss_url_injective (keyword1 keyword2 : string) :
  rss_url keyword1 = rss_url keyword2 -> keyword1 = keyword2.
Proof.
  unfold rss_url. intros H.
  apply quote_inj, (str_append_cancel_r _ _ "&hl=ko&gl=KR&ceid=KR:ko").
  cbn in H. now inversion H.
Qed.


Lemma code_points_slice_to :
  forall (s : string) (n : nat),
    code_points (PyStr.slice_to n s) = Nat.min n (code_points s).
Proof.
  induction s as [|a rest IH]; intros n; cbn [PyStr.slice_to code_points].
  - now rewrite Nat.min_0_r.
  - destruct (PyStr.is_cont a) eqn:Ea.
    + cbn [code_points]. rewrite Ea. apply IH.
    + destruct n as [|m]; [reflexivity|].
      cbn [code_points]. rewrite Ea, IH. reflexivity.
Qed.

Lemma slice_to_prefix :
  forall (s : string) (n : nat), exists rest, s = PyStr.slice_to n s +++ rest.
Proof.
  induction s as [|a rest IH]; intros n; cbn [PyStr.slice_to].
  - now exists EmptyString.
  - destruct (PyStr.is_cont a).
    + destruct (IH n) as [tail Htail]. exists tail. cbn. now rewrite <- Htail.
    + destruct n as [|m]; [now exists (String a rest)|].
      destruct (IH m) as [tail Htail]. exists tail. cbn. now rewrite <- Htail.
Qed.

Lemma slice_to_whole :
  forall (s : string) (n : nat), code_points s <= n -> PyStr.slice_to n s = s.
Proof.
  induction s as [|a rest IH]; intros n Hn; cbn [PyStr.slice_to code_points] in *.
  - reflexivity.
  - destruct (PyStr.is_cont a).
    + now rewrite IH.
    + destruct n as [|m]; [lia|]. rewrite IH; [reflexivity | lia].
Qed.

(** X22.  The summarizer never receives more than 2500 characters of a
    page: for an entry that carries a link and a title, once the page is
    loaded and its text extracted, the request holds the title and a
    prefix of the text of at most 2500 code points, the whole text when
    it is that short, and the outcome of the crawl body is the first
    choice of the answer to that request. *)
Theorem crawl_body_truncates
  (b : BrowserRun) (entry : Entry.t) (link title content : string) :
  Entry.link entry = Some link ->
  Entry.title entry = Some title ->
  page_goto b link = Ret tt ->
  page_inner_text b = Ret content ->
  let sent := PyStr.slice_to 2500 content in
  crawl_body b entry
  = (response <- summary_create b (summary_request title sent) ;;
     subscript0 (ChatResponse.choices response))
  /\ code_points sent = Nat.min 2500 (code_points content)
  /\ (exists rest, content = sent +++ rest)
  /\ (code_points content <= 2500 -> sent = content).
Proof.
  intros Hlink Htitle Hgoto Htext sent. split; [|split; [|split]].
  - unfold crawl_body. rewrite Hlink, Htitle.
    cbn [entry_attr bind outcome_Monad]. now rewrite Hgoto, Htext.
  - apply code_points_slice_to.
  - apply slice_to_prefix.
  - apply slice_to_whole.
Qed.

(** *** The schedule form without a keyword, and a full round trip *)

(** X23.  A click on the schedule button with an empty keyword adds
    nothing: the run does not restart at the sidebar but goes on to draw
    the page, and it ends with the session store, the notes workspace
    and the call log as they were. *)
Theorem add_schedule_without_keyword (env : Env) (wid : Widgets) (w : World) :
  search_keyword wid = EmptyString ->
  app env wid click_add_schedule w = main_page env click_add_schedule w
  /\ session (snd (app env wid click_add_schedule w)) = session w
  /\ notion_pages (snd (app env wid click_add_schedule w)) = notion_pages w
  /\ calls (snd (app env wid click_add_schedule w)) = calls w.
Proof.
  intros Hkw.
  assert (Happ : app env wid click_add_schedule w
                 = main_page env click_add_schedule w).
  { unfold app, sidebar. rewrite Hkw. reflexivity. }
  split; [exact Happ|]. rewrite Happ. unfold main_page.
  assert (Hev : forall k, click_add_schedule <> click_save k)
    by (intros k; discriminate).
  assert (Hkeep :
    keeps (fun w' => session w' = session w
                     /\ notion_pages w' = notion_pages w /\ calls w' = calls w)
      (render_messages env click_add_schedule (SessionState.messages (session w)) [])).
  { apply keeps_render_messages_idle; [|exact Hev]. intros e w' H. exact H. }
  specialize (Hkeep w (conj eq_refl (conj eq_refl eq_refl))).
  cbn [bind StateExn_Monad get_messages].
  destruct (render_messages env click_add_schedule
              (SessionState.messages (session w)) [] w) as [[[]|e] w'];
    cbn [snd] in Hkeep; cbn; exact Hkeep.
Qed.

Lemma nodup_snoc {A : Type} (l : list A) (x : A) :
  NoDup (x :: l) -> NoDup (l ++ [x]).
Proof.
  intros H. inversion H as [|? ? Hnotin Hl]; subst.
  apply NoDup_app; [exact Hl | repeat constructor; intros [] |].
  intros y Hy [<-|[]]. contradiction.
Qed.

(** X24.  Round trip.  From a reachable world, let a prompt be
    classified as NEWS and the search return records, at a time stamp
    that no earlier news turn carries (the earlier ones being pairwise
    distinct).  Then the run appends the user turn and the news turn
    with those records, and in the world it leaves, a click on the save
    button of the [i]-th record of that turn runs to the end and calls
    [save_to_notion] exactly once, with the title, the summary and the
    link of that record; the run of the prompt itself made no archive
    request. *)
Theorem news_round_trip
  (env1 env2 : Env) (wid : Widgets) (w : World)
  (prompt reply : string) (others : list (option string))
  (results : list Article.t) (text : string) (i : nat) (a : Article.t) :
  reachable w ->
  NoDup (time_time env1 :: news_timestamps (SessionState.messages (session w))) ->
  PyStr.truthy prompt = true ->
  chat_completions_create env1 (intent_request prompt (history_before w))
    = Ret (ChatResponse.mk (Some reply :: others)) ->
  PyStr.Substring "NEWS" (PyStr.upper uc_upper (PyStr.strip uc_isspace reply)) ->
  search_and_process_news env1 prompt = Ret (Some results, text) ->
  nth_error results i = Some a ->
  let w1 := snd (app env1 wid (submit_prompt prompt) w) in
  let turn := assistant_news_message env1 (Some results, text) in
  SessionState.messages (session w1)
  = SessionState.messages (session w)
      ++ [Message.plain "user" (Some prompt); turn]
  /\ exists w2,
       app env2 wid (click_save (button_key i turn)) w1 = (Ret script_finished, w2)
       /\ calls w2
          = calls w
              ++ [call_save_to_notion (Article.title a) (Article.summary a)
                    (Article.link a)].
Proof.
  intros Hreach Hts Hprompt Hreply Hnews Hsearch Hnth w1 turn.
  assert (Hne : list_truthy results = true) by (destruct results; [now destruct i | reflexivity]).
  assert (Hturn : Message.news_results turn = Some results).
  { subst turn. unfold assistant_news_message. cbn [fst Message.news_results].
    now rewrite Hne. }
  destruct (reachable_invariant Hreach) as (_ & _ & _ & _ & Hok).
  assert (Hkeys : NoDup (page_keys (SessionState.messages (session w)))).
  { apply keys_distinct_of_timestamps;
      [now apply reachable_messages_shape | now inversion Hts]. }
  (* the run of the prompt *)
  assert (Hrun : app env1 wid (submit_prompt prompt) w
                 = (Ret script_rerun,
                    with_message turn (after_user_turn prompt (drawn w)))).
  { unfold app, main_page.
    cbn [sidebar bind ret StateExn_Monad get_messages].
    rewrite (render_messages_quiet env1 (submit_prompt prompt))
      by (try assumption; try (intros k; discriminate); intros x _ []).
    fold (drawn w).
    rewrite (chat_input_submit env1 prompt (drawn w) Hprompt).
    rewrite (@check_news_intent_reply env1 prompt (history_before (drawn w))
               reply others (after_user_turn prompt (drawn w)) Hreply).
    apply contains_Substring in Hnews. rewrite Hnews, Hsearch. reflexivity. }
  assert (Hreach1 : reachable w1)
    by exact (reach_run env1 wid (submit_prompt prompt) Hreach).
  assert (Hw1 : w1 = with_message turn (after_user_turn prompt (drawn w)))
    by (subst w1; now rewrite Hrun).
  assert (Hmsgs : SessionState.messages (session w1)
                  = SessionState.messages (session w)
                      ++ [Message.plain "user" (Some prompt); turn]).
  { rewrite Hw1. cbn. now rewrite <- app_assoc. }
  assert (Hcalls1 : calls w1 = calls w) by (rewrite Hw1; reflexivity).
  split; [exact Hmsgs|].
  (* the click *)
  destruct (reachable_invariant Hreach1) as (_ & _ & _ & _ & Hok1).
  assert (Hkeys1 : NoDup (page_keys (SessionState.messages (session w1)))).
  { apply keys_distinct_of_timestamps;
      [now apply reachable_messages_shape|].
    rewrite Hmsgs. unfold news_timestamps. rewrite flat_map_app.
    fold (news_timestamps (SessionState.messages (session w))).
    cbn [flat_map Message.plain Message.news_results app].
    rewrite Hturn. subst turn. cbn [assistant_news_message Message.timestamp].
    now apply nodup_snoc. }
  destruct (@render_messages_calls env2 (button_key i turn)
              (SessionState.messages (session w1)) [] w1 Hok1 Hkeys1)
    as (w2 & Hdraw & Hcalls2).
  { intros x _ []. }
  exists w2. split.
  - unfold app, main_page.
    cbn [sidebar bind ret StateExn_Monad get_messages].
    rewrite Hdraw. reflexivity.
  - rewrite Hcalls2, Hcalls1. f_equal.
    apply (@page_clicks_hit (SessionState.messages (session w1))
             (S (List.length (SessionState.messages (session w)))) turn results i a
             Hkeys1); try assumption; try reflexivity.
    rewrite Hmsgs, nth_error_app2 by lia.
    replace (S (List.length (SessionState.messages (session w)))
             - List.length (SessionState.messages (session w))) with 1 by lia.
    reflexivity.
Qed.

(** *** Repeated button keys *)

Lemma st_button_used (seen : list string) (key : string) (ev : Event) :
  In key seen ->
  exists e, st_button seen key ev = Raise e /\ is_duplicate_widget e.
Proof.
  intros Hin. unfold st_button.
  assert (Hex : existsb (String.eqb key) seen = true).
  { apply existsb_exists. exists key. split; [exact Hin | apply String.eqb_refl]. }
  rewrite Hex. eexists. split; reflexivity.
Qed.

Lemma render_buttons_idle_cases (env : Env) (ev : Event) (m : Message.t) :
  (forall k, ev <> click_save k) ->
  forall (articles : list Article.t) (i0 : nat) (seen : list string) (w : World),
    let keys := map (fun i => button_key i m) (seq i0 (List.length articles)) in
    (keys_free keys seen
     /\ render_buttons env ev m i0 articles seen w = (Ret (rev keys ++ seen), w))
    \/ (~ keys_free keys seen
        /\ exists e,
             render_buttons env ev m i0 articles seen w = (Raise e, w)
             /\ is_duplicate_widget e).
Proof.
  intros Hev.
  induction articles as [|a rest IH]; intros i0 seen w keys.
  - left. split; [split; [constructor | intros x []] | reflexivity].
  - subst keys. cbn [List.length seq map].
    set (key0 := button_key i0 m).
    set (keys' := map (fun i => button_key i m) (seq (S i0) (List.length rest))).
    cbn [render_buttons bind StateExn_Monad]. unfold lift. fold key0.
    destruct (in_dec string_dec key0 seen) as [Hused|Hfresh].
    + right. split.
      * intros [_ Hdisj]. apply (Hdisj key0); [now left | exact Hused].
      * destruct (st_button_used seen key0 ev Hused) as (e & He & Hdup).
        rewrite He. exists e. split; [reflexivity | exact Hdup].
    + rewrite (st_button_fresh_idle seen key0 ev Hev Hfresh).
      cbn [ret StateExn_Monad].
      destruct (IH (S i0) (key0 :: seen) w) as [[[Hnd Hdisj] Hrun] | [Hbad Hrun]].
      * left. split.
        -- split.
           ++ constructor; [|exact Hnd].
              intros Hin. apply (Hdisj key0 Hin). now left.
           ++ intros x [<-|Hx]; [exact Hfresh|].
              intros Hs. apply (Hdisj x Hx). now right.
        -- rewrite Hrun. cbn [rev]. now rewrite <- app_assoc.
      * right. split; [|exact Hrun].
        intros [Hnd Hdisj]. apply Hbad. split.
        -- now inversion Hnd.
        -- intros x Hx [<-|Hs].
           ++ inversion Hnd; subst. contradiction.
           ++ apply (Hdisj x); [now right | exact Hs].
Qed.

Lemma render_messages_idle_cases (env : Env) (ev : Event) :
  (forall k, ev <> click_save k) ->
  forall (messages : list Message.t) (seen : list string) (w : World),
    Forall message_ok messages ->
    (keys_free (page_keys messages) seen
     /\ render_messages env ev messages seen w
        = (Ret tt,
           mkWorld (session w) (notion_pages w) (ui w ++ shown_history messages)
             (calls w)))
    \/ (~ keys_free (page_keys messages) seen
        /\ exists e w',
             render_messages env ev messages seen w = (Raise e, w')
             /\ is_duplicate_widget e).
Proof.
  intros Hev.
  induction messages as [|m rest IH]; intros seen w Hok.
  - left. split; [split; [constructor | intros x []]|].
    cbn. rewrite app_nil_r. now destruct w.
  - inversion Hok as [|? ? Hm Hrest]; subst.
    unfold page_keys. cbn [flat_map]. fold (page_keys rest).
    cbn [render_messages bind StateExn_Monad st_show shown_history map].
    fold (shown_history rest).
    set (w0 := mkWorld (session w) (notion_pages w)
                 (ui w ++ [st_chat_markdown (Message.role m) (Message.content m)])
                 (calls w)).
    assert (Hskip :
      message_keys m = [] ->
      (keys_free (message_keys m ++ page_keys rest) seen
       /\ render_messages env ev rest seen w0
          = (Ret tt,
             mkWorld (session w) (notion_pages w)
               (ui w ++ st_chat_markdown (Message.role m) (Message.content m)
                          :: shown_history rest)
               (calls w)))
      \/ (~ keys_free (message_keys m ++ page_keys rest) seen
          /\ exists e w',
               render_messages env ev rest seen w0 = (Raise e, w')
               /\ is_duplicate_widget e)).
    { intros ->. cbn [app].
      destruct (IH seen w0 Hrest) as [[Hfree Hrun] | [Hbad Hrun]].
      - left. split; [exact Hfree|]. rewrite Hrun.
        cbn [session notion_pages ui calls w0]. now rewrite <- app_assoc.
      - right. split; assumption. }
    unfold message_keys in *.
    destruct (Message.news_results m) as [articles|] eqn:Hnews;
      [|now apply Hskip].
    destruct (String.eqb (Message.role m) "assistant"); [|now apply Hskip].
    clear Hskip.
    assert (Hne : articles <> []) by now apply Hm.
    destruct articles as [|a0 arts]; [congruence|].
    cbn [bind StateExn_Monad lift st_columns List.length].
    destruct (render_buttons_idle_cases env ev m Hev (a0 :: arts) 0 seen w0)
      as [[[Hnd Hdisj] Hrun] | [Hbad (e & Hrun & Hdup)]];
      cbn [List.length] in *; rewrite Hrun.
    + match goal with
      | |- context [render_messages env ev rest ?seen1 w0] =>
          destruct (IH seen1 w0 Hrest) as [[[Hnd2 Hdisj2] Hrun2] | [Hbad2 Hrun2]]
      end.
      * left. split.
        -- split.
           ++ apply NoDup_app; [exact Hnd | exact Hnd2 |].
              intros x Hx Hx2. apply (Hdisj2 x Hx2), in_or_app. left.
              now apply in_rev in Hx.
           ++ intros x Hx Hs. apply in_app_or in Hx. destruct Hx as [Hx|Hx].
              ** exact (Hdisj x Hx Hs).
              ** apply (Hdisj2 x Hx), in_or_app. now right.
        -- rewrite Hrun2. cbn [session notion_pages ui calls w0].
           now rewrite <- app_assoc.
      * right. split; [|exact Hrun2].
        intros [Hnd' Hdisj']. apply Hbad2. split.
        -- exact (NoDup_app_remove_l _ _ Hnd').
        -- intros x Hx Hs. apply in_app_or in Hs. destruct Hs as [Hs|Hs].
           ++ apply in_rev in Hs.
              exact (@NoDup_app_disjoint _ _ _ x Hnd' Hs Hx).
           ++ apply (Hdisj' x); [apply in_or_app; now right | exact Hs].
    + right. split.
      * intros [Hnd' Hdisj']. apply Hbad. split.
        -- exact (NoDup_app_remove_r _ _ Hnd').
        -- intros x Hx. apply Hdisj', in_or_app. now left.
      * exists e, w0. split; [reflexivity | exact Hdup].
Qed.

(** X26.  In a reachable world an idle run either draws the whole page
    and ends at the last line of the script, which happens exactly when
    the button keys of the page are pairwise distinct, or it stops with
    Streamlit's refusal of a repeated widget key. *)
Theorem page_renders_iff_keys_distinct
  (env : Env) (wid : Widgets) (w : World) :
  reachable w ->
  (NoDup (page_keys (SessionState.messages (session w)))
   <-> app env wid no_interaction w = (Ret script_finished, drawn w))
  /\ (~ NoDup (page_keys (SessionState.messages (session w))) ->
      exists e w',
        app env wid no_interaction w = (Raise e, w')
        /\ is_duplicate_widget e).
Proof.
  intros Hreach.
  destruct (reachable_invariant Hreach) as (_ & _ & _ & _ & Hok).
  assert (Hev : forall k, no_interaction <> click_save k)
    by (intros k; discriminate).
  unfold app, main_page.
  cbn [sidebar bind ret StateExn_Monad get_messages].
  destruct (render_messages_idle_cases env no_interaction Hev
              (SessionState.messages (session w)) [] w Hok)
    as [[[Hnd _] Hrun] | [Hbad (e & w' & Hrun & Hdup)]]; rewrite Hrun.
  - split; [split; [reflexivity | intros _; exact Hnd] | contradiction].
  - assert (Hnot : ~ NoDup (page_keys (SessionState.messages (session w)))).
    { intros Hnd. apply Hbad. split; [exact Hnd | intros x _ []]. }
    split; [split; [contradiction | discriminate]|].
    intros _. exists e, w'. split; [reflexivity | exact Hdup].
Qed.

End Properties.

(* ------------------------------------------------------------------ *)
(** ** The model at work *)

Example quote_ai : PyStr.quote "AI news" = "AI%20news".
Proof. reflexivity. Qed.

Example quote_hangul : PyStr.quote "뉴스" = "%EB%89%B4%EC%8A%A4".
Proof. reflexivity. Qed.

Example slice_hangul : PyStr.slice_to 3 "a뉴스b" = "a뉴스".
Proof. reflexivity. Qed.

Example chars_hangul : PyStr.chars "a뉴b" = ["a"; "뉴"; "b"].
Proof. reflexivity. Qed.

Example strip_upper_news :
  PyStr.upper PyStr.ascii_upper (PyStr.strip PyStr.ascii_isspace "  News ")
  = "NEWS".
Proof. reflexivity. Qed.

Example search_env_news_results :
  match search_and_process_news env_news "AI" with
  | Ret (Some results, _) =>
      results
      = [ Article.mk "AI 반도체 수출 증가" "https://news.example.com/a1" (Some "요약");
          Article.mk "생성형 AI 규제 논의" "https://news.example.com/a2" (Some "요약");
          Article.mk "AI 스타트업 투자 확대" "https://news.example.com/a3" (Some "요약") ]
  | _ => False
  end.
Proof. vm_compute. reflexivity. Qed.

Example search_second_goto_fails :
  match search_and_process_news env_second_goto_fails "AI" with
  | Ret (Some results, _) =>
      map Article.summary results
      = [ Some "요약";
          Some "요약 실패: Page.goto: Timeout 30000ms exceeded.";
          Some "요약" ]
  | _ => False
  end.
Proof. vm_compute. reflexivity. Qed.

Example world_news_messages :
  map Message.role (SessionState.messages (session world_news))
  = ["user"; "assistant"]
  /\ page_keys (SessionState.messages (session world_news))
     = [ "notion_0_1735689600.5"; "notion_1_1735689600.5";
         "notion_2_1735689600.5" ].
Proof. vm_compute. split; reflexivity. Qed.

(* ------------------------------------------------------------------ *)
(** ** The statements at concrete inputs *)

Lemma sample_entries_complete :
  forall i entry,
    i < 3 -> nth_error sample_entries i = Some entry -> entry_complete entry.
Proof.
  intros [|[|[|i]]] entry Hi Hnth; try lia; cbn in Hnth; inversion Hnth;
    eexists; eexists; split; reflexivity.
Defined.

Lemma search_three_entries_witness :
  3 <= List.length (feedparser_parse env_news (rss_url "AI"))
  /\ exists results text,
       search_and_process_news env_news "AI" = Ret (Some results, text)
       /\ List.length results = 3
       /\ forall i entry,
            i < 3 ->
            nth_error (feedparser_parse env_news (rss_url "AI")) i = Some entry ->
            exists title link s,
              Entry.title entry = Some title
              /\ Entry.link entry = Some link
              /\ crawl_and_summarize (browser env_news i) entry = Ret s
              /\ nth_error results i = Some (Article.mk title link s).
Proof.
  split; [cbn; lia|].
  apply (search_three_entries env_news "AI"); [cbn; lia | |].
  - exact sample_entries_complete.
  - intros i entry Hi Hnth.
    destruct (sample_entries_complete i entry Hi Hnth) as (t & l & Ht & Hl).
    exists (Some "요약"). unfold crawl_and_summarize, crawl_body.
    rewrite Ht, Hl. reflexivity.
Defined.

(** The sentence of C1 fails on the code: with three entries found, the
    records come back with an empty summary when the model summarizes
    with the empty text, and no record comes back at all when Chromium
    cannot be launched for one of the entries. *)
Lemma search_three_nonempty_counterexample :
  (3 <= List.length (feedparser_parse env_empty_summary (rss_url "AI"))
   /\ ~ three_nonempty_records env_empty_summary "AI")
  /\ (3 <= List.length (feedparser_parse env_second_launch_fails (rss_url "AI"))
      /\ ~ three_nonempty_records env_second_launch_fails "AI").
Proof.
  split; (split; [cbn; lia|]).
  - intros (results & text & Hrun & _ & Hfields).
    vm_compute in Hrun. inversion Hrun; subst results.
    destruct (Hfields _ (or_introl eq_refl)) as (_ & _ & _ & Hsummary).
    apply Hsummary. reflexivity.
  - intros (results & text & Hrun & _). vm_compute in Hrun. discriminate.
Qed.

Lemma search_no_entries_witness :
  feedparser_parse env_no_entries (rss_url "AI") = []
  /\ search_and_process_news env_no_entries "AI"
     = Ret (None, "관련 기사를 찾을 수 없습니다.").
Proof.
  split; [reflexivity|].
  apply (search_no_entries env_no_entries "AI"). reflexivity.
Defined.

Lemma check_news_intent_substring_witness :
  exists b : bool,
    check_news_intent (U := ascii_tables) env_news "AI 뉴스 알려줘" []
      (first_visit [])
    = (Ret b, first_visit [])
    /\ (b = true <-> PyStr.Substring "NEWS" "NEWS")
    /\ (~ PyStr.Substring "NEWS" "NEWS" -> b = false).
Proof.
  apply (check_news_intent_substring (U := ascii_tables) env_news
           "AI 뉴스 알려줘" [] (reply := " news ") (others := [])
           (first_visit [])).
  reflexivity.
Defined.

Lemma check_news_intent_fails_closed_witness :
  check_news_intent (U := ascii_tables) env_offline "안녕" [] (first_visit [])
  = (Ret false,
     mkWorld SessionState.fresh [] [st_error_box "의도 판단 오류: Connection error."] []).
Proof.
  apply (check_news_intent_fails_closed (U := ascii_tables) env_offline
           "안녕" [] (e := api_error) (first_visit [])).
  reflexivity.
Defined.

(** The sentence of C5 fails on the code: when Chromium cannot be
    launched the crawl raises instead of returning an error text, and in
    a search the failure at the second entry aborts the batch. *)
Lemma crawl_launch_failure_counterexample :
  chromium_launch browser_launch_fails = Raise launch_error
  /\ crawl_and_summarize browser_launch_fails
       (Entry.mk (Some "t") (Some "https://l"))
     = Raise launch_error
  /\ ~ returns_inline_error browser_launch_fails
         (Entry.mk (Some "t") (Some "https://l"))
  /\ search_and_process_news env_second_launch_fails "AI" = Raise launch_error.
Proof.
  repeat split.
  intros [text H]. vm_compute in H. discriminate.
Qed.

Lemma crawl_failure_is_inline_witness :
  (forall i entry,
     i < 3 ->
     exists summary,
       crawl_and_summarize (browser env_second_goto_fails i) entry = Ret summary
       /\ forall e,
            (step_fails (browser env_second_goto_fails i) entry e
             \/ crawl_body (browser env_second_goto_fails i) entry = Raise e) ->
            summary = Some ("요약 실패: " +++ exn_str e))
  /\ exists results text,
       search_and_process_news env_second_goto_fails "AI"
       = Ret (Some results, text)
       /\ List.length results
          = Nat.min 3
              (List.length (feedparser_parse env_second_goto_fails (rss_url "AI")))
       /\ forall i entry,
            i < 3 ->
            nth_error (feedparser_parse env_second_goto_fails (rss_url "AI")) i
            = Some entry ->
            exists title link summary,
              Entry.title entry = Some title
              /\ Entry.link entry = Some link
              /\ crawl_and_summarize (browser env_second_goto_fails i) entry
                 = Ret summary
              /\ nth_error results i = Some (Article.mk title link summary)
              /\ forall e,
                   (step_fails (browser env_second_goto_fails i) entry e
                    \/ crawl_body (browser env_second_goto_fails i) entry
                       = Raise e) ->
                   summary = Some ("요약 실패: " +++ exn_str e).
Proof.
  apply (crawl_failure_is_inline env_second_goto_fails "AI").
  - discriminate.
  - intros i _. cbn. destruct (i =? 1); repeat split.
  - exact sample_entries_complete.
Defined.

Lemma save_to_notion_failure_frame_witness :
  exists w',
    save_to_notion env_offline 0 "제목" (Some "요약") "https://l" world_news
    = (Ret false, w')
    /\ SessionState.messages (session w')
       = SessionState.messages (session world_news)
    /\ SessionState.schedules (session w')
       = SessionState.schedules (session world_news)
    /\ SessionState.collected_news (session w')
       = SessionState.collected_news (session world_news)
    /\ SessionState.last_check_time (session w')
       = SessionState.last_check_time (session world_news)
    /\ notion_pages w' = notion_pages world_news
    /\ ui w' = ui world_news ++ [st_error_box ("노션 저장 오류: " +++ exn_str api_error)].
Proof.
  apply (save_to_notion_failure_frame env_offline 0 "제목" (Some "요약")
           "https://l" (e := api_error) world_news).
  reflexivity.
Defined.

Lemma world_one_schedule_reachable : reachable (U := ascii_tables) world_one_schedule.
Proof.
  exact (reach_run (U := ascii_tables) env_news sample_widgets
           click_add_schedule (reach_first_visit [])).
Defined.

Lemma world_news_reachable : reachable (U := ascii_tables) world_news.
Proof.
  exact (reach_run (U := ascii_tables) env_news sample_widgets
           (submit_prompt "AI") (reach_first_visit [])).
Defined.

Lemma add_schedule_appends_witness :
  exists new w',
    app (U := ascii_tables) env_news sample_widgets click_add_schedule
      world_one_schedule
    = (Ret script_rerun, w')
    /\ SessionState.schedules (session w')
       = SessionState.schedules (session world_one_schedule) ++ [new]
    /\ Schedule.active new = true
    /\ (forall s, In s (SessionState.schedules (session world_one_schedule)) ->
          Schedule.id s < Schedule.id new)
    /\ SessionState.messages (session w')
       = SessionState.messages (session world_one_schedule)
    /\ SessionState.collected_news (session w')
       = SessionState.collected_news (session world_one_schedule)
    /\ SessionState.last_check_time (session w')
       = SessionState.last_check_time (session world_one_schedule)
    /\ notion_pages w' = notion_pages world_one_schedule.
Proof.
  apply (add_schedule_appends (U := ascii_tables) env_news sample_widgets
           world_one_schedule_reachable).
  reflexivity.
Defined.

Lemma schedules_are_inert_witness :
  SessionState.collected_news (session world_news) = []
  /\ Forall (fun c => is_auto_collect c = false) (calls world_news)
  /\ forall (env : Env) (wid : Widgets) (ev : Event)
            (schedules' : list Schedule.t),
       let w1 := snd (app (U := ascii_tables) env wid ev world_news) in
       let w2 := snd (app (U := ascii_tables) env wid ev
                        (set_schedules schedules' world_news)) in
       SessionState.messages (session w2) = SessionState.messages (session w1)
       /\ SessionState.collected_news (session w2)
          = SessionState.collected_news (session w1)
       /\ notion_pages w2 = notion_pages w1.
Proof.
  exact (schedules_are_inert (U := ascii_tables) world_news_reachable).
Defined.

Lemma world_news_keys_distinct :
  NoDup (page_keys (SessionState.messages (session world_news))).
Proof.
  vm_compute. repeat constructor; cbn; intuition discriminate.
Defined.

Lemma save_button_archives_its_article_witness :
  exists w',
    app (U := ascii_tables) env_offline sample_widgets
      (click_save (button_key 1 sample_news_message)) world_news
    = (Ret script_finished, w')
    /\ calls w'
       = calls world_news
           ++ [call_save_to_notion "생성형 AI 규제 논의" (Some "요약")
                 "https://news.example.com/a2"].
Proof.
  exact (save_button_archives_its_article (U := ascii_tables)
           env_offline sample_widgets (w := world_news) 1
           (m := sample_news_message) 1
           (a := Article.mk "생성형 AI 규제 논의" "https://news.example.com/a2"
                   (Some "요약"))
           world_news_reachable world_news_keys_distinct
           eq_refl eq_refl eq_refl eq_refl).
Defined.

Lemma auto_collect_news_no_results_witness :
  search_and_process_news env_no_entries "AI"
  = Ret (None, "관련 기사를 찾을 수 없습니다.")
  /\ auto_collect_news env_no_entries "AI" (first_visit [])
     = (Ret true,
        mkWorld SessionState.fresh [] [] [call_auto_collect_news "AI"]).
Proof.
  split; [reflexivity|].
  apply (auto_collect_news_no_results env_no_entries "AI"
           (text := "관련 기사를 찾을 수 없습니다.") (first_visit [])).
  reflexivity.
Defined.

(** Auto-Collect, when it is run, does collect and archive. *)
Example auto_collect_news_runs :
  let w := snd (auto_collect_news env_news "AI" (first_visit [])) in
  List.length (SessionState.collected_news (session w)) = 1
  /\ List.length (notion_pages w) = 3
  /\ List.length (calls w) = 4.
Proof. vm_compute. repeat split. Qed.

(* ------------------------------------------------------------------ *)
(** ** Further statements at concrete inputs *)

Lemma search_env_news : search_and_process_news env_news "AI"
                        = Ret (Some sample_results, sample_text).
Proof. vm_compute. reflexivity. Defined.

Lemma search_second_launch_fails :
  search_and_process_news env_second_launch_fails "AI" = Raise launch_error.
Proof. vm_compute. reflexivity. Defined.

Lemma news_in_upper_news : PyStr.Substring "NEWS" "NEWS".
Proof. exists EmptyString, EmptyString. reflexivity. Defined.

Lemma search_result_shape_witness :
  1 <= List.length sample_results <= 3
  /\ List.length sample_results
     = Nat.min 3 (List.length (feedparser_parse env_news (rss_url "AI")))
  /\ map (fun a => Some (Article.title a)) sample_results
     = map Entry.title (firstn 3 (feedparser_parse env_news (rss_url "AI")))
  /\ map (fun a => Some (Article.link a)) sample_results
     = map Entry.link (firstn 3 (feedparser_parse env_news (rss_url "AI"))).
Proof.
  exact (search_result_shape env_news "AI" (Some sample_results, sample_text)
           search_env_news).
Defined.

Lemma search_aborts_at_first_failure_witness :
  search_and_process_news env_second_launch_fails "AI" = Raise launch_error.
Proof.
  apply (search_aborts_at_first_failure env_second_launch_fails "AI" 1
           (Entry.mk (Some "생성형 AI 규제 논의")
              (Some "https://news.example.com/a2"))
           launch_error).
  - lia.
  - reflexivity.
  - intros j entry_j Hj Hnth. assert (j = 0) by lia. subst j.
    cbn in Hnth. inversion Hnth. split.
    + eexists. eexists. split; reflexivity.
    + exists (Some "요약"). reflexivity.
  - reflexivity.
Defined.

Lemma search_raises_on_incomplete_entry_witness :
  (Entry.title (Entry.mk None (Some "https://news.example.com/a2")) = None
   /\ search_and_process_news env_second_untitled "AI"
      = Raise (missing_attribute "title"))
  \/ (Entry.title (Entry.mk None (Some "https://news.example.com/a2")) <> None
      /\ Entry.link (Entry.mk None (Some "https://news.example.com/a2")) = None
      /\ search_and_process_news env_second_untitled "AI"
         = Raise (missing_attribute "link")).
Proof.
  apply (search_raises_on_incomplete_entry env_second_untitled "AI" 1
           (Entry.mk None (Some "https://news.example.com/a2"))).
  - lia.
  - reflexivity.
  - intros j entry_j Hj Hnth. assert (j = 0) by lia. subst j.
    cbn in Hnth. inversion Hnth. split.
    + eexists. eexists. split; reflexivity.
    + exists (Some "요약"). reflexivity.
  - eexists. reflexivity.
  - intros (t & l & Ht & _). discriminate.
Defined.

(** The crawl of an entry without a title returns the inline error, and
    the search then raises at the record. *)
Example untitled_entry_crawl_and_search :
  crawl_and_summarize (browser env_second_untitled 1)
    (Entry.mk None (Some "https://news.example.com/a2"))
  = Ret (Some "요약 실패: object has no attribute 'title'")
  /\ search_and_process_news env_second_untitled "AI"
     = Raise (Exn "AttributeError" "object has no attribute 'title'").
Proof. vm_compute. split; reflexivity. Qed.

Lemma search_response_text_witness :
  sample_text = response_header "AI" +++ article_blocks 1 sample_results
  /\ forall j a,
       nth_error sample_results j = Some a ->
       PyStr.Substring (article_block (S j) a) sample_text.
Proof.
  exact (search_response_text env_news "AI" sample_results sample_text
           search_env_news).
Defined.

Lemma chat_input_news_path_witness :
  let turn := assistant_news_message env_news (Some sample_results, sample_text) in
  chat_input (U := ascii_tables) env_news (submit_prompt "AI") (first_visit [])
  = (Ret true, with_message turn (after_user_turn "AI" (first_visit [])))
  /\ SessionState.messages
       (session (with_message turn (after_user_turn "AI" (first_visit []))))
     = [Message.plain "user" (Some "AI"); turn]
  /\ Message.content turn = Some sample_text
  /\ Message.timestamp turn = Some "1735689600.5"
  /\ Message.news_results turn = Some sample_results
  /\ 1 <= List.length sample_results <= 3.
Proof.
  exact (chat_input_news_path (U := ascii_tables) env_news "AI" " news " []
           (Some sample_results, sample_text) (first_visit [])
           eq_refl eq_refl news_in_upper_news search_env_news).
Defined.

Lemma chat_input_news_failure_witness :
  chat_input (U := ascii_tables) env_second_launch_fails (submit_prompt "AI")
    (first_visit [])
  = (Raise launch_error, after_user_turn "AI" (first_visit []))
  /\ SessionState.messages (session (after_user_turn "AI" (first_visit [])))
     = [Message.plain "user" (Some "AI")].
Proof.
  exact (chat_input_news_failure (U := ascii_tables) env_second_launch_fails
           "AI" "NEWS" [] launch_error (first_visit [])
           eq_refl eq_refl news_in_upper_news search_second_launch_fails).
Defined.

Lemma chat_input_intent_failure_witness :
  exists response w',
    general_chat_response env_offline "안녕" (history_before (first_visit []))
    = Ret response
    /\ chat_input (U := ascii_tables) env_offline (submit_prompt "안녕")
         (first_visit [])
       = (Ret true, w')
    /\ SessionState.messages (session w')
       = [ Message.plain "user" (Some "안녕");
           Message.plain "assistant" response ]
    /\ ui w'
       = [ st_chat_markdown "user" (Some "안녕");
           st_error_box ("의도 판단 오류: " +++ exn_str api_error) ].
Proof.
  exact (chat_input_intent_failure (U := ascii_tables) env_offline "안녕"
           api_error (first_visit []) eq_refl eq_refl).
Defined.

Lemma chat_input_chat_path_witness :
  exists response w',
    chat_input (U := ascii_tables) env_chat (submit_prompt "안녕") (first_visit [])
    = (Ret true, w')
    /\ general_chat_response env_chat "안녕" [] = Ret response
    /\ SessionState.messages (session w')
       = [ Message.plain "user" (Some "안녕");
           Message.plain "assistant" response ].
Proof.
  apply (@chat_input_chat_path ascii_tables env_chat "안녕" "CHAT" []
           (first_visit [])).
  - reflexivity.
  - reflexivity.
  - intros H. apply contains_Substring in H. vm_compute in H. discriminate.
Defined.

Lemma reachable_schedules_witness :
  Forall (fun s => Schedule.active s = true)
    (SessionState.schedules (session world_one_schedule))
  /\ map Schedule.id (SessionState.schedules (session world_one_schedule))
     = seq 0 (List.length (SessionState.schedules (session world_one_schedule)))
  /\ NoDup (map Schedule.id (SessionState.schedules (session world_one_schedule))).
Proof.
  exact (reachable_schedules (U := ascii_tables) world_one_schedule
           world_one_schedule_reachable).
Defined.

Lemma reachable_messages_witness : message_shape sample_news_message.
Proof.
  apply (reachable_messages (U := ascii_tables) world_news sample_news_message
           world_news_reachable).
  vm_compute. right. left. reflexivity.
Defined.

Lemma only_save_click_archives_witness :
  notion_pages
    (snd (app (U := ascii_tables) env_news sample_widgets (submit_prompt "AI")
            world_news))
  = notion_pages world_news
  /\ calls
       (snd (app (U := ascii_tables) env_news sample_widgets (submit_prompt "AI")
               world_news))
     = calls world_news.
Proof.
  apply (only_save_click_archives (U := ascii_tables) env_news sample_widgets
           (submit_prompt "AI") world_news).
  intros k. discriminate.
Defined.

Lemma page_renders_witness :
  main_page (U := ascii_tables) env_news no_interaction world_news
  = (rerun <- chat_input (U := ascii_tables) env_news no_interaction ;;
     if rerun : bool then ret script_rerun else ret script_finished)
      (drawn world_news)
  /\ app (U := ascii_tables) env_news sample_widgets no_interaction world_news
     = (Ret script_finished, drawn world_news).
Proof.
  apply (page_renders (U := ascii_tables) env_news sample_widgets no_interaction
           world_news world_news_reachable world_news_keys_distinct).
  intros k. discriminate.
Defined.

Lemma distinct_timestamps_distinct_keys_witness :
  NoDup (page_keys (SessionState.messages (session world_news))).
Proof.
  apply (distinct_timestamps_distinct_keys (U := ascii_tables) world_news
           world_news_reachable).
  vm_compute. repeat constructor. intros [].
Defined.

Lemma auto_collect_news_collects_witness :
  exists w',
    auto_collect_news env_second_save_fails "AI" (first_visit []) = (Ret true, w')
    /\ SessionState.collected_news (session w')
       = [Collection.mk "AI" sample_results "2025-01-01 09:00:00"]
    /\ SessionState.messages (session w') = []
    /\ SessionState.schedules (session w') = []
    /\ SessionState.last_check_time (session w') = []
    /\ calls w'
       = call_auto_collect_news "AI" :: map auto_collect_call sample_results
    /\ notion_pages w' = archived_pages env_second_save_fails 0 sample_results
    /\ List.length (archived_pages env_second_save_fails 0 sample_results)
       <= List.length sample_results.
Proof.
  apply (auto_collect_news_collects env_second_save_fails "AI" sample_results
           sample_text (first_visit [])).
  vm_compute. reflexivity.
Defined.

Lemma auto_collect_news_search_fails_witness :
  auto_collect_news env_second_launch_fails "AI" (first_visit [])
  = (Ret false,
     mkWorld SessionState.fresh []
       [st_error_box ("자동 수집 오류: " +++ exn_str launch_error)]
       [call_auto_collect_news "AI"]).
Proof.
  exact (auto_collect_news_search_fails env_second_launch_fails "AI"
           launch_error (first_visit []) search_second_launch_fails).
Defined.

Lemma rss_url_injective_witness : "AI 뉴스" = "AI 뉴스".
Proof.
  apply (rss_url_injective "AI 뉴스" "AI 뉴스"). reflexivity.
Defined.


Lemma crawl_body_truncates_witness :
  let entry := Entry.mk (Some "제목") (Some "https://news.example.com/a1") in
  let b := browser_ok "기사 본문" [Some "요약"] in
  let sent := PyStr.slice_to 2500 "기사 본문" in
  crawl_body b entry
  = (response <- summary_create b (summary_request "제목" sent) ;;
     subscript0 (ChatResponse.choices response))
  /\ code_points sent = Nat.min 2500 (code_points "기사 본문")
  /\ (exists rest, "기사 본문" = sent +++ rest)
  /\ (code_points "기사 본문" <= 2500 -> sent = "기사 본문").
Proof.
  exact (crawl_body_truncates (browser_ok "기사 본문" [Some "요약"])
           (Entry.mk (Some "제목") (Some "https://news.example.com/a1"))
           "https://news.example.com/a1" "제목" "기사 본문"
           eq_refl eq_refl eq_refl eq_refl).
Defined.

Lemma add_schedule_without_keyword_witness :
  app (U := ascii_tables) env_news widgets_no_keyword click_add_schedule world_news
  = main_page (U := ascii_tables) env_news click_add_schedule world_news
  /\ session (snd (app (U := ascii_tables) env_news widgets_no_keyword
                     click_add_schedule world_news))
     = session world_news
  /\ notion_pages (snd (app (U := ascii_tables) env_news widgets_no_keyword
                          click_add_schedule world_news))
     = notion_pages world_news
  /\ calls (snd (app (U := ascii_tables) env_news widgets_no_keyword
                   click_add_schedule world_news))
     = calls world_news.
Proof.
  exact (add_schedule_without_keyword (U := ascii_tables) env_news
           widgets_no_keyword world_news eq_refl).
Defined.

Lemma first_visit_timestamps_fresh :
  NoDup ("1735689600.5" :: news_timestamps (SessionState.messages
                                             (session (first_visit [])))).
Proof. repeat constructor. intros []. Defined.

Lemma news_round_trip_witness :
  let turn := assistant_news_message env_news (Some sample_results, sample_text) in
  SessionState.messages (session world_news)
  = [Message.plain "user" (Some "AI"); turn]
  /\ exists w2,
       app (U := ascii_tables) env_offline sample_widgets
         (click_save (button_key 2 turn)) world_news
       = (Ret script_finished, w2)
       /\ calls w2
          = [call_save_to_notion "AI 스타트업 투자 확대" (Some "요약")
               "https://news.example.com/a3"].
Proof.
  exact (news_round_trip (U := ascii_tables) env_news env_offline sample_widgets
           (first_visit []) "AI" " news " [] sample_results sample_text 2
           (Article.mk "AI 스타트업 투자 확대" "https://news.example.com/a3"
              (Some "요약"))
           (reach_first_visit []) first_visit_timestamps_fresh
           eq_refl eq_refl news_in_upper_news search_env_news eq_refl).
Defined.

Lemma page_renders_iff_keys_distinct_witness :
  (NoDup (page_keys (SessionState.messages (session world_news)))
   <-> app (U := ascii_tables) env_news sample_widgets no_interaction world_news
       = (Ret script_finished, drawn world_news))
  /\ (~ NoDup (page_keys (SessionState.messages (session world_news))) ->
      exists e w',
        app (U := ascii_tables) env_news sample_widgets no_interaction world_news
        = (Raise e, w')
        /\ is_duplicate_widget e).
Proof.
  exact (page_renders_iff_keys_distinct (U := ascii_tables) env_news
           sample_widgets world_news world_news_reachable).
Defined.
